(** * Task manager backend: model and verified properties

    A shallow embedding of the Express/Mongoose backend
    (models/Task.js, models/User.js, utils/validation.js,
    middleware/auth.js, controllers/taskController.js, routes/tasks.js,
    server.js).  Dates are millisecond timestamps, JavaScript objects used
    as dictionaries are finite maps, collections are finite maps from the
    hexadecimal document id to the document, and the clock is an explicit
    argument of every function that reads it. *)

From Stdlib Require Import ZArith String Ascii List Floats Uint63 Lia.
From stdpp Require Import base option list gmap strings sorting pretty.

Set Warnings "-register-all".

Open Scope string_scope.
Open Scope Z_scope.

(** ** JavaScript values and the few primitives the code relies on *)

Module Js.

(** Values found in a parsed JSON body or query string, extended with
    [JDate] for the [Date] objects Joi produces when it converts.  A string
    stands for its sequence of UTF-16 code units, one [ascii] per unit, so
    it covers the strings whose units are all below 256; on these
    [String.length] is [length]. *)
Inductive JsVal : Type :=
| JUndefined
| JNull
| JBool (b : bool)
| JNum (n : Z)
| JStr (s : string)
| JDate (ms : Z)
| JArr (items : list JsVal)
| JObj (fields : list (string * JsVal)).

(** [if (v)]: the truthiness test. *)
Definition truthy (v : JsVal) : bool :=
  match v with
  | JUndefined | JNull => false
  | JBool b => b
  | JNum n => negb (n =? 0)
  | JStr s => negb (String.eqb s "")
  | JDate _ | JArr _ | JObj _ => true
  end.

(** [o[k]] on an object used as a dictionary. *)
Definition get (o : gmap string JsVal) (k : string) : JsVal :=
  default JUndefined (o !! k).

(** [s.startsWith(p)]. *)
Definition startsWith (s p : string) : bool := String.prefix p s.

(** [s.split(' ')]. *)
Fixpoint split_space (s : string) : list string :=
  match s with
  | EmptyString => [EmptyString]
  | String c r =>
      if Ascii.eqb c " "%char then EmptyString :: split_space r
      else match split_space r with
           | h :: t => String c h :: t
           | [] => [String c EmptyString]
           end
  end.

Definition is_space (c : ascii) : bool :=
  let n := nat_of_ascii c in
  ((9 <=? n) && (n <=? 13))%nat || (n =? 32)%nat.

Fixpoint trim_start (s : string) : string :=
  match s with
  | String c r => if is_space c then trim_start r else s
  | EmptyString => EmptyString
  end.

Fixpoint trim_end (s : string) : string :=
  match s with
  | EmptyString => EmptyString
  | String c r =>
      match trim_end r with
      | EmptyString => if is_space c then EmptyString else String c EmptyString
      | r' => String c r'
      end
  end.

(** [s.trim()] (ASCII white space). *)
Definition trim (s : string) : string := trim_end (trim_start s).

(** The time values of [Date]: [new Date(ms)] is a valid date when [ms] is
    within 8.64e15 milliseconds of the epoch, and [Invalid Date] beyond. *)
Definition max_time : Z := 8640000000000000.

Definition valid_time (ms : Z) : option Z :=
  if (- max_time <=? ms) && (ms <=? max_time) then Some ms else None.

End Js.
Export Js.

(** ** What the code uses of Mongoose and MongoDB *)

Module Mongoose.

(** Exceptions the handlers can meet.  Every controller wraps its body in
    [try { ... } catch (error) { res.status(500) ... }]. *)
Inductive Exn :=
| CastError
| ValidationError
| MongoServerError
| JsonWebTokenError
| TokenExpiredError
| NotBeforeError.

Inductive Result (A : Type) : Type :=
| Ok (a : A)
| Throw (e : Exn).
Arguments Ok {A} a.
Arguments Throw {A} e.

#[export] Instance Result_ret : MRet Result := fun A a => Ok a.

#[export] Instance Result_bind : MBind Result := fun A B k r =>
  match r with
  | Ok a => k a
  | Throw e => Throw e
  end.

Fixpoint mapR {A B} (f : A -> Result B) (l : list A) : Result (list B) :=
  match l with
  | [] => Ok []
  | x :: r => y ← f x; ys ← mapR f r; Ok (y :: ys)
  end.

(** *** ObjectId *)

Definition is_hex (c : ascii) : bool :=
  let n := nat_of_ascii c in
  (((48 <=? n) && (n <=? 57)) || ((97 <=? n) && (n <=? 102))
   || ((65 <=? n) && (n <=? 70)))%nat.

Definition hex_lower (c : ascii) : ascii :=
  let n := nat_of_ascii c in
  if ((65 <=? n) && (n <=? 70))%nat then ascii_of_nat (n + 32) else c.

Fixpoint string_forall (p : ascii -> bool) (s : string) : bool :=
  match s with
  | EmptyString => true
  | String c r => p c && string_forall p r
  end.

Fixpoint string_map (f : ascii -> ascii) (s : string) : string :=
  match s with
  | EmptyString => EmptyString
  | String c r => String (f c) (string_map f r)
  end.

(** A string casts to an ObjectId when it is 24 hexadecimal digits.
    (Older drivers also take any string of 12 bytes; no statement below
    depends on such an id.) *)
Definition isValidObjectId (s : string) : bool :=
  (String.length s =? 24)%nat && string_forall is_hex s.

(** Cast of a string to an ObjectId, printed back ([toString()] gives
    lower-case hexadecimal); anything else is a [CastError]. *)
Definition castObjectId (s : string) : Result string :=
  if isValidObjectId s then Ok (string_map hex_lower s) else Throw CastError.

(** *** BSON comparison order, for the values the sort keys take

    MongoDB compares values of different types by type first:
    Null (2) sorts before Boolean (9), which sorts before Date (10). *)
Inductive Bson :=
| BNull
| BBool (b : bool)
| BDate (ms : Z).

Definition bson_rank (v : Bson) : Z :=
  match v with
  | BNull => 2
  | BBool _ => 9
  | BDate _ => 10
  end.

Definition bson_compare (a b : Bson) : comparison :=
  match a, b with
  | BBool x, BBool y => Bool.compare x y
  | BDate x, BDate y => Z.compare x y
  | _, _ => Z.compare (bson_rank a) (bson_rank b)
  end.

(** Sort direction: [1] or [-1]. *)
Inductive Dir := Asc | Desc.

Definition directed (d : Dir) (c : comparison) : comparison :=
  match d with
  | Asc => c
  | Desc => CompOpp c
  end.

(** Comparison of two documents under a sort specification
    [{ k1: d1, k2: d2, ... }], keys in order. *)
Fixpoint compare_by {D} (spec : list ((D -> Bson) * Dir)) (x y : D) : comparison :=
  match spec with
  | [] => Eq
  | (key, d) :: rest =>
      match directed d (bson_compare (key x) (key y)) with
      | Eq => compare_by rest x y
      | c => c
      end
  end.

Definition sort_le {D} (spec : list ((D -> Bson) * Dir)) (x y : D) : Prop :=
  compare_by spec x y <> Gt.

#[export] Instance sort_le_dec {D} (spec : list ((D -> Bson) * Dir)) (x y : D) :
  Decision (sort_le spec x y).
Proof. unfold sort_le. destruct (compare_by spec x y); [left | left | right]; congruence. Defined.

(** [cursor.sort(spec)]. *)
Definition sort {D} (spec : list ((D -> Bson) * Dir)) (l : list D) : list D :=
  merge_sort (sort_le spec) l.

(** *** Schema-type casts *)

Definition cast_string (v : JsVal) : Result (option string) :=
  match v with
  | JUndefined | JNull => Ok None
  | JStr s => Ok (Some s)
  | JNum n => Ok (Some (pretty n))
  | JBool b => Ok (Some (if b then "true" else "false"))
  | JDate _ | JArr _ | JObj _ => Throw CastError
  end.

Definition cast_bool (v : JsVal) : Result (option bool) :=
  match v with
  | JUndefined | JNull => Ok None
  | JBool b => Ok (Some b)
  | JNum n => if n =? 1 then Ok (Some true)
              else if n =? 0 then Ok (Some false) else Throw CastError
  | JStr s =>
      if String.eqb s "true" || String.eqb s "1" || String.eqb s "yes"
      then Ok (Some true)
      else if String.eqb s "false" || String.eqb s "0" || String.eqb s "no"
      then Ok (Some false)
      else Throw CastError
  | JDate _ | JArr _ | JObj _ => Throw CastError
  end.

Definition cast_date (parse_date : string -> option Z) (v : JsVal)
  : Result (option Z) :=
  match v with
  | JUndefined | JNull => Ok None
  | JDate ms | JNum ms =>
      match valid_time ms with
      | Some ms => Ok (Some ms)
      | None => Throw CastError
      end
  | JStr s =>
      if String.eqb s "" then Ok None
      else match parse_date s ≫= valid_time with
           | Some ms => Ok (Some ms)
           | None => Throw CastError
           end
  | JBool _ | JArr _ | JObj _ => Throw CastError
  end.

Definition cast_objectid (v : JsVal) : Result (option string) :=
  match v with
  | JUndefined | JNull => Ok None
  | JStr s => id ← castObjectId s; Ok (Some id)
  | _ => Throw CastError
  end.

Definition cast_string_array (v : JsVal) : Result (option (list string)) :=
  match v with
  | JUndefined => Ok None
  | JArr items =>
      l ← mapR (fun i => s ← cast_string i;
                         match s with
                         | Some s => Ok s
                         | None => Throw CastError
                         end) items;
      Ok (Some l)
  | _ => Throw CastError
  end.

(** Schema validators. *)
Definition maxlength (n : nat) (s : string) : Result unit :=
  if (String.length s <=? n)%nat then Ok tt else Throw ValidationError.

Definition minlength (n : nat) (s : string) : Result unit :=
  if (n <=? String.length s)%nat then Ok tt else Throw ValidationError.

End Mongoose.
Export Mongoose.

(** ** models/Task.js *)

Module TaskModel.

Inductive Status := pending | completed.
Inductive Priority := low | medium | high.

Definition status_eqb (a b : Status) : bool :=
  match a, b with
  | pending, pending | completed, completed => true
  | _, _ => false
  end.

Definition priority_eqb (a b : Priority) : bool :=
  match a, b with
  | low, low | medium, medium | high, high => true
  | _, _ => false
  end.

Definition status_name (s : Status) : string :=
  match s with pending => "pending" | completed => "completed" end.

Definition priority_name (p : Priority) : string :=
  match p with low => "low" | medium => "medium" | high => "high" end.

Definition status_of_string (s : string) : option Status :=
  if String.eqb s "pending" then Some pending
  else if String.eqb s "completed" then Some completed
  else None.

Definition priority_of_string (s : string) : option Priority :=
  if String.eqb s "low" then Some low
  else if String.eqb s "medium" then Some medium
  else if String.eqb s "high" then Some high
  else None.

(** A stored task document.  [dueDate] and [completedAt] default to
    [null]; [notes] has no default. *)
Record Task := mkTask {
  _id : string;
  title : string;
  description : string;
  status : Status;
  priority : Priority;
  dueDate : option Z;
  completedAt : option Z;
  user : string;
  tags : list string;
  isImportant : bool;
  notes : option string;
  createdAt : Z;
  updatedAt : Z
}.

Definition set_title (v : string) (t : Task) : Task :=
  mkTask (_id t) v (description t) (status t) (priority t) (dueDate t)
         (completedAt t) (user t) (tags t) (isImportant t) (notes t)
         (createdAt t) (updatedAt t).

Definition set_description (v : string) (t : Task) : Task :=
  mkTask (_id t) (title t) v (status t) (priority t) (dueDate t)
         (completedAt t) (user t) (tags t) (isImportant t) (notes t)
         (createdAt t) (updatedAt t).

Definition set_status (v : Status) (t : Task) : Task :=
  mkTask (_id t) (title t) (description t) v (priority t) (dueDate t)
         (completedAt t) (user t) (tags t) (isImportant t) (notes t)
         (createdAt t) (updatedAt t).

Definition set_priority (v : Priority) (t : Task) : Task :=
  mkTask (_id t) (title t) (description t) (status t) v (dueDate t)
         (completedAt t) (user t) (tags t) (isImportant t) (notes t)
         (createdAt t) (updatedAt t).

Definition set_dueDate (v : option Z) (t : Task) : Task :=
  mkTask (_id t) (title t) (description t) (status t) (priority t) v
         (completedAt t) (user t) (tags t) (isImportant t) (notes t)
         (createdAt t) (updatedAt t).

Definition set_completedAt (v : option Z) (t : Task) : Task :=
  mkTask (_id t) (title t) (description t) (status t) (priority t) (dueDate t)
         v (user t) (tags t) (isImportant t) (notes t)
         (createdAt t) (updatedAt t).

Definition set_user (v : string) (t : Task) : Task :=
  mkTask (_id t) (title t) (description t) (status t) (priority t) (dueDate t)
         (completedAt t) v (tags t) (isImportant t) (notes t)
         (createdAt t) (updatedAt t).

Definition set_tags (v : list string) (t : Task) : Task :=
  mkTask (_id t) (title t) (description t) (status t) (priority t) (dueDate t)
         (completedAt t) (user t) v (isImportant t) (notes t)
         (createdAt t) (updatedAt t).

Definition set_isImportant (v : bool) (t : Task) : Task :=
  mkTask (_id t) (title t) (description t) (status t) (priority t) (dueDate t)
         (completedAt t) (user t) (tags t) v (notes t)
         (createdAt t) (updatedAt t).

Definition set_notes (v : option string) (t : Task) : Task :=
  mkTask (_id t) (title t) (description t) (status t) (priority t) (dueDate t)
         (completedAt t) (user t) (tags t) (isImportant t) v
         (createdAt t) (updatedAt t).

Definition set_updatedAt (v : Z) (t : Task) : Task :=
  mkTask (_id t) (title t) (description t) (status t) (priority t) (dueDate t)
         (completedAt t) (user t) (tags t) (isImportant t) (notes t)
         (createdAt t) v.

(** The virtual [isCompleted]. *)
Definition isCompleted (t : Task) : bool := status_eqb (status t) completed.

(** The virtual [isOverdue]. *)
Definition isOverdue (now : Z) (t : Task) : bool :=
  match dueDate t with
  | None => false
  | Some d => if status_eqb (status t) completed then false else d <? now
  end.

(** [taskSchema.pre('save')]; [statusModified] is
    [this.isModified('status')]. *)
Definition pre_save (statusModified : bool) (now : Z) (t : Task) : Task :=
  let t1 :=
    if statusModified && status_eqb (status t) completed
       && negb (bool_decide (is_Some (completedAt t)))
    then set_completedAt (Some now) t else t in
  if statusModified && status_eqb (status t1) pending
  then set_completedAt None t1 else t1.

(** The collection. *)
Abbreviation Tasks := (gmap string Task).

(** [doc.save()] of an existing document: the pre-save hook runs and
    the [timestamps] option stamps [updatedAt]. *)
Definition save (statusModified : bool) (now : Z) (t : Task) (db : Tasks)
  : Task * Tasks :=
  let t' := set_updatedAt now (pre_save statusModified now t) in
  (t', <[_id t' := t']> db).

(** [taskSchema.methods.toggleStatus]. *)
Definition toggleStatus (now : Z) (t : Task) (db : Tasks) : Task * Tasks :=
  let t1 := set_status (if status_eqb (status t) pending
                        then completed else pending) t in
  let t2 := if status_eqb (status t1) completed
            then set_completedAt (Some now) t1
            else set_completedAt None t1 in
  save true now t2 db.

(** [taskSchema.methods.toggleImportant]. *)
Definition toggleImportant (now : Z) (t : Task) (db : Tasks) : Task * Tasks :=
  save false now (set_isImportant (negb (isImportant t)) t) db.

(** *** Schema paths: cast, setters ([trim]) and validators *)

(** A path of an incoming object: absent or [undefined] takes the
    default, anything else is cast.  [None] after the cast is [null]. *)
Definition path {A} (data : gmap string JsVal) (k : string)
    (cast : JsVal -> Result (option A)) (dflt : option A) : Result (option A) :=
  match data !! k with
  | None | Some JUndefined => Ok dflt
  | Some v => cast v
  end.

(** The [required] validator; the model also uses it for [null] on a path
    whose validated values are never [null]. *)
Definition required {A} (o : option A) : Result A :=
  match o with
  | Some a => Ok a
  | None => Throw ValidationError
  end.

Definition enum {A} (of_string : string -> option A) (s : string) : Result A :=
  match of_string s with
  | Some a => Ok a
  | None => Throw ValidationError
  end.

Definition valid_title (o : option string) : Result string :=
  s ← required o;
  let s := trim s in
  _ ← minlength 1 s; _ ← maxlength 100 s; Ok s.

Definition valid_description (o : option string) : Result string :=
  s ← required o;
  let s := trim s in
  _ ← maxlength 500 s; Ok s.

Definition valid_status (o : option string) : Result Status :=
  s ← required o; enum status_of_string s.

Definition valid_priority (o : option string) : Result Priority :=
  s ← required o; enum priority_of_string s.

Definition valid_tags (o : option (list string)) : Result (list string) :=
  l ← required o;
  mapR (fun s => let s := trim s in _ ← maxlength 20 s; Ok s) l.

Definition valid_notes (o : option string) : Result (option string) :=
  match o with
  | None => Ok None
  | Some s => let s := trim s in _ ← maxlength 1000 s; Ok (Some s)
  end.

(** *** Queries *)

(** The filter objects the controllers build:
    [{ user, status?, priority?, isImportant?, $or: [{title: {$regex, $options: 'i'}},
    {description: ...}]?, dueDate: {$lt}? }]. *)
Record Filter := mkFilter {
  f_user : string;
  f_status : option string;
  f_priority : option string;
  f_isImportant : option bool;
  f_search : option string;
  f_dueDate_lt : option Z
}.

Definition by_user (u : string) : Filter := mkFilter u None None None None None.

Definition opt_test {A} (o : option A) (p : A -> bool) : bool :=
  match o with
  | None => true
  | Some a => p a
  end.

Section Statics.

(** Date parsing of strings ([new Date(s)], [None] when invalid). *)
Context (parse_date : string -> option Z).
(** Compilation of a [$regex] pattern with option [i]; [None] when the
    pattern is not a regular expression (the server rejects the query). *)
Context (regex : string -> option (string -> bool)).

Definition matches (f : Filter) (t : Task) : bool :=
  String.eqb (user t) (f_user f)
  && opt_test (f_status f) (String.eqb (status_name (status t)))
  && opt_test (f_priority f) (String.eqb (priority_name (priority t)))
  && opt_test (f_isImportant f) (Bool.eqb (isImportant t))
  && opt_test (f_search f) (fun p =>
       match regex p with
       | Some r => r (title t) || r (description t)
       | None => false
       end)
  && opt_test (f_dueDate_lt f) (fun d =>
       match dueDate t with
       | Some x => x <? d
       | None => false
       end).

(** The documents of the collection, in natural order. *)
Definition documents (db : Tasks) : list Task := (map_to_list db).*2.

(** [Task.find(filter)]. *)
Definition find (f : Filter) (db : Tasks) : Result (list Task) :=
  match f_search f with
  | Some p =>
      match regex p with
      | Some _ => Ok (List.filter (matches f) (documents db))
      | None => Throw MongoServerError
      end
  | None => Ok (List.filter (matches f) (documents db))
  end.

(** [Task.countDocuments(filter)]. *)
Definition countDocuments (f : Filter) (db : Tasks) : Result nat :=
  l ← find f db; Ok (length l).

(** [Task.findById(id)]. *)
Definition findById (id : string) (db : Tasks) : Result (option Task) :=
  oid ← castObjectId id; Ok (db !! oid).

(** [task.deleteOne()]. *)
Definition deleteOne (t : Task) (db : Tasks) : Tasks := delete (_id t) db.

(** [Task.create(data)]: cast, defaults, validation, pre-save hook,
    timestamps, insert.  [newId] is the ObjectId the driver generates. *)
Definition create (now : Z) (newId : string) (data : gmap string JsVal)
    (db : Tasks) : Result (Task * Tasks) :=
  title ← path data "title" cast_string None ≫= valid_title;
  description ← path data "description" cast_string (Some "") ≫= valid_description;
  status ← path data "status" cast_string (Some "pending") ≫= valid_status;
  priority ← path data "priority" cast_string (Some "medium") ≫= valid_priority;
  dueDate ← path data "dueDate" (cast_date parse_date) None;
  completedAt ← path data "completedAt" (cast_date parse_date) None;
  user ← path data "user" cast_objectid None ≫= required;
  tags ← path data "tags" cast_string_array (Some []) ≫= valid_tags;
  isImportant ← path data "isImportant" cast_bool (Some false) ≫= required;
  notes ← path data "notes" cast_string None ≫= valid_notes;
  let t := pre_save (bool_decide (is_Some (data !! "status"))) now
             (mkTask newId title description status priority dueDate
                     completedAt user tags isImportant notes now now) in
  Ok (t, <[newId := t]> db).

(** One path of an update object: absent or [undefined] leaves the
    document alone, anything else is cast, validated and set. *)
Definition update_path {A B} (upd : gmap string JsVal) (k : string)
    (cast : JsVal -> Result (option A)) (validate : option A -> Result B)
    (set : B -> Task -> Task) (t : Task) : Result Task :=
  match upd !! k with
  | None | Some JUndefined => Ok t
  | Some v => b ← cast v ≫= validate; Ok (set b t)
  end.

(** The [$set] that [findByIdAndUpdate] performs with [runValidators].
    No document middleware runs: the pre-save hook is not involved. *)
Definition apply_update (upd : gmap string JsVal) (t : Task) : Result Task :=
  t ← update_path upd "title" cast_string valid_title set_title t;
  t ← update_path upd "description" cast_string valid_description set_description t;
  t ← update_path upd "status" cast_string valid_status set_status t;
  t ← update_path upd "priority" cast_string valid_priority set_priority t;
  t ← update_path upd "dueDate" (cast_date parse_date) Ok set_dueDate t;
  t ← update_path upd "completedAt" (cast_date parse_date) Ok set_completedAt t;
  t ← update_path upd "user" cast_objectid required set_user t;
  t ← update_path upd "tags" cast_string_array valid_tags set_tags t;
  t ← update_path upd "isImportant" cast_bool required set_isImportant t;
  update_path upd "notes" cast_string valid_notes set_notes t.

(** [Task.findByIdAndUpdate(id, upd, { new: true, runValidators: true })]. *)
Definition findByIdAndUpdate (now : Z) (id : string) (upd : gmap string JsVal)
    (db : Tasks) : Result (option Task * Tasks) :=
  oid ← castObjectId id;
  match db !! oid with
  | None => Ok (None, db)
  | Some t =>
      t' ← apply_update upd t;
      let t'' := set_updatedAt now t' in
      Ok (Some t'', <[oid := t'']> db)
  end.

(** The sort of the list endpoints:
    [.sort({ isImportant: -1, dueDate: 1, createdAt: -1 })]. *)
Definition list_sort_spec : list ((Task -> Bson) * Dir) :=
  [ (fun t => BBool (isImportant t), Desc);
    (fun t => match dueDate t with Some d => BDate d | None => BNull end, Asc);
    (fun t => BDate (createdAt t), Desc) ].

(** [if (filters.x)] on a string that may be [undefined]. *)
Definition if_set (o : option string) : option string :=
  match o with
  | Some s => if String.eqb s "" then None else Some s
  | None => None
  end.

(** [taskSchema.statics.getUserTasks]. *)
Definition getUserTasks (userId : string) (fstatus fpriority : option string)
    (fimportant : option bool) (db : Tasks) : Result (list Task) :=
  l ← find (mkFilter userId (if_set fstatus) (if_set fpriority) fimportant
                     None None) db;
  Ok (sort list_sort_spec l).

(** [taskSchema.statics.getOverdueTasks] (before its own sort). *)
Definition overdue_filter (userId : string) (now : Z) : Filter :=
  mkFilter userId (Some "pending") None None None (Some now).

(** The sort key of [dueDate]. *)
Definition due_key (t : Task) : Bson :=
  match dueDate t with
  | Some d => BDate d
  | None => BNull
  end.

(** [taskSchema.statics.getOverdueTasks]:
    [find({ user, status: 'pending', dueDate: { $lt: new Date() } }).sort({ dueDate: 1 })].
    The query casts [userId] to the ObjectId type of the path [user]. *)
Definition getOverdueTasks (now : Z) (userId : string) (db : Tasks)
  : Result (list Task) :=
  user ← castObjectId userId;
  l ← find (overdue_filter user now) db;
  Ok (sort [(due_key, Asc)] l).

End Statics.

End TaskModel.
Export TaskModel.

(** ** models/User.js *)

Module UserModel.

Record User := mkUser {
  _id : string;
  name : string;
  email : string;
  avatar : string;
  isActive : bool;
  lastLogin : Z;
  createdAt : Z;
  updatedAt : Z
}.

Abbreviation Users := (gmap string User).

(** [User.findById(id).select('-password')]. *)
Definition findById (id : string) (users : Users) : Result (option User) :=
  oid ← castObjectId id; Ok (users !! oid).

(** The payload [getSignedJwtToken] signs: [{ id, email, name }]. *)
Record Payload := mkPayload {
  p_id : string;
  p_email : string;
  p_name : string
}.

End UserModel.

(** ** HTTP responses *)

Module Http.

Record Statistics := mkStatistics {
  st_total : nat;
  st_completed : nat;
  st_pending : nat;
  st_important : nat
}.

Record Stats := mkStats {
  total : nat;
  completed_count : nat;
  pending_count : nat;
  important : nat;
  overdue : nat;
  completionRate : Z;
  byPriority_high : nat;
  byPriority_medium : nat;
  byPriority_low : nat
}.

(** The [data] / [count] / [errors] part of the envelope. *)
Inductive Payload :=
| NoData
| TaskData (task : Task)
| TaskList (count : nat) (tasks : list Task) (statistics : Statistics)
| StatsData (stats : Stats)
| Errors (errors : list string).

Record Response := mkResponse {
  code : nat;
  success : bool;
  message : string;
  data : Payload
}.

Definition failure (c : nat) (msg : string) : Response :=
  mkResponse c false msg NoData.

End Http.
Export Http.

(** ** utils/validation.js *)

Module Validation.

(** The Joi types the schemas use, with the rules chained on them. *)
Inductive JoiType :=
| JoiString (min max : option nat) (allow_empty : bool) (valid : list string)
| JoiDate (greater_now : bool)
| JoiBoolean
| JoiArray (items : JoiType) (max : option nat).

(** A key of a [Joi.object]: [.required()] / [.optional()],
    [.allow(null)], [.default(v)] and [.messages({...})]. *)
Record JoiKey := mkKey {
  k_type : JoiType;
  k_required : bool;
  k_allow_null : bool;
  k_default : option JsVal;
  k_messages : list (string * string)
}.

Definition Schema := list (string * JoiKey).

Definition dq : string := String (ascii_of_nat 34) EmptyString.

(** Joi's message for an error code when [.messages] overrides nothing. *)
Definition default_message (label code limit : string) : string :=
  let l := dq ++ label ++ dq in
  if String.eqb code "any.required" then l ++ " is required"
  else if String.eqb code "string.base" then l ++ " must be a string"
  else if String.eqb code "string.empty" then l ++ " is not allowed to be empty"
  else if String.eqb code "string.min"
  then l ++ " length must be at least " ++ limit ++ " characters long"
  else if String.eqb code "string.max"
  then l ++ " length must be less than or equal to " ++ limit ++ " characters long"
  else if String.eqb code "any.only" then l ++ " must be one of " ++ limit
  else if String.eqb code "date.base" then l ++ " must be a valid date"
  else if String.eqb code "date.greater" then l ++ " must be greater than " ++ limit
  else if String.eqb code "boolean.base" then l ++ " must be a boolean"
  else if String.eqb code "array.base" then l ++ " must be an array"
  else if String.eqb code "array.max"
  then l ++ " must contain less than or equal to " ++ limit ++ " items"
  else l ++ " is invalid".

Fixpoint assoc (k : string) (l : list (string * string)) : option string :=
  match l with
  | [] => None
  | (k', v) :: r => if String.eqb k k' then Some v else assoc k r
  end.

Definition render (msgs : list (string * string)) (label code limit : string)
  : string :=
  match assoc code msgs with
  | Some m => m
  | None => default_message label code limit
  end.

Definition ascii_lower (c : ascii) : ascii :=
  let n := nat_of_ascii c in
  if ((65 <=? n) && (n <=? 90))%nat then ascii_of_nat (n + 32) else c.

Definition base_code (ty : JoiType) : string :=
  match ty with
  | JoiString _ _ _ _ => "string.base"
  | JoiDate _ => "date.base"
  | JoiBoolean => "boolean.base"
  | JoiArray _ _ => "array.base"
  end.

Section Joi.

Context (parse_date : string -> option Z).

(** Conversion of a value to a date, as [Joi.date()] does in convert mode:
    [new Date(value)], refused when it is [Invalid Date]. *)
Definition to_date (v : JsVal) : option Z :=
  match v with
  | JDate ms | JNum ms => valid_time ms
  | JStr s => parse_date s ≫= valid_time
  | _ => None
  end.

(** Validation of one value against a type: the error messages and the
    converted value. *)
Fixpoint check (now : Z) (msgs : list (string * string)) (ty : JoiType)
    (label : string) (v : JsVal) : list string * JsVal :=
  match ty with
  | JoiString min max allow_empty valid =>
      match valid, v with
      | _ :: _, JStr s =>
          if existsb (String.eqb s) valid then ([], v)
          else ([render msgs label "any.only" "the allowed values"], v)
      | _ :: _, _ => ([render msgs label "any.only" "the allowed values"], v)
      | [], JStr s =>
              if String.eqb s ""
              then (if allow_empty then [] else [render msgs label "string.empty" ""], v)
              else
                (((match min with
                  | Some n => if (String.length s <? n)%nat
                              then [render msgs label "string.min" (pretty n)] else []
                  | None => []
                  end) ++
                 (match max with
                  | Some n => if (n <? String.length s)%nat
                              then [render msgs label "string.max" (pretty n)] else []
                  | None => []
                  end))%list, v)
      | [], _ => ([render msgs label "string.base" ""], v)
      end
  | JoiDate greater_now =>
      match to_date v with
      | Some ms =>
          if greater_now && negb (now <? ms)
          then ([render msgs label "date.greater" "now"], JDate ms)
          else ([], JDate ms)
      | None => ([render msgs label "date.base" ""], v)
      end
  | JoiBoolean =>
      match v with
      | JBool _ => ([], v)
      | JStr s =>
          let s' := string_map ascii_lower s in
          if String.eqb s' "true" then ([], JBool true)
          else if String.eqb s' "false" then ([], JBool false)
          else ([render msgs label "boolean.base" ""], v)
      | _ => ([render msgs label "boolean.base" ""], v)
      end
  | JoiArray items max =>
      match v with
      | JArr l =>
          let rs :=
            (fix go (i : nat) (l : list JsVal) : list (list string * JsVal) :=
               match l with
               | [] => []
               | x :: r =>
                   check now msgs items (label ++ "[" ++ pretty i ++ "]") x
                   :: go (S i) r
               end) 0%nat l in
          ((concat (rs.*1) ++
           (match max with
            | Some n => if (n <? length l)%nat
                        then [render msgs label "array.max" (pretty n)] else []
            | None => []
            end))%list, JArr (rs.*2))
      | _ => ([render msgs label "array.base" ""], v)
      end
  end.

(** One key of the schema against the incoming object; [acc] collects the
    errors ([abortEarly: false]) and the validated object. *)
Definition validate_key (now : Z) (obj : gmap string JsVal)
    (acc : list string * gmap string JsVal) (kv : string * JoiKey)
  : list string * gmap string JsVal :=
  let '(name, k) := kv in
  match obj !! name with
  | None | Some JUndefined =>
      if k_required k
      then ((acc.1 ++ [render (k_messages k) name "any.required" ""])%list, acc.2)
      else match k_default k with
           | Some d => (acc.1, <[name := d]> acc.2)
           | None => acc
           end
  | Some JNull =>
      if k_allow_null k then (acc.1, <[name := JNull]> acc.2)
      else ((acc.1 ++ [render (k_messages k) name (base_code (k_type k)) ""])%list, acc.2)
  | Some v =>
      let r := check now (k_messages k) (k_type k) name v in
      ((acc.1 ++ r.1)%list, <[name := r.2]> acc.2)
  end.

(** [schema.validate(obj, { abortEarly: false, stripUnknown: true })]:
    only the keys of the schema are looked at and copied. *)
Definition schema_validate (now : Z) (schema : Schema) (obj : gmap string JsVal)
  : list string * gmap string JsVal :=
  fold_left (validate_key now obj) schema ([], ∅).

(** [validateRequest(schema)]: a 400 response, or the new [req.body]. *)
Definition validateRequest (schema : Schema) (now : Z) (body : gmap string JsVal)
  : Response + gmap string JsVal :=
  match schema_validate now schema body with
  | ([], value) => inr value
  | (errs, _) => inl (mkResponse 400 false "Validation failed" (Errors errs))
  end.

(** [validateQuery(schema)]: a 400 response, or the new [req.query]. *)
Definition validateQuery (schema : Schema) (now : Z) (query : gmap string JsVal)
  : Response + gmap string JsVal :=
  match schema_validate now schema query with
  | ([], value) => inr value
  | (errs, _) => inl (mkResponse 400 false "Invalid query parameters" (Errors errs))
  end.

End Joi.

Definition optional (ty : JoiType) (msgs : list (string * string)) : JoiKey :=
  mkKey ty false false None msgs.

Definition createTaskSchema : Schema :=
  [ ("title", mkKey (JoiString (Some 1%nat) (Some 100%nat) false []) true false None
       [ ("string.min", "Task title cannot be empty");
         ("string.max", "Task title cannot exceed 100 characters");
         ("any.required", "Task title is required");
         ("string.empty", "Task title cannot be empty") ]);
    ("description", optional (JoiString None (Some 500%nat) true [])
       [ ("string.max", "Task description cannot exceed 500 characters") ]);
    ("priority", mkKey (JoiString None None false ["low"; "medium"; "high"])
       false false (Some (JStr "medium"))
       [ ("any.only", "Priority must be low, medium, or high") ]);
    ("dueDate", mkKey (JoiDate true) false true None
       [ ("date.greater", "Due date must be in the future") ]);
    ("tags", optional (JoiArray (JoiString None (Some 20%nat) false []) (Some 10%nat))
       [ ("array.max", "Cannot have more than 10 tags");
         ("string.max", "Tag cannot exceed 20 characters") ]);
    ("isImportant", mkKey JoiBoolean false false (Some (JBool false)) []);
    ("notes", optional (JoiString None (Some 1000%nat) true [])
       [ ("string.max", "Notes cannot exceed 1000 characters") ]) ].

Definition updateTaskSchema : Schema :=
  [ ("title", optional (JoiString (Some 1%nat) (Some 100%nat) false [])
       [ ("string.min", "Task title cannot be empty");
         ("string.max", "Task title cannot exceed 100 characters");
         ("string.empty", "Task title cannot be empty") ]);
    ("description", optional (JoiString None (Some 500%nat) true [])
       [ ("string.max", "Task description cannot exceed 500 characters") ]);
    ("status", optional (JoiString None None false ["pending"; "completed"])
       [ ("any.only", "Status must be pending or completed") ]);
    ("priority", optional (JoiString None None false ["low"; "medium"; "high"])
       [ ("any.only", "Priority must be low, medium, or high") ]);
    ("dueDate", mkKey (JoiDate false) false true None []);
    ("tags", optional (JoiArray (JoiString None (Some 20%nat) false []) (Some 10%nat))
       [ ("array.max", "Cannot have more than 10 tags");
         ("string.max", "Tag cannot exceed 20 characters") ]);
    ("isImportant", optional JoiBoolean []);
    ("notes", optional (JoiString None (Some 1000%nat) true [])
       [ ("string.max", "Notes cannot exceed 1000 characters") ]) ].

Definition taskFilterSchema : Schema :=
  [ ("status", optional (JoiString None None false ["pending"; "completed"])
       [ ("any.only", "Status must be pending or completed") ]);
    ("priority", optional (JoiString None None false ["low"; "medium"; "high"])
       [ ("any.only", "Priority must be low, medium, or high") ]);
    ("isImportant", optional JoiBoolean []);
    ("search", optional (JoiString None (Some 100%nat) false [])
       [ ("string.max", "Search term cannot exceed 100 characters") ]) ].

End Validation.
Export Validation.

(** ** middleware/auth.js *)

Module Auth.

Import UserModel.

(** The token of an [Authorization] header: taken when the header starts
    with [Bearer], as the second piece of [split(' ')]. *)
Definition bearer_token (authorization : option string) : option string :=
  match authorization with
  | Some h =>
      if negb (String.eqb h "") && startsWith h "Bearer"
      then split_space h !! 1%nat
      else None
  | None => None
  end.

Section Protect.

(** [jwt.verify(token, process.env.JWT_SECRET)]: the decoded payload, or
    the exception thrown. *)
Context (jwt_verify : string -> Result Payload).

(** [protect]: a 401 response, or the user stored in [req.user]. *)
Definition protect (users : Users) (authorization : option string)
  : Response + User :=
  match bearer_token authorization with
  | None | Some EmptyString =>
      inl (failure 401 "Not authorized to access this route. No token provided.")
  | Some token =>
      match (decoded ← jwt_verify token; findById (p_id decoded) users) with
      | Ok None => inl (failure 401 "User not found with this token.")
      | Ok (Some user) =>
          if negb (isActive user)
          then inl (failure 401 "User account is deactivated.")
          else inr user
      | Throw JsonWebTokenError =>
          inl (failure 401 "Invalid token. Please log in again.")
      | Throw TokenExpiredError =>
          inl (failure 401 "Token expired. Please log in again.")
      | Throw _ => inl (failure 401 "Not authorized to access this route.")
      end
  end.

(** [optionalAuth]: it always calls [next()]; the result is [req.user]
    ([None] is [null]). *)
Definition optionalAuth (users : Users) (authorization : option string)
  : option User :=
  match bearer_token authorization with
  | None | Some EmptyString => None
  | Some token =>
      match (decoded ← jwt_verify token; findById (p_id decoded) users) with
      | Ok (Some user) => if isActive user then Some user else None
      | Ok None => None
      | Throw _ => None
      end
  end.

End Protect.

(** [a === b] on the values of a role list (primitives only). *)
Definition strict_eq (a b : JsVal) : bool :=
  match a, b with
  | JUndefined, JUndefined | JNull, JNull => true
  | JBool x, JBool y => Bool.eqb x y
  | JNum x, JNum y => x =? y
  | JStr x, JStr y => String.eqb x y
  | _, _ => false
  end.

(** [req.user.role]: the user schema has no [role] path, so the property
    is [undefined] on every user document. *)
Definition role (u : User) : JsVal := JUndefined.

(** [authorize(...roles)]: a response, or [None] for [next()]. *)
Definition authorize (roles : list JsVal) (req_user : option User)
  : option Response :=
  match req_user with
  | None => Some (failure 401 "Not authorized to access this route.")
  | Some u =>
      if negb (existsb (strict_eq (role u)) roles)
      then Some (failure 403
                   "User role 'undefined' is not authorized to access this route.")
      else None
  end.

End Auth.
Export Auth.

(** ** controllers/taskController.js *)

Module TaskController.

(** [Number(n)] of a count. *)
Definition number (n : nat) : float := PrimFloat.of_uint63 (Uint63.of_Z (Z.of_nat n)).

(** [Math.round(x)] of a finite number, as an integer: the integer nearest
    to [x], ties towards plus infinity, that is [floor (x + 1/2)] computed
    exactly on the binary expansion of [x]. *)
Definition Math_round (x : float) : Z :=
  match Prim2SF x with
  | S754_finite s m e =>
      let n := if s then Z.neg m else Z.pos m in
      if 0 <=? e then n * 2 ^ e
      else (2 * n + 2 ^ (- e)) / 2 ^ (1 - e)
  | _ => 0
  end.

(** [totalTasks > 0 ? Math.round((completedTasks / totalTasks) * 100) : 0]
    in double precision. *)
Definition completion_rate (completedTasks totalTasks : nat) : Z :=
  if (0 <? totalTasks)%nat
  then Math_round (PrimFloat.mul
                     (PrimFloat.div (number completedTasks) (number totalTasks))
                     (number 100))
  else 0.

Section Handlers.

Context (parse_date : string -> option Z).
Context (regex : string -> option (string -> bool)).

Abbreviation find := (TaskModel.find regex).
Abbreviation countDocuments := (TaskModel.countDocuments regex).
Abbreviation create := (TaskModel.create parse_date).
Abbreviation findByIdAndUpdate := (TaskModel.findByIdAndUpdate parse_date).

(** A query-string value used as a filter on a String path. *)
Definition filter_string (v : JsVal) : Result (option string) :=
  if truthy v then cast_string v else Ok None.

(** [{ $regex: search, $options: 'i' }] wants a string. *)
Definition filter_regex (v : JsVal) : Result (option string) :=
  if truthy v
  then match v with
       | JStr s => Ok (Some s)
       | _ => Throw MongoServerError
       end
  else Ok None.

(** [isImportant === 'true']. *)
Definition is_string_true (v : JsVal) : bool :=
  match v with
  | JStr s => String.eqb s "true"
  | _ => false
  end.

Definition is_undefined (v : JsVal) : bool :=
  match v with
  | JUndefined => true
  | _ => false
  end.

(** The filter [getTasks] builds from [req.query]. *)
Definition list_filter (userId : string) (query : gmap string JsVal)
  : Result Filter :=
  fstatus ← filter_string (get query "status");
  fpriority ← filter_string (get query "priority");
  let fimportant :=
    if is_undefined (get query "isImportant") then None
    else Some (is_string_true (get query "isImportant")) in
  fsearch ← filter_regex (get query "search");
  Ok (mkFilter userId fstatus fpriority fimportant fsearch None).

(** [getTasks]. *)
Definition getTasks (query : gmap string JsVal) (caller : UserModel.User)
    (db : Tasks) : Response :=
  let userId := UserModel._id caller in
  match
    (f ← list_filter userId query;
     found ← find f db;
     let tasks := sort list_sort_spec found in
     totalTasks ← countDocuments (by_user userId) db;
     completedTasks ←
       countDocuments (mkFilter userId (Some "completed") None None None None) db;
     pendingTasks ←
       countDocuments (mkFilter userId (Some "pending") None None None None) db;
     importantTasks ←
       countDocuments (mkFilter userId None None (Some true) None None) db;
     Ok (mkResponse 200 true ""
           (TaskList (length tasks) tasks
              (mkStatistics totalTasks completedTasks pendingTasks importantTasks))))
  with
  | Ok res => res
  | Throw _ => failure 500 "Error fetching tasks"
  end.

(** [getTask]. *)
Definition getTask (id : string) (caller : UserModel.User) (db : Tasks)
  : Response :=
  match findById id db with
  | Ok None => failure 404 "Task not found"
  | Ok (Some task) =>
      if negb (String.eqb (user task) (UserModel._id caller))
      then failure 403 "Not authorized to access this task"
      else mkResponse 200 true "" (TaskData task)
  | Throw _ => failure 500 "Error fetching task"
  end.

(** [createTask]: [taskData = { ...req.body, user: req.user.id }]. *)
Definition createTask (now : Z) (newId : string) (body : gmap string JsVal)
    (caller : UserModel.User) (db : Tasks) : Response * Tasks :=
  let taskData := <["user" := JStr (UserModel._id caller)]> body in
  match create now newId taskData db with
  | Ok (task, db') =>
      (mkResponse 201 true "Task created successfully" (TaskData task), db')
  | Throw _ => (failure 500 "Error creating task", db)
  end.

(** [updateTask]. *)
Definition updateTask (now : Z) (id : string) (body : gmap string JsVal)
    (caller : UserModel.User) (db : Tasks) : Response * Tasks :=
  match findById id db with
  | Ok None => (failure 404 "Task not found", db)
  | Ok (Some task) =>
      if negb (String.eqb (user task) (UserModel._id caller))
      then (failure 403 "Not authorized to update this task", db)
      else
        match findByIdAndUpdate now id body db with
        | Ok (Some task', db') =>
            (mkResponse 200 true "Task updated successfully" (TaskData task'), db')
        | Ok (None, db') =>
            (mkResponse 200 true "Task updated successfully" NoData, db')
        | Throw _ => (failure 500 "Error updating task", db)
        end
  | Throw _ => (failure 500 "Error updating task", db)
  end.

(** [deleteTask]. *)
Definition deleteTask (id : string) (caller : UserModel.User) (db : Tasks)
  : Response * Tasks :=
  match findById id db with
  | Ok None => (failure 404 "Task not found", db)
  | Ok (Some task) =>
      if negb (String.eqb (user task) (UserModel._id caller))
      then (failure 403 "Not authorized to delete this task", db)
      else (mkResponse 200 true "Task deleted successfully" NoData,
            deleteOne task db)
  | Throw _ => (failure 500 "Error deleting task", db)
  end.

(** [toggleTaskStatus]. *)
Definition toggleTaskStatus (now : Z) (id : string) (caller : UserModel.User)
    (db : Tasks) : Response * Tasks :=
  match findById id db with
  | Ok None => (failure 404 "Task not found", db)
  | Ok (Some task) =>
      if negb (String.eqb (user task) (UserModel._id caller))
      then (failure 403 "Not authorized to modify this task", db)
      else
        let '(task', db') := toggleStatus now task db in
        (mkResponse 200 true ("Task marked as " ++ status_name (status task'))
                    (TaskData task'), db')
  | Throw _ => (failure 500 "Error toggling task status", db)
  end.

(** [toggleTaskImportance]. *)
Definition toggleTaskImportance (now : Z) (id : string)
    (caller : UserModel.User) (db : Tasks) : Response * Tasks :=
  match findById id db with
  | Ok None => (failure 404 "Task not found", db)
  | Ok (Some task) =>
      if negb (String.eqb (user task) (UserModel._id caller))
      then (failure 403 "Not authorized to modify this task", db)
      else
        let '(task', db') := toggleImportant now task db in
        (mkResponse 200 true
           (if isImportant task' then "Task marked as important"
            else "Task unmarked as important")
           (TaskData task'), db')
  | Throw _ => (failure 500 "Error toggling task importance", db)
  end.

(** [getTaskStats]. *)
Definition getTaskStats (now : Z) (caller : UserModel.User) (db : Tasks)
  : Response :=
  let userId := UserModel._id caller in
  match
    (totalTasks ← countDocuments (by_user userId) db;
     completedTasks ←
       countDocuments (mkFilter userId (Some "completed") None None None None) db;
     pendingTasks ←
       countDocuments (mkFilter userId (Some "pending") None None None None) db;
     importantTasks ←
       countDocuments (mkFilter userId None None (Some true) None None) db;
     overdueTasks ←
       countDocuments (mkFilter userId (Some "pending") None None None (Some now)) db;
     highPriorityTasks ←
       countDocuments (mkFilter userId None (Some "high") None None None) db;
     mediumPriorityTasks ←
       countDocuments (mkFilter userId None (Some "medium") None None None) db;
     lowPriorityTasks ←
       countDocuments (mkFilter userId None (Some "low") None None None) db;
     let completionRate := completion_rate completedTasks totalTasks in
     Ok (mkResponse 200 true ""
           (StatsData
              (mkStats totalTasks completedTasks pendingTasks importantTasks
                       overdueTasks completionRate highPriorityTasks
                       mediumPriorityTasks lowPriorityTasks))))
  with
  | Ok res => res
  | Throw _ => failure 500 "Error fetching task statistics"
  end.

End Handlers.

End TaskController.
Export TaskController.

(** ** server.js and routes/tasks.js *)

Module Server.

(** The task routes of the router. *)
Inductive Route :=
| ListTasks                      (* GET    /api/tasks               *)
| TaskStats                      (* GET    /api/tasks/stats         *)
| GetTask (id : string)          (* GET    /api/tasks/:id           *)
| CreateTask                     (* POST   /api/tasks               *)
| UpdateTask (id : string)       (* PUT    /api/tasks/:id           *)
| DeleteTask (id : string)       (* DELETE /api/tasks/:id           *)
| ToggleStatus (id : string)     (* PATCH  /api/tasks/:id/toggle    *)
| ToggleImportance (id : string) (* PATCH  /api/tasks/:id/important *).

Record Request := mkRequest {
  ip : string;
  authorization : option string;
  route : Route;
  query : gmap string JsVal;
  body : gmap string JsVal
}.

(** What a request reads from its environment: the clock and the
    ObjectId the driver would give a new document. *)
Record Env := mkEnv {
  now : Z;
  newId : string
}.

(** The state of the server: both collections and the limiter's
    counters (hits and end of window, per client address). *)
Record World := mkWorld {
  users : UserModel.Users;
  tasks : Tasks;
  hits : gmap string (nat * Z)
}.

Definition set_tasks (db : Tasks) (w : World) : World :=
  mkWorld (users w) db (hits w).

Definition set_hits (h : gmap string (nat * Z)) (w : World) : World :=
  mkWorld (users w) (tasks w) h.

(** The stages a request to a task route can go through. *)
Inductive Stage :=
| RateLimit
| SchemaValidation
| TokenVerification
| OwnershipCheck
| Handler.

#[export] Instance Stage_eq_dec : EqDecision Stage.
Proof. solve_decision. Defined.

(** What middleware reads and writes on the request object. *)
Record Ctx := mkCtx {
  c_user : option UserModel.User;
  c_query : gmap string JsVal;
  c_body : gmap string JsVal
}.

Inductive Outcome :=
| Next (ctx : Ctx) (w : World)
| Done (res : Response) (w : World).

Definition Layer := Env -> Request -> Ctx -> World -> Outcome.

Definition windowMs : Z := 15 * 60 * 1000.
Definition max_requests : nat := 100.

(** [app.use('/api/', limiter)]: count the hit in the client's window and
    answer 429 beyond [max]. *)
Definition limiter : Layer := fun env req ctx w =>
  let '(n, reset) := default (0%nat, now env + windowMs) (hits w !! ip req) in
  let '(n, reset) := if reset <=? now env then (0%nat, now env + windowMs)
                     else (n, reset) in
  let w' := set_hits (<[ip req := (S n, reset)]> (hits w)) w in
  if (max_requests <? S n)%nat
  then Done (failure 429 "Too many requests from this IP, please try again later.") w'
  else Next ctx w'.

Section Router.

Context (parse_date : string -> option Z).
Context (regex : string -> option (string -> bool)).
Context (jwt_verify : string -> Result UserModel.Payload).

(** [router.use(protect)]. *)
Definition protect_layer : Layer := fun env req ctx w =>
  match protect jwt_verify (users w) (authorization req) with
  | inl res => Done res w
  | inr user => Next (mkCtx (Some user) (c_query ctx) (c_body ctx)) w
  end.

Definition validateRequest_layer (schema : Schema) : Layer := fun env req ctx w =>
  match validateRequest parse_date schema (now env) (c_body ctx) with
  | inl res => Done res w
  | inr value => Next (mkCtx (c_user ctx) (c_query ctx) value) w
  end.

Definition validateQuery_layer (schema : Schema) : Layer := fun env req ctx w =>
  match validateQuery parse_date schema (now env) (c_query ctx) with
  | inl res => Done res w
  | inr value => Next (mkCtx (c_user ctx) value (c_body ctx)) w
  end.

(** A controller as the last layer.  Reading [req.user.id] without a user
    throws inside the controller's [try], hence its 500. *)
Definition controller (r : Route) : Layer := fun env req ctx w =>
  match c_user ctx with
  | None => Done (failure 500 "Error") w
  | Some caller =>
      match r with
      | ListTasks => Done (getTasks regex (c_query ctx) caller (tasks w)) w
      | TaskStats => Done (getTaskStats regex (now env) caller (tasks w)) w
      | GetTask id => Done (getTask id caller (tasks w)) w
      | CreateTask =>
          let '(res, db) :=
            createTask parse_date (now env) (newId env) (c_body ctx) caller (tasks w) in
          Done res (set_tasks db w)
      | UpdateTask id =>
          let '(res, db) :=
            updateTask parse_date (now env) id (c_body ctx) caller (tasks w) in
          Done res (set_tasks db w)
      | DeleteTask id =>
          let '(res, db) := deleteTask id caller (tasks w) in
          Done res (set_tasks db w)
      | ToggleStatus id =>
          let '(res, db) := toggleTaskStatus (now env) id caller (tasks w) in
          Done res (set_tasks db w)
      | ToggleImportance id =>
          let '(res, db) := toggleTaskImportance (now env) id caller (tasks w) in
          Done res (set_tasks db w)
      end
  end.

(** The layers a request to a route meets, in the order Express
    registered them: [app.use('/api/', limiter)], then, in the task
    router, [router.use(protect)], then the route's own middleware.
    (The body parsers sit between the limiter and the router; a request
    here carries its parsed body and query.) *)
Definition stack (r : Route) : list (Stage * Layer) :=
  (RateLimit, limiter) :: (TokenVerification, protect_layer) ::
  match r with
  | ListTasks =>
      [ (SchemaValidation, validateQuery_layer taskFilterSchema);
        (Handler, controller r) ]
  | CreateTask =>
      [ (SchemaValidation, validateRequest_layer createTaskSchema);
        (Handler, controller r) ]
  | UpdateTask _ =>
      [ (SchemaValidation, validateRequest_layer updateTaskSchema);
        (Handler, controller r) ]
  | TaskStats | GetTask _ | DeleteTask _ | ToggleStatus _ | ToggleImportance _ =>
      [ (Handler, controller r) ]
  end.

(** Express runs the layers in order until one of them responds; the
    stages entered are recorded on the way. *)
Fixpoint run (layers : list (Stage * Layer)) (env : Env) (req : Request)
    (ctx : Ctx) (w : World) : list Stage * Response * World :=
  match layers with
  | [] => ([], failure 404 "Route not found", w)
  | (s, layer) :: rest =>
      match layer env req ctx w with
      | Done res w' => ([s], res, w')
      | Next ctx' w' =>
          let '(trace, res, w'') := run rest env req ctx' w' in
          (s :: trace, res, w'')
      end
  end.

(** A request to a task route, from the raw request to the response. *)
Definition serve (env : Env) (req : Request) (w : World)
  : list Stage * Response * World :=
  run (stack (route req)) env req (mkCtx None (query req) (body req)) w.

End Router.

End Server.
Export Server.

(** ** Client state: the reducers of TaskContext and AuthContext *)

Module Client.

(** [TaskFilters]; [{}] has every field absent. *)
Record TaskFilters := mkFilters {
  flt_status : option Status;
  flt_priority : option Priority;
  flt_isImportant : option bool;
  flt_search : option string
}.

Definition no_filters : TaskFilters := mkFilters None None None None.

Record TaskState := mkTaskState {
  tasks : list Task;
  stats : option Stats;
  isLoading : bool;
  filters : TaskFilters;
  isInitialized : bool
}.

Inductive TaskAction :=
| TASKS_LOADING
| TASKS_SUCCESS (payload_tasks : list Task) (payload_stats : option Stats)
| TASKS_FAILURE
| CREATE_TASK_SUCCESS (payload : Task)
| UPDATE_TASK_SUCCESS (payload : Task)
| DELETE_TASK_SUCCESS (payload : string)
| TOGGLE_STATUS_SUCCESS (payload : Task)
| TOGGLE_IMPORTANCE_SUCCESS (payload : Task)
| SET_FILTERS (payload : TaskFilters)
| CLEAR_FILTERS
| GET_STATS_SUCCESS (payload : Stats).

Definition initialTaskState : TaskState :=
  mkTaskState [] None false no_filters false.

(** A task in the client is the JSON the server sent; its [id] is the
    document's [_id] (the schema's [toJSON] has virtuals on).

    [state.tasks.map(task => task.id === payload.id ? payload : task)]. *)
Definition replace_task (payload : Task) (l : list Task) : list Task :=
  List.map (fun task => if String.eqb (_id task) (_id payload) then payload else task) l.

(** [taskReducer]. *)
Definition taskReducer (state : TaskState) (action : TaskAction) : TaskState :=
  match action with
  | TASKS_LOADING =>
      mkTaskState (tasks state) (stats state) true (filters state)
                  (isInitialized state)
  | TASKS_SUCCESS ts st =>
      mkTaskState ts st false (filters state) true
  | TASKS_FAILURE =>
      mkTaskState (tasks state) (stats state) false (filters state)
                  (isInitialized state)
  | CREATE_TASK_SUCCESS payload =>
      mkTaskState (payload :: tasks state) (stats state) (isLoading state)
                  (filters state) (isInitialized state)
  | UPDATE_TASK_SUCCESS payload
  | TOGGLE_STATUS_SUCCESS payload
  | TOGGLE_IMPORTANCE_SUCCESS payload =>
      mkTaskState (replace_task payload (tasks state)) (stats state)
                  (isLoading state) (filters state) (isInitialized state)
  | DELETE_TASK_SUCCESS payload =>
      mkTaskState
        (List.filter (fun task => negb (String.eqb (_id task) payload)) (tasks state))
        (stats state) (isLoading state) (filters state) (isInitialized state)
  | SET_FILTERS payload =>
      mkTaskState (tasks state) (stats state) (isLoading state) payload
                  (isInitialized state)
  | CLEAR_FILTERS =>
      mkTaskState (tasks state) (stats state) (isLoading state) no_filters
                  (isInitialized state)
  | GET_STATS_SUCCESS payload =>
      mkTaskState (tasks state) (Some payload) (isLoading state) (filters state)
                  (isInitialized state)
  end.

Record AuthState := mkAuthState {
  auth_user : option UserModel.User;
  auth_token : option string;
  auth_isLoading : bool;
  isAuthenticated : bool
}.

Inductive AuthAction :=
| AUTH_START
| AUTH_SUCCESS (payload_user : UserModel.User) (payload_token : string)
| AUTH_FAILURE
| LOGOUT
| UPDATE_PROFILE (payload : UserModel.User)
| CLEAR_ERROR.

Definition initialAuthState : AuthState := mkAuthState None None true false.

(** [authReducer]. *)
Definition authReducer (state : AuthState) (action : AuthAction) : AuthState :=
  match action with
  | AUTH_START =>
      mkAuthState (auth_user state) (auth_token state) true (isAuthenticated state)
  | AUTH_SUCCESS u tok => mkAuthState (Some u) (Some tok) false true
  | AUTH_FAILURE | LOGOUT => mkAuthState None None false false
  | UPDATE_PROFILE u =>
      mkAuthState (Some u) (auth_token state) (auth_isLoading state)
                  (isAuthenticated state)
  | CLEAR_ERROR =>
      mkAuthState (auth_user state) (auth_token state) false (isAuthenticated state)
  end.

(** What [ProtectedRoute] renders. *)
Inductive View := Spinner | RedirectToLogin | Children.

(** [ProtectedRoute], on the state [useAuth] gives it. *)
Definition ProtectedRoute (state : AuthState) : View :=
  if auth_isLoading state then Spinner
  else if negb (isAuthenticated state) then RedirectToLogin
  else Children.

End Client.

(** ** Specification-side notions *)

Module Spec.

(** [completedAt] is non-null exactly when the status is completed. *)
Definition completion_consistent (t : Task) : Prop :=
  completedAt t <> None <-> status t = completed.

(** Every document is stored under its own id. *)
Definition well_keyed (db : Tasks) : Prop :=
  forall k t, db !! k = Some t -> _id t = k.

(** A sequence of [toggleStatus] calls on a document, one clock reading
    per call. *)
Fixpoint toggle_times (nows : list Z) (t : Task) (db : Tasks) : Task * Tasks :=
  match nows with
  | [] => (t, db)
  | n :: rest => let '(t', db') := toggleStatus n t db in toggle_times rest t' db'
  end.

(** Due date [a] comes strictly before due date [b], with tasks without
    a due date placed first or last. *)
Definition due_before (nulls_first : bool) (a b : option Z) : Prop :=
  match a, b with
  | Some x, Some y => x < y
  | None, Some _ => nulls_first = true
  | Some _, None => nulls_first = false
  | None, None => False
  end.

(** [t1] may be listed before [t2]: importance descending, then due date
    ascending, then creation time descending. *)
Definition may_precede (nulls_first : bool) (t1 t2 : Task) : Prop :=
  (isImportant t1 = true /\ isImportant t2 = false) \/
  (isImportant t1 = isImportant t2 /\
   (due_before nulls_first (dueDate t1) (dueDate t2) \/
    (dueDate t1 = dueDate t2 /\ createdAt t2 <= createdAt t1))).

(** What the proofs need of a three-way comparison. *)
Record Comparison {A} (cmp : A -> A -> comparison) : Prop := {
  cmp_opp : forall x y, cmp y x = CompOpp (cmp x y);
  cmp_eq_l : forall x y z, cmp x y = Eq -> cmp x z = cmp y z;
  cmp_lt_trans : forall x y z, cmp x y = Lt -> cmp y z = Lt -> cmp x z = Lt
}.

(** Whether a string holds a space. *)
Fixpoint has_space (s : string) : bool :=
  match s with
  | EmptyString => false
  | String c r => Ascii.eqb c " "%char || has_space r
  end.

(** The other status. *)
Definition flip (s : Status) : Status :=
  match s with pending => completed | completed => pending end.

(** The error messages one key of a schema contributes. *)
Definition key_errors (parse_date : string -> option Z) (now : Z)
    (obj : gmap string JsVal) (kv : string * JoiKey) : list string :=
  (validate_key parse_date now obj ([], ∅) kv).1.

(** No stored task changes owner between two states of the collection. *)
Definition owners_preserved (db db' : Tasks) : Prop :=
  forall id t t', db !! id = Some t -> db' !! id = Some t' -> user t' = user t.

(** Whether the limiter refuses the request, and the state once the hit
    is counted. *)
Definition rate_limited (env : Env) (req : Request) (w : World) : bool :=
  match limiter env req (mkCtx None ∅ ∅) w with
  | Done _ _ => true
  | Next _ _ => false
  end.

Definition counted (env : Env) (req : Request) (w : World) : World :=
  match limiter env req (mkCtx None ∅ ∅) w with
  | Done _ w' | Next _ w' => w'
  end.

(** The stages of a route in the order the code registers them. *)
Definition schema_stage (r : Route) : list Stage :=
  match r with
  | ListTasks | CreateTask | UpdateTask _ => [SchemaValidation]
  | _ => []
  end.

Definition code_order (r : Route) : list Stage :=
  [RateLimit; TokenVerification] ++ schema_stage r ++ [Handler].

(** The order the specification gives. *)
Definition specified_order : list Stage :=
  [RateLimit; SchemaValidation; TokenVerification; OwnershipCheck; Handler].

(** The task a route names, if it names one. *)
Definition route_id (r : Route) : option string :=
  match r with
  | GetTask id | UpdateTask id | DeleteTask id
  | ToggleStatus id | ToggleImportance id => Some id
  | ListTasks | TaskStats | CreateTask => None
  end.

(** The validation a route has of its own, on the request object that
    left token verification. *)
Definition validated (parse_date : string -> option Z) (r : Route) (now : Z)
    (ctx : Ctx) : Response + Ctx :=
  match r with
  | ListTasks =>
      match validateQuery parse_date taskFilterSchema now (c_query ctx) with
      | inl res => inl res
      | inr value => inr (mkCtx (c_user ctx) value (c_body ctx))
      end
  | CreateTask =>
      match validateRequest parse_date createTaskSchema now (c_body ctx) with
      | inl res => inl res
      | inr value => inr (mkCtx (c_user ctx) (c_query ctx) value)
      end
  | UpdateTask _ =>
      match validateRequest parse_date updateTaskSchema now (c_body ctx) with
      | inl res => inl res
      | inr value => inr (mkCtx (c_user ctx) (c_query ctx) value)
      end
  | _ => inr ctx
  end.

(** A request answered stage by stage in the order rate limit, token
    verification, schema validation, handler. *)
Definition staged (parse_date : string -> option Z)
    (regex : string -> option (string -> bool))
    (jwt_verify : string -> Result UserModel.Payload)
    (env : Env) (req : Request) (w : World) : list Stage * Response * World :=
  let w1 := counted env req w in
  if rate_limited env req w
  then ([RateLimit],
        failure 429 "Too many requests from this IP, please try again later.", w1)
  else
    match protect jwt_verify (users w) (authorization req) with
    | inl res => ([RateLimit; TokenVerification], res, w1)
    | inr caller =>
        match validated parse_date (route req) (now env)
                (mkCtx (Some caller) (query req) (body req)) with
        | inl res => ([RateLimit; TokenVerification; SchemaValidation], res, w1)
        | inr ctx =>
            match controller parse_date regex (route req) env req ctx w1 with
            | Done res w' => (code_order (route req), res, w')
            | Next _ w' =>
                (code_order (route req), failure 404 "Route not found", w')
            end
        end
    end.

(** The cases of token verification. *)
Section TokenCases.

Context (jwt_verify : string -> Result UserModel.Payload).
Context (users : UserModel.Users) (authorization : option string).

(** The request presents [token] as its bearer token. *)
Definition presents (token : string) : Prop :=
  bearer_token authorization = Some token /\ token <> "".

Definition no_token : Prop := forall token, ~ presents token.

(** Malformed token, invalid signature, expired token: verification
    throws. *)
Definition token_refused : Prop :=
  exists token e, presents token /\ jwt_verify token = Throw e.

(** The subject of the token is no stored user. *)
Definition subject_unknown : Prop :=
  exists token p, presents token /\ jwt_verify token = Ok p /\
    forall u, UserModel.findById (UserModel.p_id p) users <> Ok (Some u).

Definition subject_deactivated : Prop :=
  exists token p u, presents token /\ jwt_verify token = Ok p /\
    UserModel.findById (UserModel.p_id p) users = Ok (Some u) /\
    UserModel.isActive u = false.

(** The token verifies and its subject is the stored, active [user]. *)
Definition authenticated_as (user : UserModel.User) : Prop :=
  exists token p, presents token /\ jwt_verify token = Ok p /\
    UserModel.findById (UserModel.p_id p) users = Ok (Some user) /\
    UserModel.isActive user = true.

End TokenCases.

(** [round(100 * completed / total)] on exact rationals, ties upwards
    like [Math.round], and 0 when there is no task:
    [floor(100 c / t + 1/2) = floor((200 c + t) / (2 t))]. *)
Definition exact_rate (completedTasks totalTasks : nat) : Z :=
  if (0 <? totalTasks)%nat
  then (200 * Z.of_nat completedTasks + Z.of_nat totalTasks)
       / (2 * Z.of_nat totalTasks)
  else 0.

(** The same with ties to the even integer. *)
Definition exact_rate_half_even (completedTasks totalTasks : nat) : Z :=
  if (0 <? totalTasks)%nat
  then
    let c := Z.of_nat completedTasks in
    let t := Z.of_nat totalTasks in
    let q := (100 * c) / t in
    let r := (100 * c) mod t in
    if 2 * r <? t then q
    else if t <? 2 * r then q + 1
    else if Z.even q then q else q + 1
  else 0.

(** The tasks a response lists. *)
Definition listed (res : Response) : list Task :=
  match data res with
  | TaskList _ l _ => l
  | _ => []
  end.

(** A sequence of [PATCH /api/tasks/:id/toggle] requests reaching the
    controller, one clock reading per request. *)
Fixpoint toggle_requests (nows : list Z) (id : string)
    (caller : UserModel.User) (db : Tasks) : list Response * Tasks :=
  match nows with
  | [] => ([], db)
  | n :: rest =>
      let '(res, db') := toggleTaskStatus n id caller db in
      let '(rs, db'') := toggle_requests rest id caller db' in
      (res :: rs, db'')
  end.

(** The limiter on a run of requests of one client, one clock reading
    per request: whether each of them is refused, and the final state. *)
Fixpoint limiter_run (times : list Z) (req : Request) (w : World)
  : list bool * World :=
  match times with
  | [] => ([], w)
  | t :: rest =>
      let env := mkEnv t "" in
      let '(bs, w') := limiter_run rest req (counted env req w) in
      (rate_limited env req w :: bs, w')
  end.

(** A run of reducer actions. *)
Definition auth_run (actions : list Client.AuthAction) : Client.AuthState :=
  fold_left Client.authReducer actions Client.initialAuthState.

(** A schema without the key [name]. *)
Definition other_keys (name : string) (schema : Schema) : Schema :=
  List.filter (fun kv => negb (String.eqb kv.1 name)) schema.

(** The entry one key of a schema puts into the validated object. *)
Definition key_value (parse_date : string -> option Z) (now : Z)
    (obj : gmap string JsVal) (kv : string * JoiKey) : option JsVal :=
  (validate_key parse_date now obj ([], ∅) kv).2 !! kv.1.

(** The loop over the items of an array inside [check], by name. *)
Definition check_items (parse_date : string -> option Z) (now : Z)
    (msgs : list (string * string)) (items : JoiType) (label : string)
  : nat -> list JsVal -> list (list string * JsVal) :=
  fix go (i : nat) (l : list JsVal) : list (list string * JsVal) :=
    match l with
    | [] => []
    | x :: r =>
        check parse_date now msgs items (label ++ "[" ++ pretty i ++ "]") x
        :: go (S i) r
    end.

(** A default that is itself an admissible value of its key. *)
Definition default_admissible (parse_date : string -> option Z) (now : Z)
    (kv : string * JoiKey) : Prop :=
  forall d, k_default kv.2 = Some d ->
    d <> JUndefined /\ d <> JNull /\
    check parse_date now (k_messages kv.2) (k_type kv.2) kv.1 d = ([], d).

End Spec.
Export Spec.

(** ** Sample data *)

Module Samples.

Definition alice_id : string := "aaaaaaaaaaaaaaaaaaaaaaaa".
Definition bob_id : string := "bbbbbbbbbbbbbbbbbbbbbbbb".

Definition alice : UserModel.User :=
  UserModel.mkUser alice_id "Ann" "ann@x.com" "" true 0 0 0.
Definition bob : UserModel.User :=
  UserModel.mkUser bob_id "Bob" "bob@x.com" "" true 0 0 0.
Definition carol : UserModel.User :=
  UserModel.mkUser "cccccccccccccccccccccccc" "Carol" "carol@x.com" "" false 0 0 0.

Definition sample_users : UserModel.Users :=
  <[alice_id := alice]> (<[bob_id := bob]> (<[UserModel._id carol := carol]> ∅)).

(** No string parses as a date; every pattern compiles to the regular
    expression that matches everything. *)
Definition no_dates : string -> option Z := fun _ => None.
Definition any_regex : string -> option (string -> bool) :=
  fun _ => Some (fun _ => true).

(** A verifier that knows four tokens. *)
Definition sample_verify (token : string) : Result UserModel.Payload :=
  if String.eqb token "alice-token"
  then Ok (UserModel.mkPayload alice_id "ann@x.com" "Ann")
  else if String.eqb token "bob-token"
  then Ok (UserModel.mkPayload bob_id "bob@x.com" "Bob")
  else if String.eqb token "carol-token"
  then Ok (UserModel.mkPayload "cccccccccccccccccccccccc" "carol@x.com" "Carol")
  else if String.eqb token "old-token" then Throw TokenExpiredError
  else Throw JsonWebTokenError.

Definition id1 : string := "000000000000000000000001".
Definition id2 : string := "000000000000000000000002".
Definition id3 : string := "000000000000000000000003".
Definition id9 : string := "000000000000000000000009".

(** Alice's task without a due date, created at 1000. *)
Definition task1 : Task :=
  mkTask id1 "Buy milk" "" pending high None None alice_id [] false None 1000 1000.
(** Alice's task due at 5000, created at 2000. *)
Definition task2 : Task :=
  mkTask id2 "Pay rent" "" pending medium (Some 5000) None alice_id [] false None 2000 2000.
(** Bob's task. *)
Definition task3 : Task :=
  mkTask id3 "Call Ann" "" pending low None None bob_id [] false None 3000 3000.

Definition sample_tasks : Tasks :=
  <[id1 := task1]> (<[id2 := task2]> (<[id3 := task3]> ∅)).

(** Ids [00...00] to [00...ff]. *)
Definition hex_digit (n : nat) : ascii :=
  nth n (list_ascii_of_string "0123456789abcdef") "0"%char.

Definition hex_id (n : nat) : string :=
  "0000000000000000000000"
  ++ String (hex_digit (n / 16)) (String (hex_digit (n mod 16)) EmptyString).

(** [n] tasks of Alice, the first [k] of them completed at 500. *)
Definition alice_task (k n : nat) : Task :=
  if (n <? k)%nat
  then mkTask (hex_id n) "Task" "" completed medium None (Some 500) alice_id []
              false None 100 500
  else mkTask (hex_id n) "Task" "" pending medium None None alice_id []
              false None 100 100.

Definition alice_tasks (k n : nat) : Tasks :=
  list_to_map (List.map (fun i => (hex_id i, alice_task k i)) (seq 0 n)).

Definition sample_world : World := mkWorld sample_users sample_tasks ∅.

Definition sample_env : Env := mkEnv 10000 id9.

Definition as_alice (r : Route) (body : gmap string JsVal) : Request :=
  mkRequest "10.0.0.1" (Some "Bearer alice-token") r ∅ body.

Definition sample_serve : Env -> Request -> World -> list Stage * Response * World :=
  serve no_dates any_regex sample_verify.

End Samples.

(** * Properties *)

(** ** Toggling the status *)

Section Toggle.

Lemma toggleStatus_task now t db :
  (toggleStatus now t db).1 =
  set_updatedAt now
    (set_completedAt (match status t with pending => Some now | completed => None end)
       (set_status (flip (status t)) t)).
Proof. destruct t as [i ti de [] pr du co us ta im no cr up]; reflexivity. Qed.

Lemma toggleStatus_store now t db :
  (toggleStatus now t db).2 = <[_id t := (toggleStatus now t db).1]> db.
Proof. destruct t as [i ti de [] pr du co us ta im no cr up]; reflexivity. Qed.

Lemma toggleStatus_status now t db :
  status (toggleStatus now t db).1 = flip (status t).
Proof. rewrite toggleStatus_task. reflexivity. Qed.

Lemma toggleStatus_id now t db : _id (toggleStatus now t db).1 = _id t.
Proof. rewrite toggleStatus_task. reflexivity. Qed.

Lemma toggleStatus_user now t db : user (toggleStatus now t db).1 = user t.
Proof. rewrite toggleStatus_task. reflexivity. Qed.

Lemma toggleStatus_consistent now t db :
  completion_consistent (toggleStatus now t db).1.
Proof.
  rewrite toggleStatus_task. unfold completion_consistent. simpl.
  destruct (status t); simpl; split; intro H; congruence.
Qed.

Lemma toggle_times_cons n rest t db :
  toggle_times (n :: rest) t db =
  toggle_times rest (toggleStatus n t db).1 (toggleStatus n t db).2.
Proof.
  change (toggle_times (n :: rest) t db)
    with (let '(t', db') := toggleStatus n t db in toggle_times rest t' db').
  destruct (toggleStatus n t db); reflexivity.
Qed.

Lemma toggle_times_consistent nows : forall t db,
  completion_consistent t -> completion_consistent (toggle_times nows t db).1.
Proof.
  induction nows as [|n rest IH]; intros t db Ht; [exact Ht|].
  rewrite toggle_times_cons. apply IH, toggleStatus_consistent.
Qed.

Lemma toggle_times_id nows : forall t db, _id (toggle_times nows t db).1 = _id t.
Proof.
  induction nows as [|n rest IH]; intros t db; [reflexivity|].
  rewrite toggle_times_cons, IH. apply toggleStatus_id.
Qed.

Lemma toggle_times_stored n nows : forall t db,
  (toggle_times (n :: nows) t db).2 !! _id t = Some (toggle_times (n :: nows) t db).1.
Proof.
  revert n. induction nows as [|m rest IH]; intros n t db.
  - rewrite toggle_times_cons. cbn [toggle_times fst snd].
    rewrite toggleStatus_store. apply lookup_insert_eq.
  - rewrite toggle_times_cons.
    rewrite <- (toggleStatus_id n t db). apply IH.
Qed.

Lemma findById_cast id oid db :
  castObjectId id = Ok oid -> findById id db = Ok (db !! oid).
Proof. unfold findById. intros ->. reflexivity. Qed.

Lemma toggleTaskStatus_owner n id oid t caller db :
  castObjectId id = Ok oid -> db !! oid = Some t ->
  user t = UserModel._id caller ->
  toggleTaskStatus n id caller db =
  (mkResponse 200 true ("Task marked as " ++ status_name (status (toggleStatus n t db).1))
              (TaskData (toggleStatus n t db).1),
   (toggleStatus n t db).2).
Proof.
  intros Hc Hl Hu. unfold toggleTaskStatus.
  rewrite (findById_cast _ _ _ Hc), Hl, Hu, String.eqb_refl. cbn [negb].
  destruct (toggleStatus n t db); reflexivity.
Qed.

Lemma toggle_requests_owner id oid caller nows : forall t db,
  castObjectId id = Ok oid -> db !! oid = Some t -> _id t = oid ->
  user t = UserModel._id caller ->
  Forall (fun r => code r = 200%nat) (toggle_requests nows id caller db).1 /\
  (toggle_requests nows id caller db).2 !! oid = Some (toggle_times nows t db).1 /\
  (toggle_requests nows id caller db).2 = (toggle_times nows t db).2.
Proof.
  induction nows as [|n rest IH]; intros t db Hc Hl Hi Hu.
  - simpl. auto.
  - rewrite toggle_times_cons.
    cbn [toggle_requests].
    rewrite (toggleTaskStatus_owner n id oid t caller db Hc Hl Hu).
    specialize (IH (toggleStatus n t db).1 (toggleStatus n t db).2 Hc).
    destruct IH as (IH1 & IH2 & IH3).
    + rewrite toggleStatus_store, <- Hi. apply lookup_insert_eq.
    + rewrite toggleStatus_id. exact Hi.
    + rewrite toggleStatus_user. exact Hu.
    + destruct (toggle_requests rest id caller (toggleStatus n t db).2) as [rs db''].
      simpl in *. split; [constructor; [reflexivity | exact IH1] | auto].
Qed.

End Toggle.

(** C4: toggling a task twice gives back its original status, and after
    any non-empty sequence of toggles [completedAt] is non-null exactly
    when the status is completed.  This holds for the model method
    [toggleStatus] on every task, and for the owner's toggle requests on a
    stored task, which all succeed and store what the method computes. *)
Theorem toggle_twice_restores_status (t : Task) (db : Tasks) :
  (forall n1 n2, status (toggle_times [n1; n2] t db).1 = status t) /\
  (forall n nows, completion_consistent (toggle_times (n :: nows) t db).1) /\
  (forall id oid caller nows,
     castObjectId id = Ok oid -> db !! oid = Some t -> _id t = oid ->
     user t = UserModel._id caller ->
     Forall (fun r => code r = 200%nat) (toggle_requests nows id caller db).1 /\
     (toggle_requests nows id caller db).2 !! oid = Some (toggle_times nows t db).1).
Proof.
  split; [|split].
  - intros n1 n2. rewrite !toggle_times_cons. cbn [toggle_times fst].
    rewrite !toggleStatus_status. destruct (status t); reflexivity.
  - intros n nows. rewrite toggle_times_cons.
    apply toggle_times_consistent, toggleStatus_consistent.
  - intros id oid caller nows Hc Hl Hi Hu.
    destruct (toggle_requests_owner id oid caller nows t db Hc Hl Hi Hu) as (H1 & H2 & _).
    auto.
Qed.

Lemma toggle_twice_restores_status_witness :
  Forall (fun r => code r = 200%nat)
    (toggle_requests [20000; 30000] Samples.id1 Samples.alice Samples.sample_tasks).1 /\
  (toggle_requests [20000; 30000] Samples.id1 Samples.alice Samples.sample_tasks).2
    !! Samples.id1
  = Some (toggle_times [20000; 30000] Samples.task1 Samples.sample_tasks).1.
Proof.
  destruct (toggle_twice_restores_status Samples.task1 Samples.sample_tasks)
    as (_ & _ & H).
  apply (H Samples.id1 Samples.id1 Samples.alice [20000; 30000]);
    vm_compute; reflexivity.
Defined.

(** ** Full update and the completion timestamp *)

(** C2: a full update that sets the status to completed is answered 200
    and stores the task as completed with [completedAt] still null, because
    [findByIdAndUpdate] does not run the pre-save hook that the toggle
    relies on. *)
Theorem put_completed_leaves_completedAt_null :
  let req := Samples.as_alice (UpdateTask Samples.id1)
               {[ "status" := JStr "completed" ]} in
  let '(_, res, w) := Samples.sample_serve Samples.sample_env req Samples.sample_world in
  code res = 200%nat /\
  exists t, tasks w !! Samples.id1 = Some t /\
            status t = completed /\ completedAt t = None /\
            ~ completion_consistent t.
Proof.
  vm_compute. split; [reflexivity|].
  eexists. split; [reflexivity|]. split; [reflexivity|]. split; [reflexivity|].
  unfold completion_consistent. simpl. intros [_ H]. apply H; reflexivity.
Qed.

(** ** The order of [cursor.sort] *)

Section SortOrder.

Lemma cmp_eq_r {A} (cmp : A -> A -> comparison) (H : Comparison cmp) x y z :
  cmp y z = Eq -> cmp x y = cmp x z.
Proof.
  intros E.
  assert (E' : cmp z y = Eq) by (rewrite (cmp_opp _ H), E; reflexivity).
  pose proof (cmp_eq_l _ H z y x E') as Hz.
  rewrite (cmp_opp _ H y x), (cmp_opp _ H z x), Hz. reflexivity.
Qed.

Lemma Z_compare_laws : Comparison Z.compare.
Proof.
  split.
  - intros x y. apply Z.compare_antisym.
  - intros x y z E. apply Z.compare_eq in E. subst. reflexivity.
  - intros x y z. rewrite !Z.compare_lt_iff. lia.
Qed.

Lemma bool_compare_laws : Comparison Bool.compare.
Proof. split; intros [] [] ; try intros []; simpl; congruence. Qed.

Lemma bson_compare_laws : Comparison bson_compare.
Proof.
  split.
  - intros [|a|a] [|b|b]; simpl; try reflexivity.
    + apply (cmp_opp _ bool_compare_laws).
    + apply Z.compare_antisym.
  - intros [|a|a] [|b|b] [|c|c]; simpl;
      try reflexivity; try solve [intros; vm_compute in *; congruence].
    + apply (cmp_eq_l _ bool_compare_laws).
    + intros E. apply Z.compare_eq in E. subst. reflexivity.
  - intros [|a|a] [|b|b] [|c|c]; simpl;
      try solve [intros; vm_compute in *; congruence].
    + apply (cmp_lt_trans _ bool_compare_laws).
    + apply (cmp_lt_trans _ Z_compare_laws).
Qed.

Lemma directed_laws {A} (cmp : A -> A -> comparison) d :
  Comparison cmp -> Comparison (fun x y => directed d (cmp x y)).
Proof.
  intros H. destruct d; simpl.
  - destruct H; split; assumption.
  - split.
    + intros x y. rewrite (cmp_opp _ H x y). reflexivity.
    + intros x y z E. f_equal. apply (cmp_eq_l _ H).
      destruct (cmp x y); simpl in E; congruence.
    + intros x y z E1 E2.
      assert (cmp z y = Lt) by (rewrite (cmp_opp _ H); destruct (cmp y z); simpl in *; congruence).
      assert (cmp y x = Lt) by (rewrite (cmp_opp _ H); destruct (cmp x y); simpl in *; congruence).
      assert (E : cmp z x = Lt) by (eapply (cmp_lt_trans _ H); eassumption).
      rewrite (cmp_opp _ H x z) in E. destruct (cmp x z); simpl in *; congruence.
Qed.

Lemma compare_by_laws {D} (spec : list ((D -> Bson) * Dir)) :
  Comparison (compare_by spec).
Proof.
  induction spec as [|[key d] rest IH].
  - split; simpl; congruence.
  - pose proof (directed_laws (fun x y => bson_compare (key x) (key y)) d) as Hk.
    assert (K : Comparison (fun x y : D => directed d (bson_compare (key x) (key y)))).
    { apply Hk. destruct bson_compare_laws as [o e l]. split; intros; auto.
      eapply l; eassumption. }
    clear Hk. set (k := fun x y : D => directed d (bson_compare (key x) (key y))) in *.
    assert (U : forall x y, compare_by ((key, d) :: rest) x y =
                            match k x y with Eq => compare_by rest x y | c => c end)
      by reflexivity.
    split.
    + intros x y. rewrite !U, (cmp_opp _ K x y).
      destruct (k x y); simpl; [apply (cmp_opp _ IH) | reflexivity | reflexivity].
    + intros x y z. rewrite !U. destruct (k x y) eqn:E; try congruence.
      intros E'. rewrite (cmp_eq_l _ K x y z E).
      destruct (k y z); [apply (cmp_eq_l _ IH); exact E' | reflexivity | reflexivity].
    + intros x y z. rewrite !U.
      destruct (k x y) eqn:E1; try congruence; destruct (k y z) eqn:E2; try congruence;
        intros H1 H2.
      * rewrite (cmp_eq_l _ K x y z E1), E2. eapply (cmp_lt_trans _ IH); eassumption.
      * rewrite (cmp_eq_l _ K x y z E1), E2. reflexivity.
      * rewrite <- (cmp_eq_r _ K x y z E2), E1. reflexivity.
      * rewrite (cmp_lt_trans _ K x y z E1 E2). reflexivity.
Qed.

#[local] Instance sort_le_total {D} (spec : list ((D -> Bson) * Dir)) :
  Total (sort_le spec).
Proof.
  intros x y. unfold sort_le.
  rewrite (cmp_opp _ (compare_by_laws spec) x y).
  destruct (compare_by spec x y); simpl; [left | left | right]; congruence.
Qed.

#[local] Instance sort_le_trans {D} (spec : list ((D -> Bson) * Dir)) :
  Transitive (sort_le spec).
Proof.
  intros x y z. unfold sort_le. pose proof (compare_by_laws spec) as L.
  destruct (compare_by spec x y) eqn:E1; [| |congruence]; intros _.
  - rewrite (cmp_eq_l _ L x y z E1). auto.
  - destruct (compare_by spec y z) eqn:E2; [| |congruence]; intros _.
    + rewrite <- (cmp_eq_r _ L x y z E2), E1. congruence.
    + rewrite (cmp_lt_trans _ L x y z E1 E2). congruence.
Qed.

Lemma sort_sorted {D} (spec : list ((D -> Bson) * Dir)) (l : list D) :
  StronglySorted (sort_le spec) (sort spec l).
Proof. apply StronglySorted_merge_sort; apply _. Qed.

Lemma sort_perm {D} (spec : list ((D -> Bson) * Dir)) (l : list D) :
  sort spec l ≡ₚ l.
Proof. apply merge_sort_Permutation. Qed.

End SortOrder.

(** ** Listing tasks *)

Section Listing.

Context (regex : string -> option (string -> bool)).

Lemma sort_le_may_precede (t1 t2 : Task) :
  sort_le list_sort_spec t1 t2 -> may_precede true t1 t2.
Proof.
  intros H. unfold sort_le, list_sort_spec in H.
  cbn [compare_by directed bson_compare] in H.
  unfold may_precede, due_before.
  destruct (isImportant t1), (isImportant t2),
    (dueDate t1) as [d1|], (dueDate t2) as [d2|];
    cbn [bson_compare Bool.compare CompOpp bson_rank] in H;
    try change (2 ?= 2) with Eq in H;
    try change (2 ?= 10) with Lt in H;
    try change (10 ?= 2) with Gt in H;
    repeat match type of H with
           | context [Z.compare ?a ?b] =>
               destruct (Z.compare_spec a b); cbn [CompOpp] in H
           end;
    try congruence; intuition (try lia; try congruence).
Qed.

Lemma StronglySorted_weaken {A} (R R' : A -> A -> Prop) l :
  (forall x y, R x y -> R' x y) -> StronglySorted R l -> StronglySorted R' l.
Proof.
  intros H. induction 1 as [|x l Hs IH Hf]; constructor; [exact IH|].
  eapply Forall_impl; [exact Hf | auto].
Qed.

Lemma sorted_list_order (l : list Task) :
  StronglySorted (may_precede true) (sort list_sort_spec l).
Proof.
  eapply StronglySorted_weaken; [apply sort_le_may_precede | apply sort_sorted].
Qed.

Lemma countDocuments_plain f db :
  f_search f = None ->
  countDocuments regex f db = Ok (length (List.filter (matches regex f) (documents db))).
Proof. intros H. unfold TaskModel.countDocuments, TaskModel.find. rewrite H. reflexivity. Qed.

Lemma find_found f db found :
  TaskModel.find regex f db = Ok found ->
  found = List.filter (matches regex f) (documents db).
Proof.
  unfold TaskModel.find. destruct (f_search f) as [p|]; [destruct (regex p)|];
    congruence.
Qed.

(** The response of [getTasks], once the filter is built and the query
    has run: the counts of the statistics never fail. *)
Lemma getTasks_found query caller db f found :
  list_filter (UserModel._id caller) query = Ok f ->
  TaskModel.find regex f db = Ok found ->
  getTasks regex query caller db =
  let uid := UserModel._id caller in
  let n g := length (List.filter (matches regex g) (documents db)) in
  mkResponse 200 true ""
    (TaskList (length (sort list_sort_spec found)) (sort list_sort_spec found)
       (mkStatistics
          (n (by_user uid))
          (n (mkFilter uid (Some "completed") None None None None))
          (n (mkFilter uid (Some "pending") None None None None))
          (n (mkFilter uid None None (Some true) None None)))).
Proof.
  intros Hf Hq. unfold getTasks. rewrite Hf. cbn [mbind Result_bind].
  rewrite Hq. cbn [mbind Result_bind].
  rewrite !countDocuments_plain by reflexivity. reflexivity.
Qed.

Lemma getTasks_failed query caller db :
  (forall f found, list_filter (UserModel._id caller) query = Ok f ->
                   TaskModel.find regex f db = Ok found -> False) ->
  getTasks regex query caller db = failure 500 "Error fetching tasks".
Proof.
  intros H. unfold getTasks.
  destruct (list_filter (UserModel._id caller) query) as [f|e] eqn:Hf;
    [|reflexivity].
  cbn [mbind Result_bind].
  destruct (TaskModel.find regex f db) as [found|e] eqn:Hq; [|reflexivity].
  exfalso. eapply H; eauto.
Qed.

Lemma getTasks_listed_sorted query caller db :
  StronglySorted (may_precede true) (listed (getTasks regex query caller db)).
Proof.
  destruct (list_filter (UserModel._id caller) query) as [f|e] eqn:Hf.
  - destruct (TaskModel.find regex f db) as [found|e] eqn:Hq.
    + rewrite (getTasks_found _ _ _ _ _ Hf Hq). apply sorted_list_order.
    + rewrite getTasks_failed; [constructor|]. intros; congruence.
  - rewrite getTasks_failed; [constructor|]. intros; congruence.
Qed.

End Listing.

(** C1 (amended): whatever the filters, the tasks of a list response are
    ordered by importance descending, then due date ascending with the
    tasks WITHOUT a due date FIRST, then creation time descending; the
    response is a 200 listing exactly the matching tasks whenever the
    query runs, and [getUserTasks] sorts the same way. *)
Theorem list_sorted_nulls_first (regex : string -> option (string -> bool))
    (query : gmap string JsVal) (caller : UserModel.User) (db : Tasks) :
  StronglySorted (may_precede true) (listed (getTasks regex query caller db)) /\
  (forall f found,
     list_filter (UserModel._id caller) query = Ok f ->
     TaskModel.find regex f db = Ok found ->
     code (getTasks regex query caller db) = 200%nat /\
     listed (getTasks regex query caller db) ≡ₚ
       List.filter (matches regex f) (documents db)) /\
  (forall fstatus fpriority fimportant,
     exists l,
       getUserTasks regex (UserModel._id caller) fstatus fpriority fimportant db = Ok l /\
       StronglySorted (may_precede true) l).
Proof.
  split; [apply getTasks_listed_sorted|split].
  - intros f found Hf Hq. rewrite (getTasks_found _ _ _ _ _ _ Hf Hq).
    split; [reflexivity|]. cbn [listed data].
    rewrite sort_perm. rewrite (find_found _ _ _ _ Hq). reflexivity.
  - intros fs fp fi. eexists. split; [reflexivity|]. apply sorted_list_order.
Qed.

Lemma list_sorted_nulls_first_witness :
  let res := getTasks Samples.any_regex {[ "status" := JStr "pending" ]}
               Samples.alice Samples.sample_tasks in
  code res = 200%nat /\ listed res ≡ₚ [Samples.task1; Samples.task2].
Proof.
  destruct (list_sorted_nulls_first Samples.any_regex {[ "status" := JStr "pending" ]}
              Samples.alice Samples.sample_tasks) as (_ & H & _).
  apply (H (mkFilter Samples.alice_id (Some "pending") None None None None)
           [Samples.task1; Samples.task2]); vm_compute; reflexivity.
Defined.

(** C1 as stated fails: Alice's task without a due date is listed before
    her task that has one, so the list is not in an order that places
    tasks without a due date last. *)
Lemma list_puts_missing_due_date_first :
  let '(_, res, _) :=
    Samples.sample_serve Samples.sample_env
      (Samples.as_alice ListTasks ∅) Samples.sample_world in
  code res = 200%nat /\
  listed res = [Samples.task1; Samples.task2] /\
  ~ StronglySorted (may_precede false) (listed res).
Proof.
  vm_compute. split; [reflexivity|]. split; [reflexivity|].
  intros H. inversion H as [|x l Hs Hf]; subst.
  inversion Hf as [|y l' Hp _]; subst.
  destruct Hp as [[E _]|[_ [E|[E _]]]]; discriminate E.
Qed.

(** ** Statistics next to the list *)

Section ListStatistics.

Context (regex : string -> option (string -> bool)).

Lemma filter_length_eq_iff {A} (p q : A -> bool) (l : list A) :
  (forall x, p x = true -> q x = true) ->
  (length (List.filter p l) = length (List.filter q l) <->
   forall x, In x l -> q x = true -> p x = true).
Proof.
  intros Hpq. induction l as [|a l IH]; simpl.
  - split; [intros _ x [] | reflexivity].
  - assert (Hle : (length (List.filter p l) <= length (List.filter q l))%nat).
    { clear IH. induction l as [|b l IHl]; simpl; [lia|].
      destruct (p b) eqn:Ep.
      - rewrite (Hpq b Ep). simpl. lia.
      - destruct (q b); simpl; lia. }
    destruct (p a) eqn:Ep.
    + rewrite (Hpq a Ep). simpl. split.
      * intros E x [->|Hx] Hq; [exact Ep|]. apply IH; [lia | exact Hx | exact Hq].
      * intros H. f_equal. apply IH. intros x Hx. apply H. right. exact Hx.
    + destruct (q a) eqn:Eq; simpl.
      * split; [intros E; lia|]. intros H. specialize (H a (or_introl eq_refl) Eq).
        congruence.
      * split.
        -- intros E x [->|Hx] Hq; [congruence|]. apply IH; assumption.
        -- intros H. apply IH. intros x Hx. apply H. right. exact Hx.
Qed.

Lemma list_filter_user uid query f :
  list_filter uid query = Ok f -> f_user f = uid.
Proof.
  unfold list_filter.
  destruct (filter_string (get query "status")); [|discriminate].
  destruct (filter_string (get query "priority")); [|discriminate].
  destruct (filter_regex (get query "search")); [|discriminate].
  cbn [mbind Result_bind]. intros [= <-]. reflexivity.
Qed.

Lemma matches_by_user uid t :
  matches regex (by_user uid) t = String.eqb (user t) uid.
Proof. unfold matches, by_user. simpl. rewrite !andb_true_r. reflexivity. Qed.

Lemma matches_owned f t :
  matches regex f t = true -> String.eqb (user t) (f_user f) = true.
Proof.
  unfold matches. intros H.
  repeat (apply andb_prop in H; destruct H as [H _]). exact H.
Qed.

End ListStatistics.

(** C10: in a list response the statistics count all of the caller's
    tasks (all, completed, pending, important), whatever the filters of
    the request, while [count] is the length of the filtered list; the
    count equals the total exactly when every task of the caller passes
    the filters. *)
Theorem list_statistics_ignore_filters
    (regex : string -> option (string -> bool))
    (query : gmap string JsVal) (caller : UserModel.User) (db : Tasks)
    (f : Filter) (found : list Task) :
  list_filter (UserModel._id caller) query = Ok f ->
  TaskModel.find regex f db = Ok found ->
  let uid := UserModel._id caller in
  let mine t := String.eqb (user t) uid in
  let count_of p := length (List.filter (fun t => mine t && p t) (documents db)) in
  exists n l st,
    data (getTasks regex query caller db) = TaskList n l st /\
    st_total st = count_of (fun _ => true) /\
    st_completed st = count_of (fun t => status_eqb (status t) completed) /\
    st_pending st = count_of (fun t => status_eqb (status t) pending) /\
    st_important st = count_of isImportant /\
    n = length l /\
    l ≡ₚ List.filter (matches regex f) (documents db) /\
    (n = st_total st <->
     forall t, In t (documents db) -> user t = uid -> matches regex f t = true).
Proof.
  intros Hf Hq uid mine count_of.
  rewrite (getTasks_found _ _ _ _ _ _ Hf Hq). cbn zeta.
  do 3 eexists. split; [reflexivity|]. cbn [st_total st_completed st_pending st_important].
  assert (Hext : forall (p q : Task -> bool), (forall t, p t = q t) ->
            length (List.filter p (documents db)) = length (List.filter q (documents db))).
  { intros p q E. f_equal. apply List.filter_ext. exact E. }
  split; [|split; [|split; [|split; [|split; [|split]]]]].
  - apply Hext. intros t. unfold matches, by_user. simpl.
    unfold mine. rewrite !andb_true_r. reflexivity.
  - apply Hext. intros t. unfold matches. simpl. unfold mine.
    rewrite !andb_true_r. destruct (status t); reflexivity.
  - apply Hext. intros t. unfold matches. simpl. unfold mine.
    rewrite !andb_true_r. destruct (status t); reflexivity.
  - apply Hext. intros t. unfold matches. simpl. unfold mine.
    rewrite !andb_true_r. destruct (isImportant t); reflexivity.
  - reflexivity.
  - rewrite sort_perm, (find_found _ _ _ _ Hq). reflexivity.
  - rewrite (Permutation_length (sort_perm _ _)), (find_found _ _ _ _ Hq).
    rewrite filter_length_eq_iff.
    + split; intros H t Hin Hu; apply H; auto.
      * rewrite matches_by_user. apply String.eqb_eq. exact Hu.
      * rewrite matches_by_user in Hu. apply String.eqb_eq in Hu. exact Hu.
    + intros t Hm. rewrite matches_by_user.
      rewrite <- (list_filter_user _ _ _ Hf). eapply matches_owned. exact Hm.
Qed.

Lemma list_statistics_ignore_filters_witness :
  exists n l st,
    data (getTasks Samples.any_regex {[ "priority" := JStr "high" ]}
            Samples.alice Samples.sample_tasks) = TaskList n l st /\
    st_total st = 2%nat /\ n = 1%nat.
Proof.
  destruct (list_statistics_ignore_filters Samples.any_regex
              {[ "priority" := JStr "high" ]} Samples.alice Samples.sample_tasks
              (mkFilter Samples.alice_id None (Some "high") None None None)
              [Samples.task1])
    as (n & l & st & Hd & Ht & _ & _ & _ & Hn & Hl & _);
    [vm_compute; reflexivity | vm_compute; reflexivity |].
  exists n, l, st. split; [exact Hd|]. split; [rewrite Ht; vm_compute; reflexivity|].
  rewrite Hn, (Permutation_length Hl). vm_compute; reflexivity.
Defined.

(** ** Ownership and missing tasks *)

Section Ownership.

Context (parse_date : string -> option Z).

Lemma eqb_neq_false (a b : string) : a <> b -> String.eqb a b = false.
Proof. intros H. apply String.eqb_neq. exact H. Qed.

(** A stored task of somebody else: every id route answers 403 and leaves
    the collection as it was. *)
Lemma foreign_task_forbidden id oid t caller db now body :
  castObjectId id = Ok oid -> db !! oid = Some t ->
  user t <> UserModel._id caller ->
  code (getTask id caller db) = 403%nat /\
  (code (updateTask parse_date now id body caller db).1 = 403%nat /\
   (updateTask parse_date now id body caller db).2 = db) /\
  (code (deleteTask id caller db).1 = 403%nat /\ (deleteTask id caller db).2 = db) /\
  (code (toggleTaskStatus now id caller db).1 = 403%nat /\
   (toggleTaskStatus now id caller db).2 = db) /\
  (code (toggleTaskImportance now id caller db).1 = 403%nat /\
   (toggleTaskImportance now id caller db).2 = db).
Proof.
  intros Hc Hl Hu.
  unfold getTask, updateTask, deleteTask, toggleTaskStatus, toggleTaskImportance.
  rewrite (findById_cast _ _ _ Hc), Hl, (eqb_neq_false _ _ Hu). cbn.
  repeat split; reflexivity.
Qed.

(** A well-formed id that is not in the collection: 404, nothing changes. *)
Lemma absent_task_not_found id oid caller db now body :
  castObjectId id = Ok oid -> db !! oid = None ->
  code (getTask id caller db) = 404%nat /\
  (code (updateTask parse_date now id body caller db).1 = 404%nat /\
   (updateTask parse_date now id body caller db).2 = db) /\
  (code (deleteTask id caller db).1 = 404%nat /\ (deleteTask id caller db).2 = db) /\
  (code (toggleTaskStatus now id caller db).1 = 404%nat /\
   (toggleTaskStatus now id caller db).2 = db) /\
  (code (toggleTaskImportance now id caller db).1 = 404%nat /\
   (toggleTaskImportance now id caller db).2 = db).
Proof.
  intros Hc Hl.
  unfold getTask, updateTask, deleteTask, toggleTaskStatus, toggleTaskImportance.
  rewrite (findById_cast _ _ _ Hc), Hl. cbn. repeat split; reflexivity.
Qed.

(** An id that does not cast to an ObjectId: the lookup throws inside the
    controller's [try], and the answer is 500. *)
Lemma malformed_id_server_error id caller db now body :
  isValidObjectId id = false ->
  code (getTask id caller db) = 500%nat /\
  (code (updateTask parse_date now id body caller db).1 = 500%nat /\
   (updateTask parse_date now id body caller db).2 = db) /\
  (code (deleteTask id caller db).1 = 500%nat /\ (deleteTask id caller db).2 = db) /\
  (code (toggleTaskStatus now id caller db).1 = 500%nat /\
   (toggleTaskStatus now id caller db).2 = db) /\
  (code (toggleTaskImportance now id caller db).1 = 500%nat /\
   (toggleTaskImportance now id caller db).2 = db).
Proof.
  intros Hv.
  unfold getTask, updateTask, deleteTask, toggleTaskStatus, toggleTaskImportance,
    findById, castObjectId.
  rewrite Hv. cbn. repeat split; reflexivity.
Qed.

End Ownership.

(** C5: on the id [abc], which names no task, reading, updating, deleting
    and toggling are answered 500, not 404, for every caller, store and
    body.  (A stored task of another user is answered 403 without any
    change, and a well-formed id that is not stored is answered 404:
    [foreign_task_forbidden], [absent_task_not_found].) *)
Theorem nonexistent_malformed_id_is_500 (parse_date : string -> option Z)
    (caller : UserModel.User) (db : Tasks) (now : Z) (body : gmap string JsVal) :
  db !! "abc" = None ->
  code (getTask "abc" caller db) = 500%nat /\
  code (updateTask parse_date now "abc" body caller db).1 = 500%nat /\
  code (deleteTask "abc" caller db).1 = 500%nat /\
  code (toggleTaskStatus now "abc" caller db).1 = 500%nat.
Proof.
  intros _.
  destruct (malformed_id_server_error parse_date "abc" caller db now body eq_refl)
    as (H1 & [H2 _] & [H3 _] & [H4 _] & _).
  auto.
Qed.

Lemma nonexistent_malformed_id_is_500_witness :
  Samples.sample_tasks !! "abc" = None /\
  code (getTask "abc" Samples.alice Samples.sample_tasks) = 500%nat.
Proof.
  split; [vm_compute; reflexivity|].
  apply (nonexistent_malformed_id_is_500 Samples.no_dates Samples.alice
           Samples.sample_tasks 0 ∅).
  vm_compute; reflexivity.
Defined.

(** ** Statistics *)

Section Statistics.

Context (regex : string -> option (string -> bool)).

(** The statistics response: always a 200 whose fields are the counts
    over the caller's tasks; [overdue] counts the pending tasks whose due
    date is before the clock. *)
Lemma getTaskStats_counts now caller db :
  let uid := UserModel._id caller in
  let mine t := String.eqb (user t) uid in
  let count_of p := length (List.filter (fun t => mine t && p t) (documents db)) in
  exists s,
    getTaskStats regex now caller db = mkResponse 200 true "" (StatsData s) /\
    total s = count_of (fun _ => true) /\
    completed_count s = count_of (fun t => status_eqb (status t) completed) /\
    overdue s = count_of (fun t => status_eqb (status t) pending &&
                                   match dueDate t with
                                   | Some d => d <? now
                                   | None => false
                                   end) /\
    completionRate s = completion_rate (completed_count s) (total s).
Proof.
  intros uid mine count_of. unfold getTaskStats.
  rewrite !countDocuments_plain by reflexivity. cbn [mbind Result_bind].
  eexists. split; [reflexivity|].
  cbn [total completed_count overdue completionRate].
  assert (Hext : forall (p q : Task -> bool), (forall t, p t = q t) ->
            length (List.filter p (documents db)) = length (List.filter q (documents db))).
  { intros p q E. f_equal. apply List.filter_ext. exact E. }
  split; [|split; [|split]].
  - apply Hext. intros t. unfold matches, by_user. simpl.
    unfold mine. rewrite !andb_true_r. reflexivity.
  - apply Hext. intros t. unfold matches. simpl. unfold mine.
    rewrite !andb_true_r. destruct (status t); reflexivity.
  - apply Hext. intros t. unfold matches, mine. cbn [f_user f_status f_priority
      f_isImportant f_search f_dueDate_lt opt_test].
    rewrite !andb_true_r.
    destruct (status t), (dueDate t); cbn;
      rewrite ?andb_true_r, ?andb_false_r; reflexivity.
  - reflexivity.
Qed.

Lemma completion_rate_no_task c : completion_rate c 0 = 0.
Proof. reflexivity. Qed.

End Statistics.

(** The smallest total at which the computed rate leaves the exact one
    is 40: below, the two agree for every count. *)
Lemma completion_rate_exact_below_40 :
  forallb (fun t => forallb (fun c => completion_rate c t =? exact_rate c t)
                            (seq 0 (S t)))
          (seq 0 40) = true.
Proof. vm_compute. reflexivity. Qed.

(** C6: with 23 of 40 tasks completed the exact rate is 57.5, which rounds
    to 58, but the statistics response carries 57: the quotient 23/40 is
    rounded to a double before it is multiplied by 100, and the product
    57.49999999999999 rounds down. *)
Theorem completion_rate_23_of_40 :
  let res := getTaskStats Samples.any_regex 10000 Samples.alice
               (Samples.alice_tasks 23 40) in
  exists s,
    res = mkResponse 200 true "" (StatsData s) /\
    total s = 40%nat /\ completed_count s = 23%nat /\
    completionRate s = 57 /\
    exact_rate 23 40 = 58 /\ exact_rate_half_even 23 40 = 58.
Proof.
  vm_compute. eexists. repeat split.
Qed.

(** ** Token verification *)

Section TokenVerification.

Context (jwt_verify : string -> Result UserModel.Payload).
Context (users : UserModel.Users) (authorization : option string).

Lemma presents_unique t1 t2 :
  presents authorization t1 -> presents authorization t2 -> t1 = t2.
Proof. intros [H1 _] [H2 _]. congruence. Qed.

Lemma protect_no_token :
  no_token authorization ->
  protect jwt_verify users authorization =
  inl (failure 401 "Not authorized to access this route. No token provided.").
Proof.
  intros H. unfold protect.
  destruct (bearer_token authorization) as [[|c s]|] eqn:E; try reflexivity.
  exfalso. apply (H (String c s)). split; [exact E | discriminate].
Qed.

Lemma protect_presented token :
  presents authorization token ->
  protect jwt_verify users authorization =
  match (decoded ← jwt_verify token;
         UserModel.findById (UserModel.p_id decoded) users) with
  | Ok None => inl (failure 401 "User not found with this token.")
  | Ok (Some user) =>
      if negb (UserModel.isActive user)
      then inl (failure 401 "User account is deactivated.")
      else inr user
  | Throw JsonWebTokenError =>
      inl (failure 401 "Invalid token. Please log in again.")
  | Throw TokenExpiredError =>
      inl (failure 401 "Token expired. Please log in again.")
  | Throw _ => inl (failure 401 "Not authorized to access this route.")
  end.
Proof.
  intros [E Hne]. unfold protect. rewrite E.
  destruct token; [congruence | reflexivity].
Qed.

Lemma no_token_or_presents :
  no_token authorization \/ exists token, presents authorization token.
Proof.
  destruct (bearer_token authorization) as [[|c s]|] eqn:E.
  - left. intros tok [H Hne]. congruence.
  - right. exists (String c s). split; [exact E | discriminate].
  - left. intros tok [H _]. congruence.
Qed.

End TokenVerification.

(** C7: [protect] answers 401, and nothing else, exactly when no token is
    presented, or verification of the token throws (malformed token,
    invalid signature, expired token), or the subject of the token is not
    a stored user, or that user is deactivated; in every other case the
    request goes on with the stored user the token names. *)
Theorem protect_rejects_with_401_exactly
    (jwt_verify : string -> Result UserModel.Payload)
    (users : UserModel.Users) (authorization : option string) :
  let r := protect jwt_verify users authorization in
  (forall res, r = inl res -> code res = 401%nat /\ success res = false) /\
  ((exists res, r = inl res) <->
   no_token authorization \/
   token_refused jwt_verify authorization \/
   subject_unknown jwt_verify users authorization \/
   subject_deactivated jwt_verify users authorization) /\
  (forall user, r = inr user <-> authenticated_as jwt_verify users authorization user).
Proof.
  intros r. subst r.
  destruct (no_token_or_presents authorization) as [Hn | [token Hp]].
  - rewrite (protect_no_token _ _ _ Hn). split; [|split].
    + intros res [= <-]. split; reflexivity.
    + split; [intros _; left; exact Hn | intros _; eexists; reflexivity].
    + intros user. split; [discriminate|].
      intros (tok & p & Ht & _). exfalso. exact (Hn tok Ht).
  - rewrite (protect_presented _ _ _ token Hp).
    destruct (jwt_verify token) as [p|e] eqn:Ev; cbn [mbind Result_bind].
    + destruct (UserModel.findById (UserModel.p_id p) users) as [[u|]|e] eqn:Ef.
      * destruct (UserModel.isActive u) eqn:Ea; cbn [negb]; split; [|split| |split].
        -- discriminate.
        -- split; [intros [res H]; discriminate|].
           intros [Hn|[(tok & e & Ht & He)|[(tok & q & Ht & Hq & Hu)|(tok & q & v & Ht & Hq & Hv & Hi)]]].
           ++ exfalso. exact (Hn token Hp).
           ++ rewrite (presents_unique _ _ _ Ht Hp) in He. congruence.
           ++ rewrite (presents_unique _ _ _ Ht Hp) in Hq.
              exfalso. apply (Hu u). congruence.
           ++ rewrite (presents_unique _ _ _ Ht Hp) in Hq. congruence.
        -- intros user. split.
           ++ intros [= <-]. exists token, p. auto.
           ++ intros (tok & q & Ht & Hq & Hv & _).
              rewrite (presents_unique _ _ _ Ht Hp) in Hq. congruence.
        -- intros res [= <-]. split; reflexivity.
        -- split; [|intros _; eexists; reflexivity].
           intros _. right. right. right. exists token, p, u. auto.
        -- intros user. split; [discriminate|].
           intros (tok & q & Ht & Hq & Hv & Hi).
           rewrite (presents_unique _ _ _ Ht Hp) in Hq. congruence.
      * split; [|split].
        -- intros res [= <-]. split; reflexivity.
        -- split; [|intros _; eexists; reflexivity].
           intros _. right. right. left. exists token, p.
           split; [exact Hp|]. split; [exact Ev|]. intros v. congruence.
        -- intros user. split; [discriminate|].
           intros (tok & q & Ht & Hq & Hv & _).
           rewrite (presents_unique _ _ _ Ht Hp) in Hq. congruence.
      * assert (Hr : exists res,
                  match e with
                  | JsonWebTokenError =>
                      inl (failure 401 "Invalid token. Please log in again.")
                  | TokenExpiredError =>
                      inl (failure 401 "Token expired. Please log in again.")
                  | _ => inl (failure 401 "Not authorized to access this route.")
                  end = (inl res : Response + UserModel.User) /\
                  code res = 401%nat /\ success res = false)
          by (destruct e; eexists; repeat split).
        destruct Hr as (res0 & -> & Hc & Hs). split; [|split].
        -- intros res [= <-]. auto.
        -- split; [|intros _; eexists; reflexivity].
           intros _. right. right. left. exists token, p.
           split; [exact Hp|]. split; [exact Ev|]. intros v. congruence.
        -- intros user. split; [discriminate|].
           intros (tok & q & Ht & Hq & Hv & _).
           rewrite (presents_unique _ _ _ Ht Hp) in Hq. congruence.
    + assert (Hr : exists res,
                match e with
                | JsonWebTokenError =>
                    inl (failure 401 "Invalid token. Please log in again.")
                | TokenExpiredError =>
                    inl (failure 401 "Token expired. Please log in again.")
                | _ => inl (failure 401 "Not authorized to access this route.")
                end = (inl res : Response + UserModel.User) /\
                code res = 401%nat /\ success res = false)
        by (destruct e; eexists; repeat split).
      destruct Hr as (res0 & -> & Hc & Hs). split; [|split].
      * intros res [= <-]. auto.
      * split; [|intros _; eexists; reflexivity].
        intros _. right. left. exists token, e. auto.
      * intros user. split; [discriminate|].
        intros (tok & q & Ht & Hq & _).
        rewrite (presents_unique _ _ _ Ht Hp) in Hq. congruence.
Qed.

Lemma protect_rejects_with_401_exactly_witness :
  protect Samples.sample_verify Samples.sample_users (Some "Bearer alice-token")
  = inr Samples.alice.
Proof.
  destruct (protect_rejects_with_401_exactly Samples.sample_verify
              Samples.sample_users (Some "Bearer alice-token")) as (_ & _ & H).
  apply H. exists "alice-token", (UserModel.mkPayload Samples.alice_id "ann@x.com" "Ann").
  repeat split; try (vm_compute; reflexivity). discriminate.
Defined.

(** ** Schema validation *)

Section SchemaValidation.

Context (parse_date : string -> option Z).

Lemma validate_key_errors now obj acc kv :
  (validate_key parse_date now obj acc kv).1 =
  (acc.1 ++ key_errors parse_date now obj kv)%list.
Proof.
  unfold key_errors, validate_key. destruct kv as [name k].
  destruct (obj !! name) as [[]|]; destruct (k_required k), (k_allow_null k);
    try destruct (k_default k); cbn [fst snd]; rewrite ?app_nil_r; reflexivity.
Qed.

Lemma fold_validate_errors now obj schema : forall acc,
  (fold_left (validate_key parse_date now obj) schema acc).1 =
  (acc.1 ++ flat_map (key_errors parse_date now obj) schema)%list.
Proof.
  induction schema as [|kv rest IH]; intros acc; cbn [fold_left flat_map].
  - rewrite app_nil_r. reflexivity.
  - rewrite IH, validate_key_errors, <- app_assoc. reflexivity.
Qed.

Lemma schema_validate_errors now schema obj :
  (schema_validate parse_date now schema obj).1 =
  flat_map (key_errors parse_date now obj) schema.
Proof. unfold schema_validate. rewrite fold_validate_errors. reflexivity. Qed.

Lemma validate_key_other now obj acc kv k :
  kv.1 <> k ->
  (validate_key parse_date now obj acc kv).2 !! k = acc.2 !! k.
Proof.
  intros Hk. unfold validate_key. destruct kv as [name key]. cbn [fst] in Hk.
  destruct (obj !! name) as [[]|]; destruct (k_required key), (k_allow_null key);
    try destruct (k_default key); cbn [fst snd];
    rewrite ?lookup_insert_ne by exact Hk; reflexivity.
Qed.

Lemma fold_validate_other now obj k schema : forall acc,
  ~ In k (List.map fst schema) ->
  (fold_left (validate_key parse_date now obj) schema acc).2 !! k = acc.2 !! k.
Proof.
  induction schema as [|kv rest IH]; intros acc Hk; cbn [fold_left].
  - reflexivity.
  - rewrite IH.
    + apply validate_key_other. intros E. apply Hk. left. exact E.
    + intros Hin. apply Hk. right. exact Hin.
Qed.

(** [stripUnknown]: a key that is not in the schema is not in the
    validated object. *)
Lemma schema_validate_strips now schema obj k :
  ~ In k (List.map fst schema) ->
  (schema_validate parse_date now schema obj).2 !! k = None.
Proof.
  intros H. unfold schema_validate. rewrite fold_validate_other by exact H.
  apply lookup_empty.
Qed.

(** A key looks at its own entry of the object only. *)
Lemma key_errors_local now obj obj' kv :
  obj !! kv.1 = obj' !! kv.1 ->
  key_errors parse_date now obj kv = key_errors parse_date now obj' kv.
Proof.
  unfold key_errors, validate_key. destruct kv as [name k]. cbn [fst].
  intros ->. reflexivity.
Qed.

Lemma validateRequest_value schema now body value :
  validateRequest parse_date schema now body = inr value ->
  value = (schema_validate parse_date now schema body).2 /\
  (schema_validate parse_date now schema body).1 = [].
Proof.
  unfold validateRequest.
  destruct (schema_validate parse_date now schema body) as [[|e errs] v];
    [|discriminate].
  intros [= <-]. auto.
Qed.

Lemma validateRequest_errors schema now body :
  (schema_validate parse_date now schema body).1 <> [] ->
  validateRequest parse_date schema now body =
  inl (mkResponse 400 false "Validation failed"
         (Errors (schema_validate parse_date now schema body).1)).
Proof.
  unfold validateRequest.
  destruct (schema_validate parse_date now schema body) as [[|e errs] v];
    cbn [fst]; [congruence | reflexivity].
Qed.

Lemma validate_key_present now obj acc name k v :
  obj !! name = Some v -> v <> JUndefined -> v <> JNull ->
  validate_key parse_date now obj acc (name, k)
  = ((acc.1 ++ (check parse_date now (k_messages k) (k_type k) name v).1)%list,
     <[name := (check parse_date now (k_messages k) (k_type k) name v).2]> acc.2).
Proof.
  intros E Hu Hn. unfold validate_key. rewrite E.
  destruct v; try reflexivity; congruence.
Qed.

Lemma validate_key_value now obj acc kv :
  (validate_key parse_date now obj acc kv).2
  = match key_value parse_date now obj kv with
    | Some v => <[kv.1 := v]> acc.2
    | None => acc.2
    end.
Proof.
  unfold key_value, validate_key. destruct kv as [name k]. cbn [fst].
  destruct (obj !! name) as [[]|]; destruct (k_required k), (k_allow_null k);
    try destruct (k_default k); cbn [fst snd];
    rewrite ?lookup_insert_eq, ?lookup_empty; reflexivity.
Qed.

Lemma fold_validate_entry now obj schema : forall acc name k,
  List.NoDup (List.map fst schema) -> In (name, k) schema ->
  (fold_left (validate_key parse_date now obj) schema acc).2 !! name
  = match key_value parse_date now obj (name, k) with
    | Some v => Some v
    | None => acc.2 !! name
    end.
Proof.
  induction schema as [|kv rest IH]; intros acc name k Hd Hin; [destruct Hin|].
  cbn [List.map] in Hd. apply List.NoDup_cons_iff in Hd. destruct Hd as [Hn Hd].
  cbn [fold_left]. destruct Hin as [-> | Hin].
  - cbn [fst] in Hn. rewrite fold_validate_other by exact Hn.
    rewrite validate_key_value. cbn [fst].
    destruct (key_value parse_date now obj (name, k));
      [apply lookup_insert_eq | reflexivity].
  - rewrite (IH _ name k Hd Hin).
    rewrite validate_key_other; [reflexivity|].
    intros E. apply Hn. rewrite E.
    change name with (fst (name, k)). apply List.in_map. exact Hin.
Qed.

Lemma schema_validate_entry now schema obj name k :
  List.NoDup (List.map fst schema) -> In (name, k) schema ->
  (schema_validate parse_date now schema obj).2 !! name
  = key_value parse_date now obj (name, k).
Proof.
  intros Hd Hin. unfold schema_validate.
  rewrite (fold_validate_entry _ _ _ _ _ k Hd Hin). cbn [snd].
  rewrite lookup_empty.
  destruct (key_value parse_date now obj (name, k)); reflexivity.
Qed.

Lemma flat_map_nil {A B} (f : A -> list B) (l : list A) :
  flat_map f l = [] <-> forall x, In x l -> f x = [].
Proof.
  induction l as [|a l IH]; cbn [flat_map].
  - split; [intros _ x []|reflexivity].
  - split.
    + intros H. apply app_eq_nil in H. destruct H as [Ha Hl].
      intros x [<- | Hx]; [exact Ha | apply IH; assumption].
    + intros H. rewrite (H a (or_introl eq_refl)).
      apply IH. intros x Hx. apply H. right. exact Hx.
Qed.


Lemma NoDup_fst_unique {A B} (l : list (A * B)) a b b' :
  List.NoDup (List.map fst l) -> In (a, b) l -> In (a, b') l -> b = b'.
Proof.
  induction l as [|[x y] l IH]; intros Hd H1 H2; [destruct H1|].
  cbn [List.map fst] in Hd. apply List.NoDup_cons_iff in Hd. destruct Hd as [Hn Hd].
  assert (Hx : forall c, In (x, c) l -> False).
  { intros c Hc. apply Hn. change x with (fst (x, c)). apply List.in_map. exact Hc. }
  destruct H1 as [E1 | H1], H2 as [E2 | H2].
  - congruence.
  - injection E1 as -> ->. destruct (Hx _ H2).
  - injection E2 as -> ->. destruct (Hx _ H1).
  - apply IH; assumption.
Qed.

Lemma other_keys_In name schema kv :
  In kv (other_keys name schema) <-> In kv schema /\ kv.1 <> name.
Proof.
  unfold other_keys. rewrite filter_In. split; intros [H1 H2]; split; auto.
  - intros E. rewrite E, String.eqb_refl in H2. discriminate.
  - apply negb_true_iff. apply String.eqb_neq. exact H2.
Qed.

Lemma other_keys_NoDup name schema :
  List.NoDup (List.map fst schema) ->
  List.NoDup (List.map fst (other_keys name schema)).
Proof.
  unfold other_keys. induction schema as [|kv rest IH]; intros Hd; [constructor|].
  cbn [List.map] in Hd. apply List.NoDup_cons_iff in Hd. destruct Hd as [Hn Hd].
  cbn [List.filter]. destruct (negb (String.eqb kv.1 name)); [|apply IH, Hd].
  cbn [List.map]. constructor; [|apply IH, Hd].
  intros Hin. apply Hn. apply List.in_map_iff in Hin.
  destruct Hin as (x & Ex & Hx). apply filter_In in Hx.
  apply List.in_map_iff. exists x. tauto.
Qed.

(** A key that accepts its entry of the object adds its value to what the
    other keys of the schema give, and nothing else. *)
Lemma schema_validate_key_accepted now schema obj name k c :
  List.NoDup (List.map fst schema) -> In (name, k) schema ->
  key_errors parse_date now obj (name, k) = [] ->
  key_value parse_date now obj (name, k) = Some c ->
  schema_validate parse_date now schema obj
  = ((schema_validate parse_date now (other_keys name schema) obj).1,
     <[name := c]> (schema_validate parse_date now (other_keys name schema) obj).2).
Proof.
  intros Hd Hin He Hc.
  rewrite (surjective_pairing (schema_validate parse_date now schema obj)).
  f_equal.
  - rewrite !schema_validate_errors. unfold other_keys.
    assert (G : forall l, (forall k', In (name, k') l -> k' = k) ->
              flat_map (key_errors parse_date now obj) l
              = flat_map (key_errors parse_date now obj)
                  (List.filter (fun kv => negb (String.eqb kv.1 name)) l)).
    { induction l as [|[n k'] l IH]; intros Hu; [reflexivity|].
      cbn [flat_map List.filter fst].
      destruct (String.eqb n name) eqn:E; cbn [negb].
      - apply String.eqb_eq in E. subst n.
        rewrite (Hu k' (or_introl eq_refl)), He. cbn [app].
        apply IH. intros k'' Hk. apply Hu. right. exact Hk.
      - cbn [flat_map]. f_equal. apply IH. intros k'' Hk. apply Hu. right. exact Hk. }
    apply G. intros k' Hk. apply (NoDup_fst_unique schema name k' k Hd Hk Hin).
  - apply map_eq. intros i. destruct (String.eqb i name) eqn:E.
    + apply String.eqb_eq in E. subst i.
      rewrite (schema_validate_entry _ _ _ _ k Hd Hin), lookup_insert_eq. exact Hc.
    + apply String.eqb_neq in E. rewrite lookup_insert_ne by congruence.
      destruct (in_dec String.string_dec i (List.map fst schema)) as [Hi | Hi].
      * apply List.in_map_iff in Hi. destruct Hi as ([n k'] & <- & Hi).
        cbn [fst] in *. rewrite (schema_validate_entry _ _ _ _ k' Hd Hi).
        symmetry. apply schema_validate_entry.
        -- apply other_keys_NoDup, Hd.
        -- apply other_keys_In. split; [exact Hi | exact E].
      * rewrite schema_validate_strips by exact Hi. symmetry.
        apply schema_validate_strips. intros Hi'. apply Hi.
        apply List.in_map_iff in Hi'. destruct Hi' as (x & Ex & Hx).
        apply other_keys_In in Hx. apply List.in_map_iff. exists x. tauto.
Qed.

(** The same on the middleware: the request is answered as the other keys
    decide, and an accepted body carries the value of the key. *)
Lemma validateRequest_key_accepted now schema obj name k c :
  List.NoDup (List.map fst schema) -> In (name, k) schema ->
  key_errors parse_date now obj (name, k) = [] ->
  key_value parse_date now obj (name, k) = Some c ->
  validateRequest parse_date schema now obj
  = match validateRequest parse_date (other_keys name schema) now obj with
    | inl res => inl res
    | inr value => inr (<[name := c]> value)
    end.
Proof.
  intros Hd Hin He Hc. unfold validateRequest.
  rewrite (schema_validate_key_accepted now schema obj name k c Hd Hin He Hc).
  destruct (schema_validate parse_date now (other_keys name schema) obj)
    as [[|e errs] value]; reflexivity.
Qed.

(** A title of 1 to 100 characters is accepted as it is. *)
Lemma title_key_accepted now obj s required msgs :
  obj !! "title" = Some (JStr s) -> (1 <= String.length s <= 100)%nat ->
  let k := mkKey (JoiString (Some 1%nat) (Some 100%nat) false []) required false
             None msgs in
  key_errors parse_date now obj ("title", k) = [] /\
  key_value parse_date now obj ("title", k) = Some (JStr s).
Proof.
  intros Ho Hl. cbv zeta. unfold key_errors, key_value.
  rewrite (validate_key_present now obj _ _ _ (JStr s) Ho) by discriminate.
  cbn [fst snd k_type k_messages check].
  destruct s as [|a s]; [cbn in Hl; lia|]. cbn [String.eqb].
  replace (String.length (String a s) <? 1)%nat with false
    by (symmetry; apply Nat.ltb_ge; lia).
  replace (100 <? String.length (String a s))%nat with false
    by (symmetry; apply Nat.ltb_ge; lia).
  cbn [app fst snd]. split; [reflexivity | apply lookup_insert_eq].
Qed.

(** A value that is a date is accepted as a due date on update, and on
    create when it lies after the clock. *)
Lemma dueDate_key_accepted now obj v ms greater_now msgs :
  obj !! "dueDate" = Some v -> to_date parse_date v = Some ms ->
  (greater_now = true -> now < ms) ->
  let k := mkKey (JoiDate greater_now) false true None msgs in
  key_errors parse_date now obj ("dueDate", k) = [] /\
  key_value parse_date now obj ("dueDate", k) = Some (JDate ms).
Proof.
  intros Ho Hd Hg. cbv zeta. unfold key_errors, key_value.
  rewrite (validate_key_present now obj _ _ _ v Ho)
    by (intros ->; discriminate Hd).
  cbn [fst snd k_type k_messages check]. rewrite Hd.
  replace (greater_now && negb (now <? ms)) with false.
  - cbn [app fst snd]. split; [reflexivity | apply lookup_insert_eq].
  - destruct greater_now; [|reflexivity]. cbn [andb]. symmetry.
    apply negb_false_iff, Z.ltb_lt, Hg. reflexivity.
Qed.

End SchemaValidation.

Lemma task_schemas_NoDup schema :
  In schema [createTaskSchema; updateTaskSchema; taskFilterSchema] ->
  List.NoDup (List.map fst schema).
Proof.
  intros [<- | [<- | [<- | []]]];
    repeat constructor; cbn [In List.map fst]; intuition discriminate.
Qed.


(** ** The due date on create and on update *)

Section DueDate.

Context (parse_date : string -> option Z).

Lemma create_dueDate_key_errors now body v msgs :
  body !! "dueDate" = Some v -> v <> JUndefined -> v <> JNull ->
  (forall ms, to_date parse_date v = Some ms -> ms <= now) ->
  key_errors parse_date now body
    ("dueDate", mkKey (JoiDate true) false true None msgs) =
  [ match to_date parse_date v with
    | Some _ => render msgs "dueDate" "date.greater" "now"
    | None => render msgs "dueDate" "date.base" ""
    end ].
Proof.
  intros Hb Hu Hn Hle. unfold key_errors, validate_key. rewrite Hb.
  assert (Hc : (check parse_date now msgs (JoiDate true) "dueDate" v).1 =
               [ match to_date parse_date v with
                 | Some _ => render msgs "dueDate" "date.greater" "now"
                 | None => render msgs "dueDate" "date.base" ""
                 end ]).
  { cbn [check]. destruct (to_date parse_date v) as [ms|] eqn:E; [|reflexivity].
    specialize (Hle ms eq_refl).
    replace (now <? ms) with false by (symmetry; apply Z.ltb_ge; exact Hle).
    reflexivity. }
  destruct v; try congruence; cbn [fst snd k_type k_messages k_required
    k_allow_null k_default]; cbn [app]; exact Hc.
Qed.

(** On create a due date that is given, is not [null], and is not a date
    after the clock is a validation error: the request is answered 400. *)
Lemma create_rejects_dueDate_not_future now body v :
  body !! "dueDate" = Some v -> v <> JUndefined -> v <> JNull ->
  (forall ms, to_date parse_date v = Some ms -> ms <= now) ->
  exists errs,
    validateRequest parse_date createTaskSchema now body =
    inl (mkResponse 400 false "Validation failed" (Errors errs)) /\
    (is_Some (to_date parse_date v) -> In "Due date must be in the future" errs).
Proof.
  intros Hb Hu Hn Hle.
  assert (Hin : In (match to_date parse_date v with
                    | Some _ => "Due date must be in the future"
                    | None => default_message "dueDate" "date.base" ""
                    end)
                   (schema_validate parse_date now createTaskSchema body).1).
  { rewrite schema_validate_errors. unfold createTaskSchema. cbn [flat_map].
    rewrite (create_dueDate_key_errors now body v _ Hb Hu Hn Hle).
    rewrite !in_app_iff. do 3 right. left.
    destruct (to_date parse_date v); left; reflexivity. }
  eexists. split.
  - apply validateRequest_errors. intros E. rewrite E in Hin. destruct Hin.
  - intros [ms Hs]. rewrite Hs in Hin. exact Hin.
Qed.

(** On update a due date that is given, is not [null] and is not a date
    is a validation error. *)
Lemma update_rejects_dueDate_not_date now body v :
  body !! "dueDate" = Some v -> v <> JUndefined -> v <> JNull ->
  to_date parse_date v = None ->
  exists errs,
    validateRequest parse_date updateTaskSchema now body =
    inl (mkResponse 400 false "Validation failed" (Errors errs)) /\
    In (default_message "dueDate" "date.base" "") errs.
Proof.
  intros Hb Hu Hn Hd.
  assert (Hin : In (default_message "dueDate" "date.base" "")
                   (schema_validate parse_date now updateTaskSchema body).1).
  { rewrite schema_validate_errors. unfold updateTaskSchema. cbn [flat_map].
    rewrite !in_app_iff. do 4 right. left.
    unfold key_errors.
    rewrite (validate_key_present parse_date now body _ _ _ v Hb Hu Hn).
    cbn [fst snd k_type k_messages check app]. rewrite Hd. left. reflexivity. }
  eexists. split; [|exact Hin].
  apply validateRequest_errors. intros E. rewrite E in Hin. destruct Hin.
Qed.

End DueDate.

(** ** The order of the stages *)

Section Pipeline.

Context (parse_date : string -> option Z).
Context (regex : string -> option (string -> bool)).
Context (jwt_verify : string -> Result UserModel.Payload).


Lemma limiter_eq env req ctx w :
  limiter env req ctx w =
  if rate_limited env req w
  then Done (failure 429 "Too many requests from this IP, please try again later.")
            (counted env req w)
  else Next ctx (counted env req w).
Proof.
  unfold rate_limited, counted, limiter.
  destruct (default (0%nat, now env + windowMs) (hits w !! ip req)) as [n reset].
  destruct (reset <=? now env); destruct (max_requests <? _)%nat; reflexivity.
Qed.

Lemma counted_collections env req w :
  tasks (counted env req w) = tasks w /\ users (counted env req w) = users w.
Proof.
  unfold counted, limiter.
  destruct (default (0%nat, now env + windowMs) (hits w !! ip req)) as [n reset].
  destruct (reset <=? now env); destruct (max_requests <? _)%nat; split; reflexivity.
Qed.

Lemma run_trace_prefix layers : forall env req ctx w,
  (run layers env req ctx w).1.1 `prefix_of` layers.*1.
Proof.
  induction layers as [|[s layer] rest IH]; intros env req ctx w; cbn [run].
  - apply prefix_nil.
  - destruct (layer env req ctx w) as [ctx' w'|res w'].
    + specialize (IH env req ctx' w').
      destruct (run rest env req ctx' w') as [[trace res] w'']. cbn in *.
      apply prefix_cons. exact IH.
    + cbn. apply prefix_cons, prefix_nil.
Qed.

Lemma stack_stages r :
  (stack parse_date regex jwt_verify r).*1 = code_order r.
Proof. destruct r; reflexivity. Qed.

Lemma controller_done r env req ctx w :
  exists res w', controller parse_date regex r env req ctx w = Done res w'.
Proof.
  unfold controller. destruct (c_user ctx) as [caller|]; [|eauto].
  destruct r; try (eexists; eexists; reflexivity).
  - destruct (createTask _ _ _ _ _ _); eauto.
  - destruct (updateTask _ _ _ _ _ _); eauto.
  - destruct (deleteTask _ _ _); eauto.
  - destruct (toggleTaskStatus _ _ _ _); eauto.
  - destruct (toggleTaskImportance _ _ _ _); eauto.
Qed.

End Pipeline.

Section Order.

Context (parse_date : string -> option Z).
Context (regex : string -> option (string -> bool)).
Context (jwt_verify : string -> Result UserModel.Payload).

Lemma serve_staged env req w :
  serve parse_date regex jwt_verify env req w =
  staged parse_date regex jwt_verify env req w.
Proof.
  unfold serve, staged.
  destruct (counted_collections env req w) as [_ Hu].
  destruct req as [ip auth r q b]. cbn [route query body authorization] in *.
  destruct r; cbn [stack run]; rewrite limiter_eq;
    destruct (rate_limited env _ w); try reflexivity;
    unfold protect_layer; rewrite Hu; cbn [authorization];
    destruct (protect jwt_verify (users w) auth) as [res|caller]; try reflexivity;
    cbn [validated c_user c_query c_body];
    unfold validateQuery_layer, validateRequest_layer; cbn [c_user c_query c_body];
    repeat match goal with
      | |- context [validateQuery ?a ?b ?c ?d] =>
          destruct (validateQuery a b c d); try reflexivity
      | |- context [validateRequest ?a ?b ?c ?d] =>
          destruct (validateRequest a b c d); try reflexivity
      end;
    match goal with
    | |- context [controller ?a ?b ?c ?d ?e ?f ?g] =>
        destruct (controller a b c d e f g); reflexivity
    end.
Qed.

Lemma protect_rejection_code users auth res :
  protect jwt_verify users auth = inl res -> code res = 401%nat.
Proof.
  unfold protect.
  destruct (bearer_token auth) as [[|c s]|]; try (intros [= <-]; reflexivity).
  destruct (mbind _ _) as [[u|]|[]]; try (intros [= <-]; reflexivity).
  destruct (negb (UserModel.isActive u)); [intros [= <-]; reflexivity | discriminate].
Qed.

Lemma validated_rejection_code r now ctx res :
  validated parse_date r now ctx = inl res -> code res = 400%nat.
Proof.
  unfold validated, validateQuery, validateRequest.
  destruct r; try discriminate;
    destruct (schema_validate _ _ _ _) as [[|e errs] v];
    try discriminate; intros [= <-]; reflexivity.
Qed.

Lemma controller_checks_owner_first r id oid t caller env req ctx w :
  route_id r = Some id -> c_user ctx = Some caller ->
  castObjectId id = Ok oid -> tasks w !! oid = Some t ->
  user t <> UserModel._id caller ->
  exists res, controller parse_date regex r env req ctx w = Done res w /\
              code res = 403%nat.
Proof.
  intros Hr Hc Hcast Hl Hu. unfold controller. rewrite Hc.
  destruct (foreign_task_forbidden parse_date id oid t caller (tasks w) (now env)
              (c_body ctx) Hcast Hl Hu)
    as (H1 & [H2 H2'] & [H3 H3'] & [H4 H4'] & [H5 H5']).
  assert (Hw : set_tasks (tasks w) w = w) by (destruct w; reflexivity).
  destruct r; cbn [route_id] in Hr; try discriminate; injection Hr as ->.
  - eexists. split; [reflexivity | exact H1].
  - destruct (updateTask _ _ _ _ _ _) as [res db]. cbn [fst snd] in *. subst db.
    rewrite Hw. eauto.
  - destruct (deleteTask _ _ _) as [res db]. cbn [fst snd] in *. subst db.
    rewrite Hw. eauto.
  - destruct (toggleTaskStatus _ _ _ _) as [res db]. cbn [fst snd] in *. subst db.
    rewrite Hw. eauto.
  - destruct (toggleTaskImportance _ _ _ _) as [res db]. cbn [fst snd] in *. subst db.
    rewrite Hw. eauto.
Qed.

End Order.

(** C3 (amended): a request to a task route goes through rate limit, then
    token verification, then the schema validation of the route (list,
    create and update have one), then the handler; it stops at the first
    stage that answers: 429 from the limiter, 401 from token verification,
    400 from validation.  The ownership check is the first thing the
    handler of a route with an id does: on a stored task of another user it
    answers 403 and changes nothing. *)
Theorem stages_follow_registered_order
    (parse_date : string -> option Z)
    (regex : string -> option (string -> bool))
    (jwt_verify : string -> Result UserModel.Payload)
    (env : Env) (req : Request) (w : World) :
  serve parse_date regex jwt_verify env req w =
    staged parse_date regex jwt_verify env req w /\
  (serve parse_date regex jwt_verify env req w).1.1
    `prefix_of` code_order (route req) /\
  (forall res, protect jwt_verify (users w) (authorization req) = inl res ->
               code res = 401%nat) /\
  (forall ctx res, validated parse_date (route req) (now env) ctx = inl res ->
                   code res = 400%nat) /\
  (forall id oid t caller ctx w1,
     route_id (route req) = Some id -> c_user ctx = Some caller ->
     castObjectId id = Ok oid -> tasks w1 !! oid = Some t ->
     user t <> UserModel._id caller ->
     exists res,
       controller parse_date regex (route req) env req ctx w1 = Done res w1 /\
       code res = 403%nat).
Proof.
  split; [apply serve_staged|]. split.
  - unfold serve. rewrite <- stack_stages with (parse_date := parse_date)
      (regex := regex) (jwt_verify := jwt_verify).
    apply run_trace_prefix.
  - split; [intros res; apply protect_rejection_code|].
    split; [intros ctx res; apply validated_rejection_code|].
    intros id oid t caller ctx w1. apply controller_checks_owner_first.
Qed.

Lemma stages_follow_registered_order_witness :
  exists res,
    controller Samples.no_dates Samples.any_regex (DeleteTask Samples.id3)
      Samples.sample_env (Samples.as_alice (DeleteTask Samples.id3) ∅)
      (mkCtx (Some Samples.alice) ∅ ∅) Samples.sample_world
    = Done res Samples.sample_world /\ code res = 403%nat.
Proof.
  destruct (stages_follow_registered_order Samples.no_dates Samples.any_regex
              Samples.sample_verify Samples.sample_env
              (Samples.as_alice (DeleteTask Samples.id3) ∅) Samples.sample_world)
    as (_ & _ & _ & _ & H).
  apply (H Samples.id3 Samples.id3 Samples.task3 Samples.alice);
    try (vm_compute; reflexivity).
  vm_compute. discriminate.
Defined.

(** C3 as stated fails: the token is verified before the body is
    validated.  An update by its owner runs the stages rate limit, token
    verification, schema validation, handler, which is not the specified
    order; and a create request with no token and an invalid body is
    answered 401 by token verification, although validation of that body
    answers 400. *)
Lemma token_verified_before_validation :
  (let '(trace, _, _) :=
     Samples.sample_serve Samples.sample_env
       (Samples.as_alice (UpdateTask Samples.id1) {[ "title" := JStr "Buy bread" ]})
       Samples.sample_world in
   trace = [RateLimit; TokenVerification; SchemaValidation; Handler] /\
   ~ trace `sublist_of` specified_order) /\
  (let '(trace, res, _) :=
     Samples.sample_serve Samples.sample_env
       (mkRequest "10.0.0.1" None CreateTask ∅ ∅) Samples.sample_world in
   trace = [RateLimit; TokenVerification] /\ code res = 401%nat /\
   exists r, validateRequest Samples.no_dates createTaskSchema 10000 ∅ = inl r /\
             code r = 400%nat).
Proof.
  split.
  - vm_compute. split; [reflexivity|].
    intros H.
    repeat match goal with
           | H : sublist (_ :: _) _ |- _ => inversion H; clear H; subst
           end.
  - vm_compute. split; [reflexivity|]. split; [reflexivity|].
    eexists. split; reflexivity.
Qed.

(** C9: on create, a due date that is given, is not null and is not a
    date strictly after the clock makes validation answer 400 (with the
    message that the due date must be in the future when it is a date),
    whatever else the body holds; a date strictly after the clock is
    accepted: the request is answered as the other keys decide, and a body
    that holds a title of 1 to 100 characters and that due date goes on to
    the controller.  On update every date, past ones included, is accepted:
    the request is answered as the other keys decide, the accepted body
    carries the date, and a body that holds only the due date goes on to
    the controller.  A date is what converts to a valid [Date]: a date
    object, a number of milliseconds within 8.64e15 of the epoch, or a
    string that parses to one; a value that is given, is not null and is not
    a date is answered 400 on update as on create. *)
Theorem due_date_must_be_future_on_create_only
    (parse_date : string -> option Z) (now : Z) (body : gmap string JsVal)
    (v : JsVal) :
  body !! "dueDate" = Some v ->
  (v <> JUndefined -> v <> JNull ->
   (forall ms, to_date parse_date v = Some ms -> ms <= now) ->
   exists errs,
     validateRequest parse_date createTaskSchema now body =
       inl (mkResponse 400 false "Validation failed" (Errors errs)) /\
     (is_Some (to_date parse_date v) -> In "Due date must be in the future" errs)) /\
  (forall ms, to_date parse_date v = Some ms -> now < ms ->
     validateRequest parse_date createTaskSchema now body
     = match validateRequest parse_date (other_keys "dueDate" createTaskSchema)
               now body with
       | inl res => inl res
       | inr value => inr (<["dueDate" := JDate ms]> value)
       end /\
     forall s, (1 <= String.length s <= 100)%nat ->
       validateRequest parse_date createTaskSchema now
         {[ "title" := JStr s; "dueDate" := v ]}
       = inr {[ "title" := JStr s; "dueDate" := JDate ms;
                "priority" := JStr "medium"; "isImportant" := JBool false ]}) /\
  (forall ms, to_date parse_date v = Some ms ->
     validateRequest parse_date updateTaskSchema now body
     = match validateRequest parse_date (other_keys "dueDate" updateTaskSchema)
               now body with
       | inl res => inl res
       | inr value => inr (<["dueDate" := JDate ms]> value)
       end /\
     validateRequest parse_date updateTaskSchema now {[ "dueDate" := v ]}
     = inr {[ "dueDate" := JDate ms ]}) /\
  (v <> JUndefined -> v <> JNull -> to_date parse_date v = None ->
   exists errs,
     validateRequest parse_date updateTaskSchema now body =
       inl (mkResponse 400 false "Validation failed" (Errors errs))).
Proof.
  intros Hb.
  assert (Dc : List.NoDup (List.map fst createTaskSchema))
    by (apply task_schemas_NoDup; left; reflexivity).
  assert (Du : List.NoDup (List.map fst updateTaskSchema))
    by (apply task_schemas_NoDup; right; left; reflexivity).
  assert (Ic : In ("dueDate", mkKey (JoiDate true) false true None
                                [("date.greater", "Due date must be in the future")])
                  createTaskSchema)
    by (do 3 right; left; reflexivity).
  assert (Iu : In ("dueDate", mkKey (JoiDate false) false true None [])
                  updateTaskSchema)
    by (do 4 right; left; reflexivity).
  split; [|split; [|split]].
  - intros Hu Hn Hle. apply create_rejects_dueDate_not_future; assumption.
  - intros ms Hd Hlt. split.
    + destruct (dueDate_key_accepted parse_date now body v ms true
                  [("date.greater", "Due date must be in the future")] Hb Hd
                  (fun _ => Hlt)) as [He Hv].
      exact (validateRequest_key_accepted parse_date now _ body _ _ _ Dc Ic He Hv).
    + intros s Hs.
      set (b := {[ "title" := JStr s; "dueDate" := v ]} : gmap string JsVal).
      assert (Bd : b !! "dueDate" = Some v) by (vm_compute; reflexivity).
      assert (Bt : b !! "title" = Some (JStr s)) by (vm_compute; reflexivity).
      destruct (dueDate_key_accepted parse_date now b v ms true
                  [("date.greater", "Due date must be in the future")] Bd Hd
                  (fun _ => Hlt)) as [He Hv].
      rewrite (validateRequest_key_accepted parse_date now _ b _ _ _ Dc Ic He Hv).
      destruct (title_key_accepted parse_date now b s true
                  [ ("string.min", "Task title cannot be empty");
                    ("string.max", "Task title cannot exceed 100 characters");
                    ("any.required", "Task title is required");
                    ("string.empty", "Task title cannot be empty") ] Bt Hs)
        as [He' Hv'].
      rewrite (validateRequest_key_accepted parse_date now _ b "title" _ _
                 (other_keys_NoDup parse_date "dueDate" _ Dc)
                 (or_introl eq_refl) He' Hv').
      assert (R : validateRequest parse_date
                    (other_keys "title" (other_keys "dueDate" createTaskSchema)) now b
                  = inr {[ "priority" := JStr "medium"; "isImportant" := JBool false ]})
        by (vm_compute; reflexivity).
      rewrite R. vm_compute. reflexivity.
  - intros ms Hd. split.
    + destruct (dueDate_key_accepted parse_date now body v ms false [] Hb Hd)
        as [He Hv]; [discriminate|].
      exact (validateRequest_key_accepted parse_date now _ body _ _ _ Du Iu He Hv).
    + set (b := {[ "dueDate" := v ]} : gmap string JsVal).
      assert (Bd : b !! "dueDate" = Some v) by (vm_compute; reflexivity).
      destruct (dueDate_key_accepted parse_date now b v ms false [] Bd Hd)
        as [He Hv]; [discriminate|].
      rewrite (validateRequest_key_accepted parse_date now _ b _ _ _ Du Iu He Hv).
      assert (R : validateRequest parse_date
                    (other_keys "dueDate" updateTaskSchema) now b = inr ∅)
        by (vm_compute; reflexivity).
      rewrite R. reflexivity.
  - intros Hu Hn Hd.
    destruct (update_rejects_dueDate_not_date parse_date now body v Hb Hu Hn Hd)
      as (errs & He & _).
    exists errs. exact He.
Qed.

Lemma due_date_must_be_future_on_create_only_witness :
  (exists errs,
     validateRequest Samples.no_dates createTaskSchema 10000
       {[ "title" := JStr "Buy milk"; "dueDate" := JNum 5000 ]} =
       inl (mkResponse 400 false "Validation failed" (Errors errs)) /\
     In "Due date must be in the future" errs) /\
  validateRequest Samples.no_dates updateTaskSchema 10000
    {[ "title" := JStr "Buy milk"; "dueDate" := JNum 5000 ]}
  = inr {[ "title" := JStr "Buy milk"; "dueDate" := JDate 5000 ]} /\
  (exists errs,
     validateRequest Samples.no_dates updateTaskSchema 10000
       {[ "dueDate" := JNum 100000000000000000 ]} =
       inl (mkResponse 400 false "Validation failed" (Errors errs))).
Proof.
  destruct (due_date_must_be_future_on_create_only Samples.no_dates 10000
              {[ "title" := JStr "Buy milk"; "dueDate" := JNum 5000 ]}
              (JNum 5000)) as (Hc & _ & Hu & _); [vm_compute; reflexivity|].
  split; [|split].
  - destruct Hc as (errs & He & Hin); try discriminate.
    + intros ms [= <-]. lia.
    + exists errs. split; [exact He|]. apply Hin. eexists; reflexivity.
  - destruct (Hu 5000 eq_refl) as [-> _]. vm_compute. reflexivity.
  - destruct (due_date_must_be_future_on_create_only Samples.no_dates 10000
                {[ "dueDate" := JNum 100000000000000000 ]}
                (JNum 100000000000000000)) as (_ & _ & _ & Hr);
      [vm_compute; reflexivity|].
    apply Hr; [discriminate | discriminate | reflexivity].
Defined.

(** ** The owner of a task *)

Section Owner.

Context (parse_date : string -> option Z).
Context (regex : string -> option (string -> bool)).
Context (jwt_verify : string -> Result UserModel.Payload).

Lemma bind_ok {A B} (m : Result A) (k : A -> Result B) (b : B) :
  (m ≫= k) = Ok b -> exists a, m = Ok a /\ k a = Ok b.
Proof. destruct m as [a|e]; [eauto | discriminate]. Qed.

Ltac bind_inv H :=
  let a := fresh "x" in
  let Ha := fresh "Hx" in
  apply bind_ok in H; destruct H as (a & Ha & H); cbn beta in H.

Lemma hex_lower_hex c :
  is_hex c = true -> is_hex (hex_lower c) = true /\ hex_lower (hex_lower c) = hex_lower c.
Proof.
  destruct c as [[] [] [] [] [] [] [] []]; vm_compute; intros H;
    first [discriminate H | split; reflexivity].
Qed.

Lemma castObjectId_canonical s o :
  castObjectId s = Ok o -> castObjectId o = Ok o.
Proof.
  unfold castObjectId, isValidObjectId.
  destruct (String.length s =? 24)%nat eqn:El; [|discriminate].
  destruct (string_forall is_hex s) eqn:Eh; [|discriminate].
  cbn [andb]. intros [= <-].
  assert (H : forall s, string_forall is_hex s = true ->
            String.length (string_map hex_lower s) = String.length s /\
            string_forall is_hex (string_map hex_lower s) = true /\
            string_map hex_lower (string_map hex_lower s) = string_map hex_lower s).
  { clear. induction s as [|c r IH]; cbn; [auto|].
    intros H. apply andb_prop in H. destruct H as [Hc Hr].
    destruct (IH Hr) as (I1 & I2 & I3). destruct (hex_lower_hex c Hc) as [H1 H2].
    rewrite I1, I2, I3, H1, H2. auto. }
  destruct (H s Eh) as (-> & -> & ->). rewrite El. reflexivity.
Qed.

Lemma pre_save_user m now t : user (pre_save m now t) = user t.
Proof.
  unfold pre_save.
  repeat match goal with |- context [if ?b then _ else _] => destruct b end;
    reflexivity.
Qed.

Lemma pre_save_id m now t : _id (pre_save m now t) = _id t.
Proof.
  unfold pre_save.
  repeat match goal with |- context [if ?b then _ else _] => destruct b end;
    reflexivity.
Qed.

(** What [Task.create] stores, and whose it is. *)
Lemma create_stored now newId data db t db' :
  TaskModel.create parse_date now newId data db = Ok (t, db') ->
  db' = <[newId := t]> db /\ _id t = newId /\
  (path data "user" cast_objectid None ≫= required) = Ok (user t).
Proof.
  unfold TaskModel.create. intros H.
  do 6 bind_inv H.
  apply bind_ok in H. destruct H as (u & Hu & H). cbn beta in H.
  do 3 bind_inv H.
  injection H as <- <-.
  rewrite pre_save_user, pre_save_id. cbn [user _id]. auto.
Qed.

Lemma update_path_keeps {A B} upd k (cast : JsVal -> Result (option A))
    (validate : option A -> Result B) (set : B -> Task -> Task) t t' :
  (forall b x, user (set b x) = user x /\ _id (set b x) = _id x) ->
  update_path upd k cast validate set t = Ok t' ->
  user t' = user t /\ _id t' = _id t.
Proof.
  intros Hs. unfold update_path.
  destruct (upd !! k) as [v|]; [|intros [= <-]; auto].
  destruct v; try (intros [= <-]; auto; fail);
    intros H; bind_inv H; injection H as <-; apply Hs.
Qed.

(** An update object without a [user] entry leaves the owner (and the
    id) of the document alone. *)
Lemma apply_update_keeps_owner upd t t' :
  upd !! "user" = None ->
  apply_update parse_date upd t = Ok t' ->
  user t' = user t /\ _id t' = _id t.
Proof.
  intros Hu. unfold apply_update. intros H.
  do 6 (let a := fresh "x" in
        let Ha := fresh "Hx" in
        apply bind_ok in H; destruct H as (a & Ha & H); cbn beta in H;
        apply update_path_keeps in Ha; [|intros; split; reflexivity]).
  apply bind_ok in H. destruct H as (y & Hy & H). cbn beta in H.
  assert (E : y = x4).
  { revert Hy. unfold update_path. rewrite Hu. intros [= ->]. reflexivity. }
  clear Hy. subst y.
  do 2 (let a := fresh "x" in
        let Ha := fresh "Hx" in
        apply bind_ok in H; destruct H as (a & Ha & H); cbn beta in H;
        apply update_path_keeps in Ha; [|intros; split; reflexivity]).
  apply update_path_keeps in H; [|intros; split; reflexivity].
  repeat match goal with
         | H : _ /\ _ |- _ => destruct H as [? ?]
         end.
  split; congruence.
Qed.

End Owner.

Section OwnerPreserved.

Context (parse_date : string -> option Z).
Context (regex : string -> option (string -> bool)).
Context (jwt_verify : string -> Result UserModel.Payload).

Lemma owners_preserved_refl db : owners_preserved db db.
Proof. intros id t t' H1 H2. congruence. Qed.

Lemma owners_preserved_insert db k t0 t1 :
  db !! k = Some t0 -> user t1 = user t0 ->
  owners_preserved db (<[k := t1]> db).
Proof.
  intros Hk Hu id t t' H1 H2. destruct (decide (k = id)) as [->|Hne].
  - rewrite lookup_insert_eq in H2. congruence.
  - rewrite lookup_insert_ne in H2 by exact Hne. congruence.
Qed.

Lemma owners_preserved_fresh db k t1 :
  db !! k = None -> owners_preserved db (<[k := t1]> db).
Proof.
  intros Hk id t t' H1 H2. destruct (decide (k = id)) as [->|Hne].
  - congruence.
  - rewrite lookup_insert_ne in H2 by exact Hne. congruence.
Qed.

Lemma updateTask_owners now id body caller db :
  body !! "user" = None ->
  owners_preserved db (updateTask parse_date now id body caller db).2.
Proof.
  intros Hb. unfold updateTask.
  destruct (findById id db) as [[t|]|e] eqn:Ef; try apply owners_preserved_refl.
  destruct (negb _); [apply owners_preserved_refl|].
  unfold TaskModel.findByIdAndUpdate.
  unfold findById in Ef. destruct (castObjectId id) as [oid|e]; [|discriminate].
  cbn [mbind Result_bind] in *. injection Ef as Ef. rewrite Ef.
  destruct (apply_update parse_date body t) as [t'|e] eqn:Ea;
    cbn [mbind Result_bind snd]; [|apply owners_preserved_refl].
  apply (owners_preserved_insert db oid t); [exact Ef|].
  destruct (apply_update_keeps_owner parse_date body t t' Hb Ea) as [Hu _].
  exact Hu.
Qed.

Lemma deleteTask_owners id caller db :
  owners_preserved db (deleteTask id caller db).2.
Proof.
  unfold deleteTask.
  destruct (findById id db) as [[t|]|e]; try apply owners_preserved_refl.
  destruct (negb _); [apply owners_preserved_refl|].
  cbn [snd]. unfold deleteOne. intros k t1 t2 H1 H2.
  destruct (decide (_id t = k)) as [E|Hne].
  - rewrite E, lookup_delete_eq in H2. discriminate.
  - rewrite lookup_delete_ne in H2 by exact Hne. congruence.
Qed.

Lemma toggleTaskStatus_owners now id caller db :
  well_keyed db -> owners_preserved db (toggleTaskStatus now id caller db).2.
Proof.
  intros Hw. unfold toggleTaskStatus.
  destruct (findById id db) as [[t|]|e] eqn:Ef; try apply owners_preserved_refl.
  destruct (negb _); [apply owners_preserved_refl|].
  unfold findById in Ef. destruct (castObjectId id) as [oid|e]; [|discriminate].
  cbn [mbind Result_bind] in Ef. injection Ef as Ef.
  pose proof (toggleStatus_store now t db) as Hs.
  pose proof (toggleStatus_user now t db) as Hu.
  destruct (toggleStatus now t db) as [t' db']. cbn [fst snd] in *. subst db'.
  cbv beta iota zeta. cbn [snd].
  rewrite (Hw oid t Ef). apply (owners_preserved_insert db oid t); assumption.
Qed.

Lemma toggleTaskImportance_owners now id caller db :
  well_keyed db -> owners_preserved db (toggleTaskImportance now id caller db).2.
Proof.
  intros Hw. unfold toggleTaskImportance.
  destruct (findById id db) as [[t|]|e] eqn:Ef; try apply owners_preserved_refl.
  destruct (negb _); [apply owners_preserved_refl|].
  unfold findById in Ef. destruct (castObjectId id) as [oid|e]; [|discriminate].
  cbn [mbind Result_bind] in Ef. injection Ef as Ef.
  unfold toggleImportant, save. cbn [snd].
  replace (_id _) with oid.
  - apply (owners_preserved_insert db oid t); [exact Ef|].
    cbn [user set_updatedAt]. rewrite pre_save_user. reflexivity.
  - cbn [_id set_updatedAt]. rewrite pre_save_id. cbn [_id set_isImportant].
    symmetry. apply (Hw oid t Ef).
Qed.

Lemma createTask_owners now newId body caller db :
  db !! newId = None ->
  owners_preserved db (createTask parse_date now newId body caller db).2.
Proof.
  intros Hf. unfold createTask.
  destruct (TaskModel.create _ _ _ _ _) as [[t db']|e] eqn:Ec;
    [|apply owners_preserved_refl].
  destruct (create_stored parse_date _ _ _ _ _ _ Ec) as (-> & _ & _).
  cbn [snd]. apply owners_preserved_fresh. exact Hf.
Qed.

(** A created task belongs to the caller, whatever the body says. *)
Lemma createTask_owner now newId body caller db res db' :
  castObjectId (UserModel._id caller) = Ok (UserModel._id caller) ->
  createTask parse_date now newId body caller db = (res, db') ->
  code res = 201%nat ->
  exists t, data res = TaskData t /\ db' !! newId = Some t /\
            user t = UserModel._id caller.
Proof.
  intros Hc. unfold createTask.
  destruct (TaskModel.create _ _ _ _ _) as [[t db1]|e] eqn:Ec.
  - intros [= <- <-] _.
    destruct (create_stored parse_date _ _ _ _ _ _ Ec) as (-> & _ & Hu).
    exists t. split; [reflexivity|]. split; [apply lookup_insert_eq|].
    unfold path in Hu. rewrite lookup_insert_eq in Hu.
    cbn [cast_objectid] in Hu. rewrite Hc in Hu.
    cbn [mbind Result_bind required] in Hu. congruence.
  - intros [= <- <-]. discriminate.
Qed.

Lemma protect_accepts users auth caller :
  protect jwt_verify users auth = inr caller ->
  exists oid, users !! oid = Some caller /\ castObjectId oid = Ok oid.
Proof.
  unfold protect.
  destruct (bearer_token auth) as [[|c s]|]; try discriminate.
  destruct (jwt_verify (String c s)) as [p|e]; cbn [mbind Result_bind].
  - unfold UserModel.findById.
    destruct (castObjectId (UserModel.p_id p)) as [oid|e] eqn:Ec;
      cbn [mbind Result_bind].
    + destruct (users !! oid) as [u|] eqn:El; [|discriminate].
      destruct (negb (UserModel.isActive u)); [discriminate|].
      intros [= <-]. exists oid. split; [exact El|].
      eapply castObjectId_canonical; exact Ec.
    + destruct e; discriminate.
  - destruct e; discriminate.
Qed.

Lemma schema_without_user schema now body value :
  ~ In "user" (List.map fst schema) ->
  validateRequest parse_date schema now body = inr value ->
  value !! "user" = None.
Proof.
  intros Hs Hv. apply validateRequest_value in Hv. destruct Hv as [-> _].
  apply schema_validate_strips. exact Hs.
Qed.

Lemma task_schemas_without_user schema :
  schema = createTaskSchema \/ schema = updateTaskSchema ->
  ~ In "user" (List.map fst schema).
Proof. intros [-> | ->]; cbn; intuition discriminate. Qed.

Lemma controller_owners r env req ctx w res w' :
  well_keyed (tasks w) -> tasks w !! newId env = None ->
  (forall id, r = UpdateTask id -> c_body ctx !! "user" = None) ->
  controller parse_date regex r env req ctx w = Done res w' ->
  owners_preserved (tasks w) (tasks w').
Proof.
  intros Hw Hf Hb. unfold controller.
  destruct (c_user ctx) as [caller|];
    [|intros [= <- <-]; apply owners_preserved_refl].
  destruct r; try (intros [= <- <-]; apply owners_preserved_refl).
  - pose proof (createTask_owners (now env) (newId env) (c_body ctx) caller
                  (tasks w) Hf) as H.
    destruct (createTask _ _ _ _ _ _) as [r1 db]. intros [= <- <-]. exact H.
  - pose proof (updateTask_owners (now env) id (c_body ctx) caller (tasks w)
                  (Hb id eq_refl)) as H.
    destruct (updateTask _ _ _ _ _ _) as [r1 db]. intros [= <- <-]. exact H.
  - pose proof (deleteTask_owners id caller (tasks w)) as H.
    destruct (deleteTask _ _ _) as [r1 db]. intros [= <- <-]. exact H.
  - pose proof (toggleTaskStatus_owners (now env) id caller (tasks w) Hw) as H.
    destruct (toggleTaskStatus _ _ _ _) as [r1 db]. intros [= <- <-]. exact H.
  - pose proof (toggleTaskImportance_owners (now env) id caller (tasks w) Hw) as H.
    destruct (toggleTaskImportance _ _ _ _) as [r1 db]. intros [= <- <-]. exact H.
Qed.

Lemma validated_update id now ctx ctx' :
  validated parse_date (UpdateTask id) now ctx = inr ctx' ->
  validateRequest parse_date updateTaskSchema now (c_body ctx) = inr (c_body ctx').
Proof.
  unfold validated.
  destruct (validateRequest parse_date updateTaskSchema now (c_body ctx));
    [discriminate | intros [= <-]; reflexivity].
Qed.

Lemma validated_create now ctx ctx' :
  validated parse_date CreateTask now ctx = inr ctx' ->
  c_user ctx' = c_user ctx.
Proof.
  unfold validated.
  destruct (validateRequest parse_date createTaskSchema now (c_body ctx));
    [discriminate | intros [= <-]; reflexivity].
Qed.

Lemma controller_create env req ctx w caller :
  c_user ctx = Some caller ->
  controller parse_date regex CreateTask env req ctx w =
  Done (createTask parse_date (now env) (newId env) (c_body ctx) caller (tasks w)).1
       (set_tasks
          (createTask parse_date (now env) (newId env) (c_body ctx) caller (tasks w)).2
          w).
Proof.
  intros Hc. unfold controller. rewrite Hc.
  destruct (createTask _ _ _ _ _ _); reflexivity.
Qed.

End OwnerPreserved.

(** C8: the validated body of a create or update request has no [user]
    field; a task created by a request belongs to the authenticated
    caller; and no request to a task route changes the owner of a stored
    task.  (The collection stores each document under its id, ids of users
    likewise, and the id given to a new document is not in use.) *)
Theorem owner_is_caller_and_never_changes
    (parse_date : string -> option Z)
    (regex : string -> option (string -> bool))
    (jwt_verify : string -> Result UserModel.Payload)
    (env : Env) (req : Request) (w : World) :
  well_keyed (tasks w) ->
  (forall k u, users w !! k = Some u -> UserModel._id u = k) ->
  tasks w !! newId env = None ->
  let '(_, res, w') := serve parse_date regex jwt_verify env req w in
  (forall schema now body value k,
     validateRequest parse_date schema now body = inr value ->
     ~ In k (List.map fst schema) -> value !! k = None) /\
  (~ In "user" (List.map fst createTaskSchema) /\
   ~ In "user" (List.map fst updateTaskSchema)) /\
  owners_preserved (tasks w) (tasks w') /\
  (route req = CreateTask -> code res = 201%nat ->
   exists caller t,
     protect jwt_verify (users w) (authorization req) = inr caller /\
     data res = TaskData t /\ tasks w' !! newId env = Some t /\
     user t = UserModel._id caller).
Proof.
  intros Hw Hk Hf. rewrite serve_staged. unfold staged.
  destruct (counted_collections env req w) as [Ht Hu].
  assert (Hstrip : forall schema now body value k,
            validateRequest parse_date schema now body = inr value ->
            ~ In k (List.map fst schema) -> value !! k = None).
  { intros schema now body value k Hv Hs. apply validateRequest_value in Hv.
    destruct Hv as [-> _]. apply schema_validate_strips. exact Hs. }
  assert (Hno : ~ In "user" (List.map fst createTaskSchema) /\
                ~ In "user" (List.map fst updateTaskSchema))
    by (split; apply task_schemas_without_user; auto).
  destruct (rate_limited env req w).
  { split; [exact Hstrip|]. split; [exact Hno|]. rewrite Ht.
    split; [apply owners_preserved_refl | discriminate]. }
  destruct (protect jwt_verify (users w) (authorization req)) as [r401|caller] eqn:Ep.
  { split; [exact Hstrip|]. split; [exact Hno|]. rewrite Ht.
    split; [apply owners_preserved_refl|].
    intros _ Hc. rewrite (protect_rejection_code jwt_verify _ _ _ Ep) in Hc.
    discriminate. }
  destruct (validated parse_date (route req) (now env) _) as [r400|ctx] eqn:Ev.
  { split; [exact Hstrip|]. split; [exact Hno|]. rewrite Ht.
    split; [apply owners_preserved_refl|].
    intros _ Hc. rewrite (validated_rejection_code parse_date _ _ _ _ Ev) in Hc.
    discriminate. }
  destruct (controller_done parse_date regex (route req) env req ctx
              (counted env req w)) as (res & w' & Hd).
  rewrite Hd. split; [exact Hstrip|]. split; [exact Hno|]. split.
  - rewrite <- Ht.
    apply (controller_owners parse_date regex (route req) env req ctx _ res w');
      rewrite ?Ht; auto.
    intros id Hr. rewrite Hr in Ev. apply validated_update in Ev.
    apply (Hstrip updateTaskSchema (now env) _ _ "user" Ev), Hno.
  - intros Hr Hc. rewrite Hr in Ev, Hd.
    apply validated_create in Ev.
    rewrite (controller_create parse_date regex env req ctx _ caller Ev) in Hd.
    injection Hd as Hres Hw'.
    destruct (protect_accepts jwt_verify _ _ _ Ep) as (oid & Hl & Hcan).
    rewrite <- (Hk oid caller Hl) in Hcan.
    destruct (createTask parse_date (now env) (newId env) (c_body ctx) caller
                (tasks (counted env req w))) as [r1 db] eqn:Ec.
    cbn [fst snd] in Hres, Hw'. subst r1 w'.
    destruct (createTask_owner parse_date _ _ _ _ _ _ _ Hcan Ec Hc)
      as (t & Hdata & Hst & Hown).
    exists caller, t. split; [reflexivity|]. split; [exact Hdata|].
    split; [exact Hst | exact Hown].
Qed.

Lemma owner_is_caller_and_never_changes_witness :
  let req := mkRequest "10.0.0.1" (Some "Bearer alice-token") CreateTask ∅
               {[ "title" := JStr "Write report"; "user" := JStr Samples.bob_id ]} in
  let '(_, res, w') :=
    Samples.sample_serve Samples.sample_env req Samples.sample_world in
  code res = 201%nat /\
  owners_preserved (tasks Samples.sample_world) (tasks w') /\
  exists t, tasks w' !! Samples.id9 = Some t /\ user t = Samples.alice_id.
Proof.
  pose proof (owner_is_caller_and_never_changes Samples.no_dates Samples.any_regex
                Samples.sample_verify Samples.sample_env
                (mkRequest "10.0.0.1" (Some "Bearer alice-token") CreateTask ∅
                   {[ "title" := JStr "Write report";
                      "user" := JStr Samples.bob_id ]})
                Samples.sample_world) as H.
  cbv zeta. unfold Samples.sample_serve.
  destruct (serve _ _ _ _ _ _) as [[trace res] w'] eqn:E.
  assert (Hc : code res = 201%nat).
  { vm_compute in E. injection E as _ <- _. reflexivity. }
  destruct H as (_ & _ & Ho & Hn).
  - intros k t. unfold Samples.sample_world, Samples.sample_tasks. cbn [tasks].
    intros Hl.
    destruct (decide (k = Samples.id1)) as [->|N1];
      [rewrite lookup_insert_eq in Hl; injection Hl as <-; reflexivity|].
    rewrite lookup_insert_ne in Hl by congruence.
    destruct (decide (k = Samples.id2)) as [->|N2];
      [rewrite lookup_insert_eq in Hl; injection Hl as <-; reflexivity|].
    rewrite lookup_insert_ne in Hl by congruence.
    destruct (decide (k = Samples.id3)) as [->|N3];
      [rewrite lookup_insert_eq in Hl; injection Hl as <-; reflexivity|].
    rewrite lookup_insert_ne in Hl by congruence. discriminate.
  - intros k u. unfold Samples.sample_world, Samples.sample_users. cbn [users].
    intros Hl.
    destruct (decide (k = Samples.alice_id)) as [->|N1];
      [rewrite lookup_insert_eq in Hl; injection Hl as <-; reflexivity|].
    rewrite lookup_insert_ne in Hl by congruence.
    destruct (decide (k = Samples.bob_id)) as [->|N2];
      [rewrite lookup_insert_eq in Hl; injection Hl as <-; reflexivity|].
    rewrite lookup_insert_ne in Hl by congruence.
    destruct (decide (k = UserModel._id Samples.carol)) as [->|N3];
      [rewrite lookup_insert_eq in Hl; injection Hl as <-; reflexivity|].
    rewrite lookup_insert_ne in Hl by congruence. discriminate.
  - vm_compute. reflexivity.
  - split; [exact Hc|]. split; [exact Ho|].
    destruct (Hn eq_refl Hc) as (caller & t & Hp & _ & Ht & Hu).
    exists t. split; [exact Ht|]. rewrite Hu.
    vm_compute in Hp. injection Hp as <-. reflexivity.
Defined.

(** * Further properties of the code *)

(** ** Reading tasks *)

Lemma documents_stored (db : Tasks) (t : Task) :
  In t (documents db) <-> exists k, db !! k = Some t.
Proof.
  unfold documents. rewrite <- list_elem_of_In, list_elem_of_fmap. split.
  - intros ([k t'] & -> & Hin). exists k. apply elem_of_map_to_list. exact Hin.
  - intros [k Hk]. exists (k, t). split; [reflexivity|].
    apply elem_of_map_to_list. exact Hk.
Qed.

(** X1: a list response never shows a task of somebody else: every listed
    task is stored, belongs to the caller and passes the filter built from
    the query. *)
Theorem listed_tasks_belong_to_caller
    (regex : string -> option (string -> bool))
    (query : gmap string JsVal) (caller : UserModel.User) (db : Tasks) (t : Task) :
  In t (listed (getTasks regex query caller db)) ->
  user t = UserModel._id caller /\
  (exists k, db !! k = Some t) /\
  (forall f, list_filter (UserModel._id caller) query = Ok f ->
             matches regex f t = true).
Proof.
  intros Hin.
  destruct (list_filter (UserModel._id caller) query) as [f|e] eqn:Hf.
  - destruct (TaskModel.find regex f db) as [found|e] eqn:Hq.
    + rewrite (getTasks_found _ _ _ _ _ _ Hf Hq) in Hin. cbn [listed data] in Hin.
      rewrite <- list_elem_of_In, sort_perm, list_elem_of_In in Hin.
      rewrite (find_found _ _ _ _ Hq) in Hin. apply filter_In in Hin.
      destruct Hin as [Hd Hm]. split; [|split].
      * apply matches_owned in Hm. apply String.eqb_eq in Hm.
        rewrite Hm. apply (list_filter_user _ _ _ Hf).
      * apply documents_stored. exact Hd.
      * intros f' [= <-]. exact Hm.
    + rewrite getTasks_failed in Hin; [destruct Hin | intros; congruence].
  - rewrite getTasks_failed in Hin; [destruct Hin | intros; congruence].
Qed.

Lemma listed_tasks_belong_to_caller_witness :
  user Samples.task1 = Samples.alice_id.
Proof.
  apply (listed_tasks_belong_to_caller Samples.any_regex ∅ Samples.alice
           Samples.sample_tasks Samples.task1).
  vm_compute. left. reflexivity.
Defined.

(** X2: [getTask] hands out a task exactly when the id casts to the id of
    a stored task that belongs to the caller, and then it is that task
    with status 200. *)
Theorem getTask_returns_only_own_task (id : string) (caller : UserModel.User)
    (db : Tasks) (t : Task) :
  data (getTask id caller db) = TaskData t <->
  exists oid, castObjectId id = Ok oid /\ db !! oid = Some t /\
              user t = UserModel._id caller /\
              getTask id caller db = mkResponse 200 true "" (TaskData t).
Proof.
  unfold getTask, findById.
  destruct (castObjectId id) as [oid|e]; cbn [mbind Result_bind].
  - destruct (db !! oid) as [t0|] eqn:El.
    + destruct (String.eqb (user t0) (UserModel._id caller)) eqn:Eu; cbn [negb].
      * apply String.eqb_eq in Eu. split.
        -- intros [= <-]. exists oid. auto.
        -- intros (o & [= <-] & H & _ & _). rewrite El in H.
           injection H as <-. reflexivity.
      * split; [discriminate|].
        intros (o & [= <-] & H & Hu & _). rewrite El in H. injection H as <-.
        apply String.eqb_neq in Eu. contradiction.
    + split; [discriminate|]. intros (o & [= <-] & H & _).
      rewrite El in H. discriminate.
  - split; [discriminate|]. intros (o & H & _). discriminate.
Qed.

Lemma getTask_returns_only_own_task_witness :
  getTask Samples.id1 Samples.alice Samples.sample_tasks
  = mkResponse 200 true "" (TaskData Samples.task1).
Proof.
  destruct (getTask_returns_only_own_task Samples.id1 Samples.alice
              Samples.sample_tasks Samples.task1) as [H _].
  destruct H as (oid & _ & _ & _ & E); [vm_compute; reflexivity | exact E].
Defined.

(** ** Deleting and creating *)

(** X3: the owner's delete request answers 200 and removes that document
    and no other; afterwards reading the id and deleting it again are
    answered 404, and the second delete changes nothing. *)
Theorem delete_removes_the_task (id oid : string) (t : Task)
    (caller : UserModel.User) (db : Tasks) :
  castObjectId id = Ok oid -> db !! oid = Some t -> _id t = oid ->
  user t = UserModel._id caller ->
  let '(res, db') := deleteTask id caller db in
  code res = 200%nat /\ db' !! oid = None /\
  (forall k, k <> oid -> db' !! k = db !! k) /\
  code (getTask id caller db') = 404%nat /\
  code (deleteTask id caller db').1 = 404%nat /\
  (deleteTask id caller db').2 = db'.
Proof.
  intros Hc Hl Hi Hu. unfold deleteTask at 1.
  rewrite (findById_cast _ _ _ Hc), Hl, Hu, String.eqb_refl. cbn [negb].
  unfold deleteOne. rewrite Hi.
  assert (Hd : delete oid db !! oid = None) by apply lookup_delete_eq.
  split; [reflexivity|]. split; [exact Hd|]. split.
  - intros k Hk. apply lookup_delete_ne. congruence.
  - unfold getTask, deleteTask. rewrite (findById_cast _ _ _ Hc), Hd.
    repeat split.
Qed.

Lemma delete_removes_the_task_witness :
  (deleteTask Samples.id2 Samples.alice Samples.sample_tasks).2 !! Samples.id2 = None.
Proof.
  pose proof (delete_removes_the_task Samples.id2 Samples.id2 Samples.task2
                Samples.alice Samples.sample_tasks) as H.
  destruct (deleteTask Samples.id2 Samples.alice Samples.sample_tasks) as [res db'].
  apply H; vm_compute; reflexivity.
Defined.

(** X4: a task that was just created can be read back: after a 201
    answer of [createTask], [getTask] on the new id answers 200 with the
    very task of the create response, for the same caller. *)
Theorem create_then_read (parse_date : string -> option Z) (now : Z)
    (newId : string) (body : gmap string JsVal) (caller : UserModel.User)
    (db : Tasks) :
  castObjectId newId = Ok newId ->
  castObjectId (UserModel._id caller) = Ok (UserModel._id caller) ->
  let '(res, db') := createTask parse_date now newId body caller db in
  code res = 201%nat ->
  exists t, data res = TaskData t /\
            getTask newId caller db' = mkResponse 200 true "" (TaskData t).
Proof.
  intros Hn Hc.
  destruct (createTask parse_date now newId body caller db) as [res db'] eqn:E.
  intros H201.
  destruct (createTask_owner parse_date _ _ _ _ _ _ _ Hc E H201)
    as (t & Hd & Hs & Hu).
  exists t. split; [exact Hd|].
  unfold getTask. rewrite (findById_cast _ _ _ Hn), Hs, Hu, String.eqb_refl.
  reflexivity.
Qed.

Lemma create_then_read_witness :
  let '(res, db') :=
    createTask Samples.no_dates 10000 Samples.id9 {[ "title" := JStr "Write report" ]}
      Samples.alice Samples.sample_tasks in
  exists t, data res = TaskData t /\
            getTask Samples.id9 Samples.alice db'
            = mkResponse 200 true "" (TaskData t).
Proof.
  pose proof (create_then_read Samples.no_dates 10000 Samples.id9
                {[ "title" := JStr "Write report" ]} Samples.alice
                Samples.sample_tasks) as H.
  assert (Hc : code (createTask Samples.no_dates 10000 Samples.id9
                       {[ "title" := JStr "Write report" ]} Samples.alice
                       Samples.sample_tasks).1 = 201%nat)
    by (vm_compute; reflexivity).
  destruct (createTask _ _ _ _ _ _) as [res db'].
  apply H; [vm_compute; reflexivity | vm_compute; reflexivity | exact Hc].
Defined.

Section Creation.

Context (parse_date : string -> option Z).
Context (regex : string -> option (string -> bool)).
Context (jwt_verify : string -> Result UserModel.Payload).

(** The document [Task.create] builds, path by path. *)
Lemma create_inv now newId data db t db' :
  TaskModel.create parse_date now newId data db = Ok (t, db') ->
  exists ti de st pr du co us ta im no,
    (path data "status" cast_string (Some "pending") ≫= valid_status) = Ok st /\
    (path data "priority" cast_string (Some "medium") ≫= valid_priority) = Ok pr /\
    path data "dueDate" (cast_date parse_date) None = Ok du /\
    path data "completedAt" (cast_date parse_date) None = Ok co /\
    (path data "isImportant" cast_bool (Some false) ≫= required) = Ok im /\
    t = pre_save (bool_decide (is_Some (data !! "status"))) now
          (mkTask newId ti de st pr du co us ta im no now now).
Proof.
  unfold TaskModel.create. intros H.
  apply bind_ok in H. destruct H as (ti & _ & H). cbn beta in H.
  apply bind_ok in H. destruct H as (de & _ & H). cbn beta in H.
  apply bind_ok in H. destruct H as (st & Hst & H). cbn beta in H.
  apply bind_ok in H. destruct H as (pr & Hpr & H). cbn beta in H.
  apply bind_ok in H. destruct H as (du & Hdu & H). cbn beta in H.
  apply bind_ok in H. destruct H as (co & Hco & H). cbn beta in H.
  apply bind_ok in H. destruct H as (us & _ & H). cbn beta in H.
  apply bind_ok in H. destruct H as (ta & _ & H). cbn beta in H.
  apply bind_ok in H. destruct H as (im & Him & H). cbn beta in H.
  apply bind_ok in H. destruct H as (no & _ & H). cbn beta in H.
  injection H as <- _.
  exists ti, de, st, pr, du, co, us, ta, im, no. auto 10.
Qed.

Lemma pre_save_pending m now t :
  status t = pending -> completedAt t = None -> pre_save m now t = t.
Proof.
  destruct t as [i ti de st pr du co us ta im no cr up]. cbn [status completedAt].
  intros -> ->. destruct m; reflexivity.
Qed.

Lemma validated_create_body now ctx ctx' :
  validated parse_date CreateTask now ctx = inr ctx' ->
  validateRequest parse_date createTaskSchema now (c_body ctx) = inr (c_body ctx').
Proof.
  unfold validated.
  destruct (validateRequest parse_date createTaskSchema now (c_body ctx));
    [discriminate | intros [= <-]; reflexivity].
Qed.

(** What the validated body of a create request holds for the keys with
    a default, and for the due date, when the request leaves them out. *)
Lemma create_defaults_validated now body :
  let value := (schema_validate parse_date now createTaskSchema body).2 in
  (body !! "priority" = None -> value !! "priority" = Some (JStr "medium")) /\
  (body !! "isImportant" = None -> value !! "isImportant" = Some (JBool false)) /\
  (body !! "dueDate" = None -> value !! "dueDate" = None).
Proof.
  unfold schema_validate, createTaskSchema. cbn [fold_left]. split; [|split]; intros Hb.
  - rewrite !validate_key_other by (cbn [fst]; congruence).
    unfold validate_key at 1. rewrite Hb. cbn [k_required k_default fst snd].
    apply lookup_insert_eq.
  - rewrite validate_key_other by (cbn [fst]; congruence).
    unfold validate_key at 1. rewrite Hb. cbn [k_required k_default fst snd].
    apply lookup_insert_eq.
  - rewrite !validate_key_other by (cbn [fst]; congruence).
    unfold validate_key at 1. rewrite Hb. cbn [k_required k_default fst snd].
    rewrite !validate_key_other by (cbn [fst]; congruence). apply lookup_empty.
Qed.

End Creation.

(** X5: a task created through [POST /api/tasks] starts pending, with no
    completion time, under the new id, with both timestamps at the clock of
    the request, whatever the body says ([status] and [completedAt] are not
    keys of the create schema); it has priority medium, is not important
    and has no due date when the body leaves these out. *)
Theorem created_task_starts_pending
    (parse_date : string -> option Z)
    (regex : string -> option (string -> bool))
    (jwt_verify : string -> Result UserModel.Payload)
    (env : Env) (req : Request) (w : World) :
  route req = CreateTask ->
  let '(_, res, w') := serve parse_date regex jwt_verify env req w in
  code res = 201%nat ->
  exists t,
    data res = TaskData t /\ tasks w' !! newId env = Some t /\
    _id t = newId env /\ status t = pending /\ completedAt t = None /\
    createdAt t = now env /\ updatedAt t = now env /\
    (body req !! "priority" = None -> priority t = medium) /\
    (body req !! "isImportant" = None -> isImportant t = false) /\
    (body req !! "dueDate" = None -> dueDate t = None).
Proof.
  intros Hr. rewrite serve_staged. unfold staged. rewrite Hr.
  destruct (rate_limited env req w); [discriminate|].
  destruct (protect jwt_verify (users w) (authorization req)) as [r401|caller] eqn:Ep.
  { intros Hc. rewrite (protect_rejection_code jwt_verify _ _ _ Ep) in Hc.
    discriminate. }
  destruct (validated parse_date CreateTask (now env) _) as [r400|ctx] eqn:Ev.
  { intros Hc. rewrite (validated_rejection_code parse_date _ _ _ _ Ev) in Hc.
    discriminate. }
  pose proof (validated_create parse_date _ _ _ Ev) as Hu. cbn [c_user] in Hu.
  pose proof (validated_create_body parse_date _ _ _ Ev) as Hb. cbn [c_body] in Hb.
  rewrite (controller_create parse_date regex env req ctx _ caller Hu).
  apply validateRequest_value in Hb. destruct Hb as [Hv _].
  set (db := tasks (counted env req w)).
  unfold createTask.
  destruct (TaskModel.create parse_date (now env) (newId env)
              (<["user" := JStr (UserModel._id caller)]> (c_body ctx)) db)
    as [[t db']|e] eqn:Ec; cbn [fst snd code]; [|discriminate].
  intros _.
  destruct (create_stored parse_date _ _ _ _ _ _ Ec) as (Hdb & Hid & _).
  destruct (create_inv parse_date _ _ _ _ _ _ Ec)
    as (ti & de & st & pr & du & co & us & ta & im & no &
        Hst & Hpr & Hdu & Hco & Him & Ht).
  assert (Hk : forall k, k <> "user" ->
            (<["user" := JStr (UserModel._id caller)]> (c_body ctx)) !! k
            = (schema_validate parse_date (now env) createTaskSchema (body req)).2 !! k).
  { intros k Hne. rewrite lookup_insert_ne by congruence. rewrite Hv. reflexivity. }
  assert (Hs : (<["user" := JStr (UserModel._id caller)]> (c_body ctx)) !! "status" = None).
  { rewrite Hk by discriminate. apply schema_validate_strips. cbn. intuition discriminate. }
  assert (Hc : (<["user" := JStr (UserModel._id caller)]> (c_body ctx)) !! "completedAt" = None).
  { rewrite Hk by discriminate. apply schema_validate_strips. cbn. intuition discriminate. }
  unfold path in Hst, Hco. rewrite Hs in Hst. rewrite Hc in Hco.
  cbn in Hst. injection Hst as <-. injection Hco as <-.
  rewrite pre_save_pending in Ht by reflexivity. subst t.
  exists (mkTask (newId env) ti de pending pr du None us ta im no (now env) (now env)).
  split; [reflexivity|]. split; [subst db'; cbn [tasks set_tasks]; apply lookup_insert_eq|].
  cbn [_id status completedAt createdAt updatedAt priority isImportant dueDate].
  destruct (create_defaults_validated parse_date (now env) (body req))
    as (Dp & Di & Dd).
  repeat split.
  - intros Hn. unfold path in Hpr. rewrite Hk in Hpr by discriminate. rewrite (Dp Hn) in Hpr.
    cbn in Hpr. congruence.
  - intros Hn. unfold path in Him. rewrite Hk in Him by discriminate. rewrite (Di Hn) in Him.
    cbn in Him. congruence.
  - intros Hn. unfold path in Hdu. rewrite Hk in Hdu by discriminate. rewrite (Dd Hn) in Hdu.
    congruence.
Qed.

Lemma created_task_starts_pending_witness :
  let req := Samples.as_alice CreateTask
               {[ "title" := JStr "Write report"; "status" := JStr "completed" ]} in
  let '(_, res, w') :=
    Samples.sample_serve Samples.sample_env req Samples.sample_world in
  exists t, tasks w' !! Samples.id9 = Some t /\ status t = pending /\
            completedAt t = None /\ priority t = medium.
Proof.
  pose proof (created_task_starts_pending Samples.no_dates Samples.any_regex
                Samples.sample_verify Samples.sample_env
                (Samples.as_alice CreateTask
                   {[ "title" := JStr "Write report";
                      "status" := JStr "completed" ]})
                Samples.sample_world eq_refl) as H.
  cbv zeta. unfold Samples.sample_serve.
  assert (Hc : code (serve Samples.no_dates Samples.any_regex Samples.sample_verify
                       Samples.sample_env
                       (Samples.as_alice CreateTask
                          {[ "title" := JStr "Write report";
                             "status" := JStr "completed" ]})
                       Samples.sample_world).1.2 = 201%nat)
    by (vm_compute; reflexivity).
  destruct (serve _ _ _ _ _ _) as [[trace res] w'].
  destruct (H Hc) as (t & _ & Hs & _ & Hp & Hn & _ & _ & Hpr & _).
  exists t. repeat split; auto; apply Hpr; vm_compute; reflexivity.
Defined.

(** ** What an update and the importance toggle leave alone *)

Section UpdateFrame.

Context (parse_date : string -> option Z).

Lemma update_path_frame {A B X} (frame : Task -> X) upd k
    (cast : JsVal -> Result (option A)) (validate : option A -> Result B)
    (set : B -> Task -> Task) t t' :
  (forall b x, frame (set b x) = frame x) ->
  update_path upd k cast validate set t = Ok t' ->
  frame t' = frame t.
Proof.
  intros Hs. unfold update_path.
  destruct (upd !! k) as [v|]; [|intros [= <-]; reflexivity].
  destruct v; try (intros [= <-]; reflexivity);
    intros H; apply bind_ok in H; destruct H as (? & _ & H);
    injection H as <-; apply Hs.
Qed.

Lemma update_path_absent {A B} upd k (cast : JsVal -> Result (option A))
    (validate : option A -> Result B) (set : B -> Task -> Task) t :
  upd !! k = None -> update_path upd k cast validate set t = Ok t.
Proof. intros H. unfold update_path. rewrite H. reflexivity. Qed.

(** The part of a document that an update without [user] and
    [completedAt] entries cannot reach. *)
Lemma apply_update_frame upd t t' :
  upd !! "user" = None -> upd !! "completedAt" = None ->
  apply_update parse_date upd t = Ok t' ->
  (_id t', user t', completedAt t', createdAt t')
  = (_id t, user t, completedAt t, createdAt t).
Proof.
  intros Hu Hc. unfold apply_update.
  intros H.
  set (frame := fun x : Task => (_id x, user x, completedAt x, createdAt x)).
  change (frame t' = frame t).
  do 5 (let a := fresh "x" in
        let Ha := fresh "Hx" in
        apply bind_ok in H; destruct H as (a & Ha & H); cbn beta in H;
        apply (update_path_frame frame) in Ha; [|intros; reflexivity]).
  apply bind_ok in H. destruct H as (y & Hy & H). cbn beta in H.
  rewrite update_path_absent in Hy by exact Hc. injection Hy as <-.
  apply bind_ok in H. destruct H as (z & Hz & H). cbn beta in H.
  rewrite update_path_absent in Hz by exact Hu. injection Hz as <-.
  do 2 (let a := fresh "x" in
        let Ha := fresh "Hx" in
        apply bind_ok in H; destruct H as (a & Ha & H); cbn beta in H;
        apply (update_path_frame frame) in Ha; [|intros; reflexivity]).
  apply (update_path_frame frame) in H; [|intros; reflexivity].
  congruence.
Qed.

End UpdateFrame.

(** X6: a full update whose body went through the update schema never
    adds or removes a document, touches no document but the one it names,
    and on that one leaves the id, the owner, the creation time and the
    completion time as they were. *)
Theorem update_keeps_identity_and_completion_time
    (parse_date : string -> option Z) (now : Z) (id : string)
    (raw body : gmap string JsVal) (caller : UserModel.User) (db : Tasks) :
  validateRequest parse_date updateTaskSchema now raw = inr body ->
  let db' := (updateTask parse_date now id body caller db).2 in
  (forall k, is_Some (db' !! k) <-> is_Some (db !! k)) /\
  (forall k t t', db !! k = Some t -> db' !! k = Some t' ->
     _id t' = _id t /\ user t' = user t /\ createdAt t' = createdAt t /\
     completedAt t' = completedAt t /\
     (castObjectId id <> Ok k -> t' = t)).
Proof.
  intros Hv. apply validateRequest_value in Hv. destruct Hv as [Hv _].
  assert (Hu : body !! "user" = None)
    by (rewrite Hv; apply schema_validate_strips; cbn; intuition discriminate).
  assert (Hc : body !! "completedAt" = None)
    by (rewrite Hv; apply schema_validate_strips; cbn; intuition discriminate).
  assert (Hsame : forall d : Tasks,
            (forall k, is_Some (d !! k) <-> is_Some (d !! k)) /\
            (forall k t t', d !! k = Some t -> d !! k = Some t' ->
               _id t' = _id t /\ user t' = user t /\ createdAt t' = createdAt t /\
               completedAt t' = completedAt t /\ (castObjectId id <> Ok k -> t' = t))).
  { intros d. split; [reflexivity|]. intros k t t' H1 H2.
    assert (t' = t) by congruence. subst. auto. }
  cbv zeta. unfold updateTask, findById, TaskModel.findByIdAndUpdate.
  destruct (castObjectId id) as [oid|e]; cbn [mbind Result_bind]; [|apply Hsame].
  destruct (db !! oid) as [t0|] eqn:El; [|apply Hsame].
  destruct (negb _); [apply Hsame|].
  destruct (apply_update parse_date body t0) as [t1|e] eqn:Ea;
    cbn [mbind Result_bind snd]; [|apply Hsame].
  pose proof (apply_update_frame parse_date body t0 t1 Hu Hc Ea) as Hf.
  injection Hf as H1 H2 H3 H4.
  split.
  - intros k. destruct (decide (oid = k)) as [<-|Hne].
    + rewrite lookup_insert_eq, El. split; eauto.
    + rewrite lookup_insert_ne by exact Hne. reflexivity.
  - intros k t t' Hk Hk'. destruct (decide (oid = k)) as [<-|Hne].
    + rewrite lookup_insert_eq in Hk'. injection Hk' as <-.
      assert (t0 = t) by congruence. subst t0.
      cbn [_id user createdAt completedAt set_updatedAt].
      repeat split; auto. intros N. congruence.
    + rewrite lookup_insert_ne in Hk' by exact Hne.
      assert (t' = t) by congruence. subst. auto.
Qed.

Lemma update_keeps_identity_and_completion_time_witness :
  exists t',
    (updateTask Samples.no_dates 10000 Samples.id1 {[ "status" := JStr "completed" ]}
       Samples.alice Samples.sample_tasks).2 !! Samples.id1 = Some t' /\
    completedAt t' = None.
Proof.
  destruct ((updateTask Samples.no_dates 10000 Samples.id1
               {[ "status" := JStr "completed" ]}
               Samples.alice Samples.sample_tasks).2 !! Samples.id1)
    as [t'|] eqn:H; [|vm_compute in H; discriminate H].
  exists t'. split; [reflexivity|].
  destruct (update_keeps_identity_and_completion_time Samples.no_dates 10000
              Samples.id1 {[ "status" := JStr "completed" ]}
              {[ "status" := JStr "completed" ]} Samples.alice Samples.sample_tasks)
    as [_ Hk]; [vm_compute; reflexivity|].
  destruct (Hk Samples.id1 Samples.task1 t') as (_ & _ & _ & Hc & _);
    [vm_compute; reflexivity | exact H | exact Hc].
Defined.

Lemma pre_save_unmodified now t : pre_save false now t = t.
Proof. reflexivity. Qed.

(** X7: the owner's importance toggle answers 200, negates [isImportant],
    stamps [updatedAt] and changes nothing else, in that document or in any
    other; a second toggle gives the document back with only [updatedAt]
    moved. *)
Theorem toggle_importance_changes_only_importance (id oid : string) (t : Task)
    (caller : UserModel.User) (db : Tasks) (n1 n2 : Z) :
  castObjectId id = Ok oid -> db !! oid = Some t -> _id t = oid ->
  user t = UserModel._id caller ->
  let r1 := toggleTaskImportance n1 id caller db in
  let r2 := toggleTaskImportance n2 id caller r1.2 in
  code r1.1 = 200%nat /\
  r1.2 = <[oid := set_updatedAt n1 (set_isImportant (negb (isImportant t)) t)]> db /\
  code r2.1 = 200%nat /\
  r2.2 = <[oid := set_updatedAt n2 t]> db.
Proof.
  intros Hc Hl Hi Hu.
  assert (Step : forall n (x : Task) (d : Tasks),
            d !! oid = Some x -> _id x = oid -> user x = UserModel._id caller ->
            code (toggleTaskImportance n id caller d).1 = 200%nat /\
            (toggleTaskImportance n id caller d).2
            = <[oid := set_updatedAt n (set_isImportant (negb (isImportant x)) x)]> d).
  { intros n x d Hx Hix Hux. unfold toggleTaskImportance.
    rewrite (findById_cast _ _ _ Hc), Hx, Hux, String.eqb_refl. cbn [negb].
    unfold toggleImportant, save. rewrite pre_save_unmodified.
    cbn [fst snd code _id set_updatedAt set_isImportant]. rewrite Hix. auto. }
  cbv zeta.
  destruct (Step n1 t db Hl Hi Hu) as [C1 E1]. rewrite E1.
  destruct (Step n2 (set_updatedAt n1 (set_isImportant (negb (isImportant t)) t))
              (<[oid := set_updatedAt n1 (set_isImportant (negb (isImportant t)) t)]> db))
    as [C2 E2]; [apply lookup_insert_eq | exact Hi | exact Hu |].
  split; [exact C1|]. split; [reflexivity|]. split; [exact C2|].
  rewrite E2, insert_insert_eq. f_equal.
  destruct t as [i ti de st pr du co us ta im no cr up]. cbn.
  rewrite negb_involutive. reflexivity.
Qed.

Lemma toggle_importance_changes_only_importance_witness :
  (toggleTaskImportance 30000 Samples.id1 Samples.alice
     (toggleTaskImportance 20000 Samples.id1 Samples.alice Samples.sample_tasks).2).2
  = <[Samples.id1 := set_updatedAt 30000 Samples.task1]> Samples.sample_tasks.
Proof.
  apply (toggle_importance_changes_only_importance Samples.id1 Samples.id1
           Samples.task1 Samples.alice Samples.sample_tasks 20000 30000);
    vm_compute; reflexivity.
Defined.

(** ** The numbers of the statistics *)

Section Counting.

Context (regex : string -> option (string -> bool)).

Lemma count_partition {A} (p q r : A -> bool) (l : list A) :
  (forall x, r x = p x || q x) -> (forall x, p x && q x = false) ->
  length (List.filter r l)
  = (length (List.filter p l) + length (List.filter q l))%nat.
Proof.
  intros Hr Hx. induction l as [|a l IH]; [reflexivity|]. cbn [List.filter].
  rewrite (Hr a). specialize (Hx a).
  destruct (p a), (q a); cbn in *; try discriminate; lia.
Qed.

Lemma count_le {A} (p q : A -> bool) (l : list A) :
  (forall x, p x = true -> q x = true) ->
  (length (List.filter p l) <= length (List.filter q l))%nat.
Proof.
  intros H. induction l as [|a l IH]; cbn [List.filter]; [lia|].
  destruct (p a) eqn:Ep.
  - rewrite (H a Ep). cbn. lia.
  - destruct (q a); cbn; lia.
Qed.

Lemma count_ext {A} (p q : A -> bool) (l : list A) :
  (forall x, p x = q x) -> length (List.filter p l) = length (List.filter q l).
Proof. intros H. f_equal. apply List.filter_ext. exact H. Qed.

(** The statistics response, count by count. *)
Lemma getTaskStats_eq now caller db :
  let uid := UserModel._id caller in
  let n f := length (List.filter (matches regex f) (documents db)) in
  getTaskStats regex now caller db =
  mkResponse 200 true ""
    (StatsData
       (mkStats
          (n (by_user uid))
          (n (mkFilter uid (Some "completed") None None None None))
          (n (mkFilter uid (Some "pending") None None None None))
          (n (mkFilter uid None None (Some true) None None))
          (n (mkFilter uid (Some "pending") None None None (Some now)))
          (completion_rate
             (n (mkFilter uid (Some "completed") None None None None))
             (n (by_user uid)))
          (n (mkFilter uid None (Some "high") None None None))
          (n (mkFilter uid None (Some "medium") None None None))
          (n (mkFilter uid None (Some "low") None None None)))).
Proof.
  cbv zeta. unfold getTaskStats.
  rewrite !countDocuments_plain by reflexivity. reflexivity.
Qed.

(** The filters of the counts, read on one task. *)
Lemma matches_counts uid now t :
  let mine := String.eqb (user t) uid in
  matches regex (by_user uid) t = mine /\
  matches regex (mkFilter uid (Some "completed") None None None None) t
  = mine && status_eqb (status t) completed /\
  matches regex (mkFilter uid (Some "pending") None None None None) t
  = mine && status_eqb (status t) pending /\
  matches regex (mkFilter uid None None (Some true) None None) t
  = mine && isImportant t /\
  matches regex (mkFilter uid (Some "pending") None None None (Some now)) t
  = mine && isOverdue now t /\
  matches regex (mkFilter uid None (Some "high") None None None) t
  = mine && priority_eqb (priority t) high /\
  matches regex (mkFilter uid None (Some "medium") None None None) t
  = mine && priority_eqb (priority t) medium /\
  matches regex (mkFilter uid None (Some "low") None None None) t
  = mine && priority_eqb (priority t) low.
Proof.
  unfold matches, by_user, isOverdue.
  cbn [f_user f_status f_priority f_isImportant f_search f_dueDate_lt opt_test].
  destruct (String.eqb (user t) uid), (status t), (priority t), (isImportant t),
    (dueDate t); cbn; rewrite ?andb_true_r, ?andb_false_r; repeat split.
Qed.

End Counting.

(** X8: in every statistics response the total is the number of completed
    plus the number of pending tasks, and also the sum of the three
    priority counts; the overdue tasks are among the pending ones and the
    important ones among all. *)
Theorem statistics_add_up (regex : string -> option (string -> bool))
    (now : Z) (caller : UserModel.User) (db : Tasks) :
  exists s,
    getTaskStats regex now caller db = mkResponse 200 true "" (StatsData s) /\
    total s = (completed_count s + pending_count s)%nat /\
    total s = (byPriority_high s + byPriority_medium s + byPriority_low s)%nat /\
    (overdue s <= pending_count s)%nat /\
    (important s <= total s)%nat.
Proof.
  rewrite getTaskStats_eq. cbv zeta. eexists. split; [reflexivity|].
  cbn [total completed_count pending_count byPriority_high byPriority_medium
       byPriority_low overdue important].
  set (uid := UserModel._id caller).
  assert (M := fun t => matches_counts regex uid now t). cbv zeta in M.
  split; [|split; [|split]].
  - apply count_partition; intros t;
      destruct (M t) as (E1 & E2 & E3 & _); rewrite ?E1, ?E2, ?E3;
      destruct (String.eqb (user t) uid), (status t); reflexivity.
  - rewrite <- count_partition
      with (r := fun t => String.eqb (user t) uid
                          && negb (priority_eqb (priority t) low)).
    + apply count_partition; intros t;
        destruct (M t) as (E1 & _ & _ & _ & _ & _ & _ & E8); rewrite ?E1, ?E8;
        destruct (String.eqb (user t) uid), (priority t); reflexivity.
    + intros t. destruct (M t) as (_ & _ & _ & _ & _ & E6 & E7 & _).
      rewrite E6, E7.
      destruct (String.eqb (user t) uid), (priority t); reflexivity.
    + intros t. destruct (M t) as (_ & _ & _ & _ & _ & E6 & E7 & _).
      rewrite E6, E7.
      destruct (String.eqb (user t) uid), (priority t); reflexivity.
  - apply count_le. intros t. destruct (M t) as (_ & _ & E3 & _ & E5 & _).
    rewrite E3, E5. unfold isOverdue.
    destruct (String.eqb (user t) uid), (status t), (dueDate t); cbn; congruence.
  - apply count_le. intros t. destruct (M t) as (E1 & _ & _ & E4 & _).
    rewrite E1, E4.
    destruct (String.eqb (user t) uid); cbn; congruence.
Qed.

(** X9: the statistics object of a list response carries the same total,
    completed, pending and important counts as the statistics endpoint
    gives for the same caller and collection. *)
Theorem list_statistics_match_stats_endpoint
    (regex : string -> option (string -> bool))
    (query : gmap string JsVal) (now : Z) (caller : UserModel.User) (db : Tasks)
    (n : nat) (l : list Task) (st : Statistics) :
  data (getTasks regex query caller db) = TaskList n l st ->
  exists s,
    getTaskStats regex now caller db = mkResponse 200 true "" (StatsData s) /\
    st_total st = total s /\ st_completed st = completed_count s /\
    st_pending st = pending_count s /\ st_important st = important s.
Proof.
  intros Hd. rewrite getTaskStats_eq. cbv zeta. eexists. split; [reflexivity|].
  cbn [total completed_count pending_count important].
  destruct (list_filter (UserModel._id caller) query) as [f|e] eqn:Hf.
  - destruct (TaskModel.find regex f db) as [found|e] eqn:Hq.
    + rewrite (getTasks_found _ _ _ _ _ _ Hf Hq) in Hd. cbv zeta in Hd.
      cbn [data] in Hd. injection Hd as _ _ <-. repeat split.
    + rewrite getTasks_failed in Hd; [discriminate | intros; congruence].
  - rewrite getTasks_failed in Hd; [discriminate | intros; congruence].
Qed.

Lemma list_statistics_match_stats_endpoint_witness :
  exists s,
    getTaskStats Samples.any_regex 10000 Samples.alice Samples.sample_tasks
    = mkResponse 200 true "" (StatsData s) /\ total s = 2%nat.
Proof.
  destruct (list_statistics_match_stats_endpoint Samples.any_regex ∅ 10000
              Samples.alice Samples.sample_tasks 2
              [Samples.task1; Samples.task2] (mkStatistics 2 0 2 0))
    as (s & Hs & Ht & _); [vm_compute; reflexivity|].
  exists s. split; [exact Hs | rewrite <- Ht; reflexivity].
Defined.

(** X10: the overdue count of the statistics is the number of the caller's
    tasks whose virtual [isOverdue] is true at the clock of the request:
    the query and the virtual agree on what overdue means. *)
Theorem overdue_count_agrees_with_virtual
    (regex : string -> option (string -> bool))
    (now : Z) (caller : UserModel.User) (db : Tasks) :
  exists s,
    getTaskStats regex now caller db = mkResponse 200 true "" (StatsData s) /\
    overdue s =
    length (List.filter
              (fun t => String.eqb (user t) (UserModel._id caller) && isOverdue now t)
              (documents db)).
Proof.
  rewrite getTaskStats_eq. cbv zeta. eexists. split; [reflexivity|].
  cbn [overdue]. apply count_ext. intros t.
  destruct (matches_counts regex (UserModel._id caller) now t)
    as (_ & _ & _ & _ & H & _).
  exact H.
Qed.

(** ** Overdue tasks *)

Lemma StronglySorted_on {A} (P : A -> Prop) (R R' : A -> A -> Prop) (l : list A) :
  (forall x y, P x -> P y -> R x y -> R' x y) ->
  Forall P l -> StronglySorted R l -> StronglySorted R' l.
Proof.
  intros H HP Hs. induction Hs as [|x l Hs IH Hf]; constructor.
  - apply IH. inversion HP; assumption.
  - inversion HP as [|? ? Px Pl]; subst.
    rewrite Forall_forall in *. intros y Hy. apply H; auto.
Qed.

(** X11: [getOverdueTasks] casts the user id like any query on the path
    [user]: a string that is not 24 hexadecimal digits makes it fail with a
    [CastError]; otherwise it returns exactly the tasks of the user with
    that id (in any letter case) whose virtual [isOverdue] is true at the
    clock, each of them with a due date, the earliest due date first. *)
Theorem getOverdueTasks_sorted_and_exact
    (regex : string -> option (string -> bool))
    (now : Z) (userId : string) (db : Tasks) :
  (isValidObjectId userId = false ->
   getOverdueTasks regex now userId db = Throw CastError) /\
  (isValidObjectId userId = true ->
   exists l,
     getOverdueTasks regex now userId db = Ok l /\
     l ≡ₚ List.filter
            (fun t => String.eqb (user t) (string_map hex_lower userId)
                      && isOverdue now t)
            (documents db) /\
     StronglySorted
       (fun a b => exists da db, dueDate a = Some da /\ dueDate b = Some db /\ da <= db)
       l).
Proof.
  unfold getOverdueTasks, castObjectId.
  split; intros Hc; rewrite Hc; cbn [mbind Result_bind]; [reflexivity|].
  set (oid := string_map hex_lower userId).
  unfold TaskModel.find, overdue_filter. cbn [f_search mbind Result_bind].
  eexists. split; [reflexivity|].
  assert (E : List.filter
                (matches regex (mkFilter oid (Some "pending") None None None (Some now)))
                (documents db)
              = List.filter (fun t => String.eqb (user t) oid && isOverdue now t)
                  (documents db)).
  { apply List.filter_ext. intros t.
    destruct (matches_counts regex oid now t) as (_ & _ & _ & _ & H & _). exact H. }
  rewrite E. split; [apply sort_perm|].
  apply (StronglySorted_on (fun t => isOverdue now t = true) (sort_le [(due_key, Asc)])).
  - intros x y Hx Hy. unfold sort_le, isOverdue, due_key in *.
    cbn [compare_by directed bson_compare].
    destruct (dueDate x) as [dx|]; [|discriminate].
    destruct (dueDate y) as [dy|]; [|discriminate].
    cbn [bson_compare]. intros Hc'. exists dx, dy. split; [reflexivity|].
    split; [reflexivity|].
    destruct (Z.compare_spec dx dy); [lia | lia | congruence].
  - rewrite Forall_forall. intros t Ht.
    rewrite sort_perm in Ht. apply list_elem_of_In in Ht.
    apply filter_In in Ht. destruct Ht as [_ Ht].
    apply andb_prop in Ht. apply Ht.
  - apply sort_sorted.
Qed.

Lemma getOverdueTasks_sorted_and_exact_witness :
  getOverdueTasks Samples.any_regex 10000 "abc" Samples.sample_tasks
  = Throw CastError /\
  exists l,
    getOverdueTasks Samples.any_regex 10000 "AAAAAAAAAAAAAAAAAAAAAAAA"
      Samples.sample_tasks = Ok l /\
    l ≡ₚ [Samples.task2].
Proof.
  split.
  - apply (getOverdueTasks_sorted_and_exact Samples.any_regex 10000 "abc"
             Samples.sample_tasks). reflexivity.
  - destruct (getOverdueTasks_sorted_and_exact Samples.any_regex 10000
                "AAAAAAAAAAAAAAAAAAAAAAAA" Samples.sample_tasks) as [_ H].
    destruct (H eq_refl) as (l & Hl & Hp & _). exists l. split; [exact Hl|].
    rewrite Hp. vm_compute. reflexivity.
Defined.

(** ** The other middleware of auth.js *)

(** X12: [optionalAuth] attaches a user to the request exactly when
    [protect] would let the request through, and it is the same user; in
    every case that [protect] answers 401, [optionalAuth] goes on with no
    user. *)
Theorem optionalAuth_agrees_with_protect
    (jwt_verify : string -> Result UserModel.Payload)
    (users : UserModel.Users) (authorization : option string) :
  optionalAuth jwt_verify users authorization =
  match protect jwt_verify users authorization with
  | inr user => Some user
  | inl _ => None
  end.
Proof.
  unfold optionalAuth, protect.
  destruct (bearer_token authorization) as [[|c s]|]; try reflexivity.
  destruct (mbind _ _) as [[u|]|[]]; try reflexivity.
  destruct (UserModel.isActive u); reflexivity.
Qed.

(** X13: user documents carry no role, so [authorize] called with role
    names never lets a request through: it answers 401 when the request has
    no user and 403 for every user. *)
Theorem authorize_refuses_everyone (roles : list JsVal)
    (req_user : option UserModel.User) :
  Forall (fun r => exists name, r = JStr name) roles ->
  exists res,
    authorize roles req_user = Some res /\
    code res = match req_user with Some _ => 403%nat | None => 401%nat end.
Proof.
  intros Hr. unfold authorize. destruct req_user as [u|]; [|eauto].
  replace (existsb (strict_eq (role u)) roles) with false; [cbn; eauto|].
  symmetry. induction Hr as [|r rest [name ->] _ IH]; [reflexivity|].
  cbn. exact IH.
Qed.

Lemma authorize_refuses_everyone_witness :
  exists res,
    authorize [JStr "admin"; JStr "user"] (Some Samples.alice) = Some res /\
    code res = 403%nat.
Proof.
  apply (authorize_refuses_everyone [JStr "admin"; JStr "user"] (Some Samples.alice)).
  repeat constructor; eexists; reflexivity.
Defined.

(** ** The bearer token *)

Lemma split_space_no_space s : has_space s = false -> split_space s = [s].
Proof.
  induction s as [|c r IH]; [reflexivity|]. cbn.
  destruct (Ascii.eqb c " "%char); [discriminate|]. cbn.
  intros H. rewrite (IH H). reflexivity.
Qed.

Lemma split_space_app s r :
  has_space s = false ->
  split_space (s ++ String " "%char r) = s :: split_space r.
Proof.
  induction s as [|c s IH]; [reflexivity|].
  change (String c s ++ String " "%char r)
    with (String c (s ++ String " "%char r)).
  cbn [has_space split_space].
  destruct (Ascii.eqb c " "%char); [discriminate|]. cbn [orb].
  intros H. rewrite (IH H). reflexivity.
Qed.

(** X14: the header [Bearer <token>] gives back the token when the token
    has no space in it; of a longer header only the piece between the first
    and the second space is taken, and a header that does not start with
    [Bearer] gives no token. *)
Theorem bearer_token_round_trip (token rest header : string) :
  has_space token = false ->
  bearer_token (Some ("Bearer " ++ token)) = Some token /\
  bearer_token (Some ("Bearer " ++ token ++ String " "%char rest)) = Some token /\
  (startsWith header "Bearer" = false -> bearer_token (Some header) = None).
Proof.
  intros Hs. split; [|split].
  - unfold bearer_token.
    change ("Bearer " ++ token) with ("Bearer" ++ String " "%char token).
    cbn [String.eqb negb andb]. 
    replace (startsWith ("Bearer" ++ String " "%char token) "Bearer") with true
      by reflexivity.
    replace (String.eqb ("Bearer" ++ String " "%char token) "") with false
      by reflexivity.
    cbn [negb andb].
    rewrite split_space_app by reflexivity.
    rewrite split_space_no_space by exact Hs. reflexivity.
  - unfold bearer_token.
    change ("Bearer " ++ token ++ String " "%char rest)
      with ("Bearer" ++ String " "%char (token ++ String " "%char rest)).
    replace (startsWith ("Bearer" ++ String " "%char (token ++ String " "%char rest))
               "Bearer") with true by reflexivity.
    replace (String.eqb ("Bearer" ++ String " "%char (token ++ String " "%char rest)) "")
      with false by reflexivity.
    cbn [negb andb].
    rewrite split_space_app by reflexivity.
    rewrite split_space_app by exact Hs. reflexivity.
  - intros Hp. unfold bearer_token. rewrite Hp, andb_false_r. reflexivity.
Qed.

Lemma bearer_token_round_trip_witness :
  bearer_token (Some "Bearer abc.def.ghi") = Some "abc.def.ghi".
Proof.
  apply (bearer_token_round_trip "abc.def.ghi" "" ""). reflexivity.
Defined.

(** ** The title on create *)

(** X15: on create the title is required and must have 1 to 100
    characters: a body without a title, with an empty title or with a
    longer one is answered 400 with the message of the rule, whatever else
    it holds.  A title of 1 to 100 characters is accepted: the request is
    answered as the other keys of the schema decide, an accepted body
    carries the title as it was sent, and a body that holds only such a
    title goes on to the controller with the defaults filled in. *)
Theorem create_title_rules (parse_date : string -> option Z) (now : Z)
    (body : gmap string JsVal) :
  let rejected msg :=
    exists errs,
      validateRequest parse_date createTaskSchema now body
      = inl (mkResponse 400 false "Validation failed" (Errors errs)) /\
      In msg errs in
  (body !! "title" = None -> rejected "Task title is required") /\
  (body !! "title" = Some (JStr "") -> rejected "Task title cannot be empty") /\
  (forall s, body !! "title" = Some (JStr s) -> (100 < String.length s)%nat ->
             rejected "Task title cannot exceed 100 characters") /\
  (forall s, body !! "title" = Some (JStr s) ->
             (1 <= String.length s <= 100)%nat ->
             validateRequest parse_date createTaskSchema now body
             = match validateRequest parse_date (other_keys "title" createTaskSchema)
                       now body with
               | inl res => inl res
               | inr value => inr (<["title" := JStr s]> value)
               end) /\
  (forall s, (1 <= String.length s <= 100)%nat ->
             validateRequest parse_date createTaskSchema now {[ "title" := JStr s ]}
             = inr {[ "title" := JStr s; "priority" := JStr "medium";
                      "isImportant" := JBool false ]}).
Proof.
  cbv zeta.
  set (M := [ ("string.min", "Task title cannot be empty");
              ("string.max", "Task title cannot exceed 100 characters");
              ("any.required", "Task title is required");
              ("string.empty", "Task title cannot be empty") ]).
  set (K := mkKey (JoiString (Some 1%nat) (Some 100%nat) false []) true false None M).
  assert (Hrej : forall msg,
            In msg (key_errors parse_date now body ("title", K)) ->
            exists errs,
              validateRequest parse_date createTaskSchema now body
              = inl (mkResponse 400 false "Validation failed" (Errors errs)) /\
              In msg errs).
  { intros msg Hin.
    assert (Hin' : In msg (schema_validate parse_date now createTaskSchema body).1).
    { rewrite schema_validate_errors. unfold createTaskSchema. cbn [flat_map].
      fold M. fold K. apply in_or_app. left. exact Hin. }
    eexists. split; [|exact Hin'].
    apply validateRequest_errors. intros E. rewrite E in Hin'. destruct Hin'. }
  assert (Dc : List.NoDup (List.map fst createTaskSchema))
    by (apply task_schemas_NoDup; left; reflexivity).
  assert (Ic : In ("title", K) createTaskSchema) by (left; reflexivity).
  split; [|split; [|split; [|split]]].
  - intros Hb. apply Hrej. unfold key_errors, validate_key. rewrite Hb.
    left. reflexivity.
  - intros Hb. apply Hrej. unfold key_errors, validate_key. rewrite Hb.
    left. reflexivity.
  - intros s Hb Hlen. apply Hrej. unfold key_errors, validate_key. rewrite Hb.
    cbn [K k_type k_messages check fst snd app].
    destruct s as [|c s]; [cbn in Hlen; lia|].
    cbn [String.eqb].
    replace (String.length (String c s) <? 1)%nat with false
      by (symmetry; apply Nat.ltb_ge; cbn; lia).
    replace (100 <? String.length (String c s))%nat with true
      by (symmetry; apply Nat.ltb_lt; exact Hlen).
    left. reflexivity.
  - intros s Hb Hlen.
    destruct (title_key_accepted parse_date now body s true M Hb Hlen) as [He Hv].
    exact (validateRequest_key_accepted parse_date now _ body _ _ _ Dc Ic He Hv).
  - intros s Hlen.
    set (b := {[ "title" := JStr s ]} : gmap string JsVal).
    assert (Bt : b !! "title" = Some (JStr s)) by (vm_compute; reflexivity).
    destruct (title_key_accepted parse_date now b s true M Bt Hlen) as [He Hv].
    rewrite (validateRequest_key_accepted parse_date now _ b _ _ _ Dc Ic He Hv).
    assert (R : validateRequest parse_date (other_keys "title" createTaskSchema) now b
                = inr {[ "priority" := JStr "medium"; "isImportant" := JBool false ]})
      by (vm_compute; reflexivity).
    rewrite R. vm_compute. reflexivity.
Qed.

Lemma create_title_rules_witness :
  (exists errs,
     validateRequest Samples.no_dates createTaskSchema 10000
       {[ "description" := JStr "no title here" ]}
     = inl (mkResponse 400 false "Validation failed" (Errors errs)) /\
     In "Task title is required" errs) /\
  validateRequest Samples.no_dates createTaskSchema 10000
    {[ "title" := JStr "Buy milk"; "description" := JStr "two litres";
       "owner" := JStr "bob" ]}
  = inr {[ "title" := JStr "Buy milk"; "description" := JStr "two litres";
           "priority" := JStr "medium"; "isImportant" := JBool false ]}.
Proof.
  split.
  - destruct (create_title_rules Samples.no_dates 10000
                {[ "description" := JStr "no title here" ]}) as (H & _).
    apply H. vm_compute. reflexivity.
  - destruct (create_title_rules Samples.no_dates 10000
                {[ "title" := JStr "Buy milk"; "description" := JStr "two litres";
                   "owner" := JStr "bob" ]}) as (_ & _ & _ & H & _).
    rewrite (H "Buy milk"); [vm_compute; reflexivity | vm_compute; reflexivity
                             | vm_compute; lia].
Defined.

(** ** Requests that change nothing *)

Section NoWrite.

Context (parse_date : string -> option Z).
Context (regex : string -> option (string -> bool)).
Context (jwt_verify : string -> Result UserModel.Payload).

Lemma controller_users r env req ctx w res w' :
  controller parse_date regex r env req ctx w = Done res w' -> users w' = users w.
Proof.
  unfold controller. destruct (c_user ctx) as [caller|]; [|intros [= <- <-]; reflexivity].
  destruct r; try (intros [= <- <-]; reflexivity).
  - destruct (createTask _ _ _ _ _ _). intros [= <- <-]. reflexivity.
  - destruct (updateTask _ _ _ _ _ _). intros [= <- <-]. reflexivity.
  - destruct (deleteTask _ _ _). intros [= <- <-]. reflexivity.
  - destruct (toggleTaskStatus _ _ _ _). intros [= <- <-]. reflexivity.
  - destruct (toggleTaskImportance _ _ _ _). intros [= <- <-]. reflexivity.
Qed.

Lemma set_tasks_same w : set_tasks (tasks w) w = w.
Proof. destruct w; reflexivity. Qed.

(** A controller that answers with [success: false] has not written, and
    the three reading routes never write. *)
Lemma controller_failure_no_write r env req ctx w res w' :
  controller parse_date regex r env req ctx w = Done res w' ->
  (success res = false \/ r = ListTasks \/ r = TaskStats \/ (exists id, r = GetTask id)) ->
  tasks w' = tasks w.
Proof.
  unfold controller. destruct (c_user ctx) as [caller|]; [|intros [= <- <-]; reflexivity].
  destruct r; try (intros [= <- <-]; reflexivity).
  - unfold createTask. destruct (TaskModel.create _ _ _ _ _) as [[t db]|e];
      intros [= <- <-]; [|reflexivity].
    intros [H|[H|[H|[i H]]]]; discriminate.
  - unfold updateTask.
    destruct (findById id (tasks w)) as [[t|]|e]; try (intros [= <- <-]; reflexivity).
    destruct (negb _); [intros [= <- <-]; reflexivity|].
    destruct (TaskModel.findByIdAndUpdate _ _ _ _ _) as [[[t'|] db]|e];
      intros [= <- <-]; try reflexivity;
      intros [H|[H|[H|[i H]]]]; discriminate.
  - unfold deleteTask.
    destruct (findById id (tasks w)) as [[t|]|e]; try (intros [= <- <-]; reflexivity).
    destruct (negb _); intros [= <- <-]; [reflexivity|].
    intros [H|[H|[H|[i H]]]]; discriminate.
  - unfold toggleTaskStatus.
    destruct (findById id (tasks w)) as [[t|]|e]; try (intros [= <- <-]; reflexivity).
    destruct (negb _); [intros [= <- <-]; reflexivity|].
    destruct (toggleStatus _ _ _). intros [= <- <-].
    intros [H|[H|[H|[i H]]]]; discriminate.
  - unfold toggleTaskImportance.
    destruct (findById id (tasks w)) as [[t|]|e]; try (intros [= <- <-]; reflexivity).
    destruct (negb _); [intros [= <- <-]; reflexivity|].
    destruct (toggleImportant _ _ _). intros [= <- <-].
    intros [H|[H|[H|[i H]]]]; discriminate.
Qed.

Lemma protect_rejection_failure users auth res :
  protect jwt_verify users auth = inl res -> success res = false.
Proof.
  unfold protect.
  destruct (bearer_token auth) as [[|c s]|]; try (intros [= <-]; reflexivity).
  destruct (mbind _ _) as [[u|]|[]]; try (intros [= <-]; reflexivity).
  destruct (negb (UserModel.isActive u)); [intros [= <-]; reflexivity | discriminate].
Qed.

End NoWrite.

(** X16: no request to a task route changes the user collection; a
    request that is answered with [success: false] (429, 401, 400, 403,
    404 or 500) changes no task, and neither does any request to the list,
    statistics and single-task reading routes. *)
Theorem failed_and_reading_requests_write_nothing
    (parse_date : string -> option Z)
    (regex : string -> option (string -> bool))
    (jwt_verify : string -> Result UserModel.Payload)
    (env : Env) (req : Request) (w : World) :
  let '(_, res, w') := serve parse_date regex jwt_verify env req w in
  users w' = users w /\
  (success res = false -> tasks w' = tasks w) /\
  (route req = ListTasks \/ route req = TaskStats \/
   (exists id, route req = GetTask id) -> tasks w' = tasks w).
Proof.
  rewrite serve_staged. unfold staged.
  destruct (counted_collections env req w) as [Ht Hu].
  destruct (rate_limited env req w); [auto|].
  destruct (protect jwt_verify (users w) (authorization req)) as [r401|caller];
    [auto|].
  destruct (validated parse_date (route req) (now env) _) as [r400|ctx]; [auto|].
  destruct (controller_done parse_date regex (route req) env req ctx
              (counted env req w)) as (res & w' & Hd).
  rewrite Hd. split; [|split].
  - rewrite (controller_users parse_date regex _ _ _ _ _ _ _ Hd). exact Hu.
  - intros Hs. rewrite <- Ht.
    apply (controller_failure_no_write parse_date regex _ _ _ _ _ _ _ Hd). auto.
  - intros Hr. rewrite <- Ht.
    apply (controller_failure_no_write parse_date regex _ _ _ _ _ _ _ Hd). auto.
Qed.

Lemma failed_and_reading_requests_write_nothing_witness :
  let '(_, res, w') :=
    Samples.sample_serve Samples.sample_env
      (Samples.as_alice (DeleteTask Samples.id3) ∅) Samples.sample_world in
  tasks w' = tasks Samples.sample_world.
Proof.
  pose proof (failed_and_reading_requests_write_nothing Samples.no_dates
                Samples.any_regex Samples.sample_verify Samples.sample_env
                (Samples.as_alice (DeleteTask Samples.id3) ∅) Samples.sample_world) as H.
  unfold Samples.sample_serve.
  assert (Hs : success (serve Samples.no_dates Samples.any_regex Samples.sample_verify
                          Samples.sample_env
                          (Samples.as_alice (DeleteTask Samples.id3) ∅)
                          Samples.sample_world).1.2 = false)
    by (vm_compute; reflexivity).
  destruct (serve _ _ _ _ _ _) as [[trace res] w'].
  destruct H as (_ & H & _). apply H. exact Hs.
Defined.

(** ** The client's task cache *)

Section ClientTasks.

Lemma replace_task_ids payload l :
  List.map _id (Client.replace_task payload l) = List.map _id l.
Proof.
  unfold Client.replace_task. rewrite List.map_map. apply List.map_ext_in.
  intros t _. destruct (String.eqb (_id t) (_id payload)) eqn:E; [|reflexivity].
  apply String.eqb_eq in E. congruence.
Qed.

Lemma replace_task_absent payload l :
  (forall t, In t l -> _id t <> _id payload) -> Client.replace_task payload l = l.
Proof.
  intros H. unfold Client.replace_task. rewrite <- (List.map_id l) at 2.
  apply List.map_ext_in. intros t Ht.
  rewrite (eqb_neq_false _ _ (H t Ht)). reflexivity.
Qed.

End ClientTasks.

(** X17: an update or toggle result put into the client's cache keeps the
    tasks in place: the ids stay the same in the same order, every task
    with the id of the payload becomes the payload, every other task is
    untouched, and nothing else of the state changes; a payload whose id is
    not in the cache is dropped. *)
Theorem cache_update_replaces_in_place (state : Client.TaskState) (payload : Task)
    (action : Client.TaskAction) :
  action = Client.UPDATE_TASK_SUCCESS payload \/
  action = Client.TOGGLE_STATUS_SUCCESS payload \/
  action = Client.TOGGLE_IMPORTANCE_SUCCESS payload ->
  let state' := Client.taskReducer state action in
  List.map _id (Client.tasks state') = List.map _id (Client.tasks state) /\
  (forall i t, nth_error (Client.tasks state) i = Some t ->
     nth_error (Client.tasks state') i
     = Some (if String.eqb (_id t) (_id payload) then payload else t)) /\
  ((forall t, In t (Client.tasks state) -> _id t <> _id payload) ->
   state' = state) /\
  (Client.stats state', Client.isLoading state', Client.filters state',
   Client.isInitialized state')
  = (Client.stats state, Client.isLoading state, Client.filters state,
     Client.isInitialized state).
Proof.
  intros Ha. cbv zeta.
  assert (E : Client.taskReducer state action =
              Client.mkTaskState (Client.replace_task payload (Client.tasks state))
                (Client.stats state) (Client.isLoading state) (Client.filters state)
                (Client.isInitialized state))
    by (destruct Ha as [->|[->| ->]]; reflexivity).
  rewrite E. cbn [Client.tasks Client.stats Client.isLoading Client.filters
                  Client.isInitialized].
  split; [apply replace_task_ids|]. split; [|split; [|reflexivity]].
  - intros i t Hi. unfold Client.replace_task.
    rewrite nth_error_map, Hi. reflexivity.
  - intros H. rewrite (replace_task_absent _ _ H). destruct state; reflexivity.
Qed.

Lemma cache_update_replaces_in_place_witness :
  List.map _id
    (Client.tasks
       (Client.taskReducer
          (Client.mkTaskState [Samples.task1; Samples.task2] None false
             Client.no_filters true)
          (Client.TOGGLE_STATUS_SUCCESS (set_status completed Samples.task2))))
  = [Samples.id1; Samples.id2].
Proof.
  apply (cache_update_replaces_in_place
           (Client.mkTaskState [Samples.task1; Samples.task2] None false
              Client.no_filters true)
           (set_status completed Samples.task2)
           (Client.TOGGLE_STATUS_SUCCESS (set_status completed Samples.task2))).
  right. left. reflexivity.
Defined.

(** X18: in the client's cache a created task goes to the front of the
    list; deleting by id removes every task with that id and keeps the
    others in order, so creating a task whose id is new and then deleting
    it gives the list back, and deleting twice is the same as deleting
    once. *)
Theorem cache_create_then_delete (state : Client.TaskState) (payload : Task) :
  let created := Client.taskReducer state (Client.CREATE_TASK_SUCCESS payload) in
  let deleted := Client.taskReducer created (Client.DELETE_TASK_SUCCESS (_id payload)) in
  Client.tasks created = payload :: Client.tasks state /\
  (forall t, In t (Client.tasks deleted) <->
             In t (Client.tasks state) /\ _id t <> _id payload) /\
  Client.taskReducer deleted (Client.DELETE_TASK_SUCCESS (_id payload)) = deleted /\
  ((forall t, In t (Client.tasks state) -> _id t <> _id payload) ->
   deleted = state).
Proof.
  cbv zeta. cbn [Client.taskReducer Client.tasks Client.stats Client.isLoading
                 Client.filters Client.isInitialized List.filter].
  rewrite String.eqb_refl. cbn [negb].
  split; [reflexivity|]. split; [|split].
  - intros t. rewrite filter_In. split; intros [H1 H2]; split; auto.
    + intros E. rewrite E, String.eqb_refl in H2. discriminate.
    + rewrite (eqb_neq_false _ _ H2). reflexivity.
  - f_equal. induction (Client.tasks state) as [|a l IH]; [reflexivity|].
    cbn [List.filter]. destruct (negb (String.eqb (_id a) (_id payload))) eqn:E.
    + cbn [List.filter]. rewrite E, IH. reflexivity.
    + exact IH.
  - intros H. destruct state as [ts st lo fi ini]. cbn in *. f_equal.
    induction ts as [|a l IH]; [reflexivity|]. cbn [List.filter].
    rewrite (eqb_neq_false _ _ (H a (or_introl eq_refl))). cbn [negb].
    f_equal. apply IH. intros t Ht. apply H. right. exact Ht.
Qed.

Lemma cache_create_then_delete_witness :
  let state := Client.mkTaskState [Samples.task1; Samples.task2] None false
                 Client.no_filters true in
  Client.taskReducer
    (Client.taskReducer state (Client.CREATE_TASK_SUCCESS Samples.task3))
    (Client.DELETE_TASK_SUCCESS Samples.id3)
  = state /\
  Client.tasks
    (Client.taskReducer
       (Client.taskReducer state (Client.CREATE_TASK_SUCCESS Samples.task2))
       (Client.DELETE_TASK_SUCCESS Samples.id2))
  = [Samples.task1].
Proof.
  cbv zeta. split.
  - apply (cache_create_then_delete
             (Client.mkTaskState [Samples.task1; Samples.task2] None false
                Client.no_filters true) Samples.task3).
    intros t [<- | [<- | []]]; discriminate.
  - reflexivity.
Defined.

(** ** The client's authentication state *)

(** Every action keeps: authenticated exactly with a token, and then with
    a user. *)
Lemma authReducer_keeps_token_rule (actions : list Client.AuthAction) :
  forall s,
    (Client.isAuthenticated s = true <-> Client.auth_token s <> None) /\
    (Client.isAuthenticated s = true -> Client.auth_user s <> None) ->
    (Client.isAuthenticated (fold_left Client.authReducer actions s) = true
     <-> Client.auth_token (fold_left Client.authReducer actions s) <> None) /\
    (Client.isAuthenticated (fold_left Client.authReducer actions s) = true
     -> Client.auth_user (fold_left Client.authReducer actions s) <> None).
Proof.
  induction actions as [|a rest IH]; intros s Hs; [exact Hs|].
  cbn [fold_left]. apply IH. destruct Hs as [H1 H2].
  destruct a; cbn; split; try split; try tauto; try congruence; intros; discriminate.
Qed.

(** X19: whatever actions the authentication reducer receives, starting
    from its initial state, the state is marked authenticated exactly when
    it holds a token, and an authenticated state holds a user. *)
Theorem auth_state_authenticated_iff_token (actions : list Client.AuthAction) :
  let s := auth_run actions in
  (Client.isAuthenticated s = true <-> Client.auth_token s <> None) /\
  (Client.isAuthenticated s = true -> Client.auth_user s <> None).
Proof.
  cbv zeta. unfold auth_run. apply authReducer_keeps_token_rule.
  unfold Client.initialAuthState. cbn.
  split; [split|]; intros; congruence.
Qed.

(** X22: a protected page is shown only to a signed-in user.  When the
    application starts [ProtectedRoute] shows the spinner; after any
    actions it renders its children only if the state holds a token and a
    user; and after a logout or a failed sign-in it redirects to the login
    page, whatever came before. *)
Theorem protected_route_needs_token (actions : list Client.AuthAction) :
  let s := auth_run actions in
  Client.ProtectedRoute (auth_run []) = Client.Spinner /\
  (Client.ProtectedRoute s = Client.Children ->
   Client.auth_token s <> None /\ Client.auth_user s <> None) /\
  Client.ProtectedRoute (auth_run (actions ++ [Client.LOGOUT]))
  = Client.RedirectToLogin /\
  Client.ProtectedRoute (auth_run (actions ++ [Client.AUTH_FAILURE]))
  = Client.RedirectToLogin.
Proof.
  cbv zeta. split; [reflexivity|]. split.
  - assert (I : (Client.isAuthenticated Client.initialAuthState = true
                 <-> Client.auth_token Client.initialAuthState <> None) /\
                (Client.isAuthenticated Client.initialAuthState = true
                 -> Client.auth_user Client.initialAuthState <> None))
      by (cbn; split; [split|]; intros; congruence).
    destruct (authReducer_keeps_token_rule actions _ I) as [H1 H2].
    fold (auth_run actions) in H1, H2.
    unfold Client.ProtectedRoute.
    destruct (Client.auth_isLoading (auth_run actions)); [discriminate|].
    destruct (Client.isAuthenticated (auth_run actions)); [|discriminate].
    intros _. split; [apply H1 | apply H2]; reflexivity.
  - unfold auth_run. rewrite !fold_left_app. split; reflexivity.
Qed.

Lemma protected_route_needs_token_witness :
  let s := auth_run [Client.AUTH_START;
                     Client.AUTH_SUCCESS Samples.alice "abc.def.ghi"] in
  Client.auth_token s <> None /\ Client.auth_user s <> None.
Proof.
  apply (protected_route_needs_token
           [Client.AUTH_START; Client.AUTH_SUCCESS Samples.alice "abc.def.ghi"]).
  reflexivity.
Defined.

(** ** The rate limiter *)

Section Limiter.

Lemma limiter_counts env req ctx w n reset :
  (let '(n0, reset0) := default (0%nat, now env + windowMs) (hits w !! ip req) in
   if reset0 <=? now env then (0%nat, now env + windowMs) else (n0, reset0))
  = (n, reset) ->
  limiter env req ctx w =
  if (max_requests <? S n)%nat
  then Done (failure 429 "Too many requests from this IP, please try again later.")
            (set_hits (<[ip req := (S n, reset)]> (hits w)) w)
  else Next ctx (set_hits (<[ip req := (S n, reset)]> (hits w)) w).
Proof.
  unfold limiter.
  destruct (default (0%nat, now env + windowMs) (hits w !! ip req)) as [n0 reset0].
  destruct (reset0 <=? now env); intros [= <- <-]; reflexivity.
Qed.

Lemma limiter_step env req w n reset :
  (let '(n0, reset0) := default (0%nat, now env + windowMs) (hits w !! ip req) in
   if reset0 <=? now env then (0%nat, now env + windowMs) else (n0, reset0))
  = (n, reset) ->
  rate_limited env req w = (100 <? S n)%nat /\
  hits (counted env req w) !! ip req = Some (S n, reset).
Proof.
  intros H. unfold rate_limited, counted.
  rewrite (limiter_counts env req _ w n reset H). unfold max_requests.
  destruct (100 <? S n)%nat; cbn [hits set_hits]; rewrite lookup_insert_eq; auto.
Qed.

Lemma limiter_step_in_window t req w n reset :
  hits w !! ip req = Some (n, reset) -> t < reset ->
  rate_limited (mkEnv t "") req w = (100 <? S n)%nat /\
  hits (counted (mkEnv t "") req w) !! ip req = Some (S n, reset).
Proof.
  intros Hh Hlt. apply limiter_step. rewrite Hh. cbn [default from_option id now].
  assert (E : (reset <=? t) = false) by (apply Z.leb_gt; lia).
  rewrite E. reflexivity.
Qed.

Lemma limiter_step_new_window t req w :
  match hits w !! ip req with
  | Some (_, reset) => reset <= t
  | None => True
  end ->
  rate_limited (mkEnv t "") req w = false /\
  hits (counted (mkEnv t "") req w) !! ip req = Some (1%nat, t + windowMs).
Proof.
  intros Hh. apply (limiter_step (mkEnv t "") req w 0 (t + windowMs)).
  destruct (hits w !! ip req) as [[n reset]|]; cbn [default from_option id now].
  - assert (E : (reset <=? t) = true) by (apply Z.leb_le; lia).
    rewrite E. reflexivity.
  - assert (E : (t + windowMs <=? t) = false)
      by (apply Z.leb_gt; unfold windowMs; lia).
    rewrite E. reflexivity.
Qed.

Lemma limiter_run_in_window req times : forall w n reset,
  hits w !! ip req = Some (n, reset) -> Forall (fun t => t < reset) times ->
  (limiter_run times req w).1
  = List.map (fun i => (100 <? i)%nat) (seq (S n) (length times)).
Proof.
  induction times as [|t rest IH]; intros w n reset Hh Hf; [reflexivity|].
  inversion Hf as [|? ? Ht Hrest]; subst.
  destruct (limiter_step_in_window t req w n reset Hh Ht) as [Hr Hc].
  cbn [limiter_run length seq List.map].
  specialize (IH (counted (mkEnv t "") req w) (S n) reset Hc Hrest).
  destruct (limiter_run rest req (counted (mkEnv t "") req w)) as [bs w'].
  cbn [fst] in *. rewrite Hr, IH. reflexivity.
Qed.

End Limiter.

(** X20: with [RATE_LIMIT_WINDOW_MS] and [RATE_LIMIT_MAX_REQUESTS] unset,
    the limiter lets each client make 100 requests per window of 15
    minutes: of the requests of one client that fall in the window opened
    by its first request (no record yet, or the last window over), the
    first 100 go on and every later one is refused. *)
Theorem limiter_allows_100_per_window (req : Request) (w : World) (t1 : Z)
    (times : list Z) :
  match hits w !! ip req with
  | Some (_, reset) => reset <= t1
  | None => True
  end ->
  Forall (fun t => t < t1 + 15 * 60 * 1000) times ->
  (limiter_run (t1 :: times) req w).1
  = List.map (fun i => (100 <? i)%nat) (seq 1 (S (length times))).
Proof.
  intros Hh Hf.
  destruct (limiter_step_new_window t1 req w Hh) as [Hr Hc].
  cbn [limiter_run length seq List.map].
  pose proof (limiter_run_in_window req times (counted (mkEnv t1 "") req w)
                1 (t1 + windowMs) Hc Hf) as IH.
  destruct (limiter_run times req (counted (mkEnv t1 "") req w)) as [bs w'].
  cbn [fst] in *. rewrite Hr, IH. reflexivity.
Qed.

Lemma limiter_allows_100_per_window_witness :
  nth 100 (limiter_run (List.repeat 5000 101)
             (Samples.as_alice ListTasks ∅) Samples.sample_world).1 false = true /\
  nth 99 (limiter_run (List.repeat 5000 101)
            (Samples.as_alice ListTasks ∅) Samples.sample_world).1 true = false.
Proof.
  rewrite (limiter_allows_100_per_window (Samples.as_alice ListTasks ∅)
             Samples.sample_world 5000 (List.repeat 5000 100)).
  - vm_compute. split; reflexivity.
  - vm_compute. exact I.
  - apply Forall_forall. intros t Ht. apply list_elem_of_In, repeat_spec in Ht.
    subst. lia.
Defined.

(** ** Validating twice *)

Section Revalidation.

Context (parse_date : string -> option Z).

Lemma check_items_cons now msgs items label i x r :
  check_items parse_date now msgs items label i (x :: r)
  = check parse_date now msgs items (label ++ "[" ++ pretty i ++ "]") x
    :: check_items parse_date now msgs items label (S i) r.
Proof. reflexivity. Qed.

Lemma check_array now msgs items max label l :
  check parse_date now msgs (JoiArray items max) label (JArr l)
  = ((concat ((check_items parse_date now msgs items label 0 l).*1) ++
      match max with
      | Some n => if (n <? length l)%nat
                  then [render msgs label "array.max" (pretty n)] else []
      | None => []
      end)%list,
     JArr ((check_items parse_date now msgs items label 0 l).*2)).
Proof. reflexivity. Qed.

Lemma valid_time_again a ms : valid_time a = Some ms -> valid_time ms = Some ms.
Proof.
  unfold valid_time.
  destruct ((- max_time <=? a) && (a <=? max_time)) eqn:E; [|discriminate].
  intros [= <-]. rewrite E. reflexivity.
Qed.

(** A converted date is a date. *)
Lemma to_date_again v ms :
  to_date parse_date v = Some ms -> to_date parse_date (JDate ms) = Some ms.
Proof.
  destruct v; cbn [to_date]; try discriminate; try apply valid_time_again.
  destruct (parse_date s) as [a|]; cbn [mbind option_bind]; [|discriminate].
  apply valid_time_again.
Qed.

(** A value that passes a type comes out as a string, a date, a boolean
    or an array, and passes again unchanged, under any label. *)
Lemma check_again now msgs ty : forall label label' v,
  (check parse_date now msgs ty label v).1 = [] ->
  let c := (check parse_date now msgs ty label v).2 in
  check parse_date now msgs ty label' c = ([], c) /\
  c <> JUndefined /\ c <> JNull.
Proof.
  induction ty as [min max allow_empty valid | greater_now | | items IH max];
    intros label label' v; cbv zeta.
  - destruct valid as [|a valid], v; cbn [check fst snd];
      try (intros He; discriminate He);
      repeat (cbn [check fst snd app];
              match goal with
              | |- context [if ?c then _ else _] => destruct c eqn:?
              | |- context [match ?c with Some _ => _ | None => _ end] =>
                 destruct c eqn:?
              end); cbn [check fst snd app];
      try (intros He; discriminate He);
      intros _; repeat split; try discriminate; try reflexivity.
  - cbn [check]. destruct (to_date parse_date v) as [ms|] eqn:Ed;
      [|intros He; discriminate He].
    destruct (greater_now && negb (now <? ms)) eqn:Eg; cbn [fst snd];
      [intros He; discriminate He|].
    intros _. cbn [check]. rewrite (to_date_again v ms Ed), Eg.
    repeat split; discriminate.
  - destruct v; cbn [check fst snd]; try (intros He; discriminate He).
    + intros _. repeat split; discriminate.
    + destruct (String.eqb (string_map ascii_lower s) "true");
        [intros _; cbn [check fst snd]; repeat split; discriminate|].
      destruct (String.eqb (string_map ascii_lower s) "false");
        [intros _; cbn [check fst snd]; repeat split; discriminate
        | intros He; discriminate He].
  - destruct v as [| | | | | |l|];
      try (cbn [check fst snd]; intros He; discriminate He).
    rewrite check_array. cbn [fst snd]. intros He.
    apply app_eq_nil in He. destruct He as [Hc Hm].
    split; [|split; discriminate].
    assert (G : forall l i i',
              concat ((check_items parse_date now msgs items label i l).*1) = [] ->
              let cs := (check_items parse_date now msgs items label i l).*2 in
              concat ((check_items parse_date now msgs items label' i' cs).*1) = [] /\
              (check_items parse_date now msgs items label' i' cs).*2 = cs /\
              length cs = length l).
    { clear l Hc Hm. induction l as [|x r IHl]; intros i i' Hc; [cbn; auto|].
      rewrite check_items_cons, fmap_cons in Hc. cbn [concat] in Hc.
      apply app_eq_nil in Hc. destruct Hc as [Hx Hr].
      destruct (IH (label ++ "[" ++ pretty i ++ "]")
                  (label' ++ "[" ++ pretty i' ++ "]") x Hx) as (E & _ & _).
      destruct (IHl (S i) (S i') Hr) as (E1 & E2 & E3).
      cbv zeta in *. rewrite check_items_cons, !fmap_cons.
      rewrite check_items_cons, !fmap_cons, E. cbn [fst snd concat app length].
      rewrite E1, E2, E3. auto. }
    destruct (G l 0%nat 0%nat Hc) as (G1 & G2 & G3). cbv zeta in *.
    rewrite check_array, G1, G2, G3.
    replace (match max with
             | Some n =>
                 if (n <? length l)%nat
                 then [render msgs label' "array.max" (pretty n)] else []
             | None => []
             end) with (@nil string); [reflexivity|].
    destruct max as [n|]; [|reflexivity].
    destruct (n <? length l)%nat; [discriminate Hm | reflexivity].
Qed.


(** A key that accepted its entry of [obj] accepts the entry it produced,
    and produces it again. *)
Lemma key_again now obj value kv :
  default_admissible parse_date now kv ->
  key_errors parse_date now obj kv = [] ->
  value !! kv.1 = key_value parse_date now obj kv ->
  key_errors parse_date now value kv = [] /\
  key_value parse_date now value kv = value !! kv.1.
Proof.
  destruct kv as [name k]. unfold default_admissible, key_errors, key_value.
  cbn [fst snd]. intros Hdef He Hv.
  assert (P : forall c,
            value !! name = Some c -> c <> JUndefined -> c <> JNull ->
            check parse_date now (k_messages k) (k_type k) name c = ([], c) ->
            (validate_key parse_date now value ([], ∅) (name, k)).1 = [] /\
            (validate_key parse_date now value ([], ∅) (name, k)).2 !! name
            = value !! name).
  { intros c Ec Hu Hn Hc.
    rewrite (validate_key_present _ _ _ _ _ _ c Ec Hu Hn), Hc. cbn [fst snd app].
    rewrite lookup_insert_eq, Ec. auto. }
  assert (A : obj !! name = None \/ obj !! name = Some JUndefined ->
              (validate_key parse_date now value ([], ∅) (name, k)).1 = [] /\
              (validate_key parse_date now value ([], ∅) (name, k)).2 !! name
              = value !! name).
  { intros Ha.
    assert (Hk : validate_key parse_date now obj ([], ∅) (name, k)
                 = if k_required k
                   then ([render (k_messages k) name "any.required" ""], ∅)
                   else match k_default k with
                        | Some d => ([], <[name := d]> ∅)
                        | None => ([], ∅)
                        end).
    { unfold validate_key. destruct Ha as [-> | ->]; reflexivity. }
    rewrite Hk in He, Hv. destruct (k_required k) eqn:Er; [discriminate He|].
    destruct (k_default k) as [d|] eqn:Ed; cbn [fst snd] in Hv.
    - rewrite lookup_insert_eq in Hv. destruct (Hdef d eq_refl) as (Hu & Hn & Hc).
      exact (P d Hv Hu Hn Hc).
    - rewrite lookup_empty in Hv. unfold validate_key. rewrite Hv, Er, Ed.
      cbn [fst snd]. rewrite lookup_empty. auto. }
  destruct (obj !! name) as [v|] eqn:Eo; [|apply A; auto].
  assert (Du : v = JUndefined \/ v <> JUndefined)
    by (destruct v; (left; reflexivity) || (right; discriminate)).
  assert (Dn : v = JNull \/ v <> JNull)
    by (destruct v; (left; reflexivity) || (right; discriminate)).
  destruct Du as [-> | Hu]; [apply A; auto|].
  destruct Dn as [-> | Hn].
  - clear A P. unfold validate_key in He, Hv. rewrite Eo in He, Hv.
    destruct (k_allow_null k) eqn:Ea; [|discriminate He].
    cbn [fst snd] in Hv. rewrite lookup_insert_eq in Hv.
    unfold validate_key. rewrite Hv, Ea. cbn [fst snd].
    rewrite lookup_insert_eq. auto.
  - rewrite (validate_key_present _ _ _ _ _ _ v Eo Hu Hn) in He, Hv.
    cbn [fst snd app] in He, Hv. rewrite lookup_insert_eq in Hv.
    destruct (check_again now (k_messages k) (k_type k) name name v He)
      as (Hc & Hu' & Hn').
    exact (P _ Hv Hu' Hn' Hc).
Qed.

(** What a schema lets through it lets through again, unchanged. *)
Lemma schema_validate_again now schema obj :
  List.NoDup (List.map fst schema) ->
  (forall kv, In kv schema -> default_admissible parse_date now kv) ->
  (schema_validate parse_date now schema obj).1 = [] ->
  schema_validate parse_date now schema
    (schema_validate parse_date now schema obj).2
  = ([], (schema_validate parse_date now schema obj).2).
Proof.
  intros Hd Hdef He. set (value := (schema_validate parse_date now schema obj).2).
  rewrite schema_validate_errors in He.
  assert (K : forall kv, In kv schema ->
            key_errors parse_date now value kv = [] /\
            key_value parse_date now value kv = value !! kv.1).
  { intros kv Hin. apply (key_again now obj).
    - apply Hdef, Hin.
    - apply (proj1 (flat_map_nil _ _) He), Hin.
    - destruct kv as [name k]. apply schema_validate_entry; assumption. }
  rewrite (surjective_pairing (schema_validate parse_date now schema value)).
  f_equal.
  - rewrite schema_validate_errors. apply flat_map_nil. intros kv Hin.
    apply K, Hin.
  - apply map_eq. intros i.
    destruct (in_dec String.string_dec i (List.map fst schema)) as [Hi | Hi].
    + apply List.in_map_iff in Hi. destruct Hi as ([name k] & <- & Hin).
      cbn [fst]. rewrite (schema_validate_entry _ _ _ _ _ k Hd Hin).
      apply (K _ Hin).
    + rewrite schema_validate_strips by exact Hi. symmetry.
      apply schema_validate_strips. exact Hi.
Qed.

Lemma task_schemas_well_formed now schema :
  In schema [createTaskSchema; updateTaskSchema; taskFilterSchema] ->
  List.NoDup (List.map fst schema) /\
  (forall kv, In kv schema -> default_admissible parse_date now kv).
Proof.
  intros [<- | [<- | [<- | []]]]; (split;
    [ repeat constructor; cbn [In List.map fst]; intuition discriminate
    | intros kv Hin;
      unfold createTaskSchema, updateTaskSchema, taskFilterSchema, optional in Hin;
      cbn [In] in Hin;
      repeat (destruct Hin as [<- | Hin]); try destruct Hin;
      intros d Hd; cbn [k_default snd] in Hd; try discriminate Hd;
      injection Hd as <-; repeat split; try discriminate; reflexivity ]).
Qed.

(** X21: what validation hands on satisfies the schema.  The value that
    [validateRequest] or [validateQuery] puts in place of an accepted body
    or query holds keys of the schema only, and the same schema accepts it
    again at the same instant and leaves it as it is: defaults filled in
    and converted dates and booleans are stable. *)
Theorem validated_value_validates_again (schema : Schema) (now : Z)
    (input value : gmap string JsVal) :
  In schema [createTaskSchema; updateTaskSchema; taskFilterSchema] ->
  validateRequest parse_date schema now input = inr value \/
  validateQuery parse_date schema now input = inr value ->
  validateRequest parse_date schema now value = inr value /\
  validateQuery parse_date schema now value = inr value /\
  (forall k, ~ In k (List.map fst schema) -> value !! k = None).
Proof.
  intros Hs Hv. destruct (task_schemas_well_formed now schema Hs) as [Hd Hdef].
  assert (E : (schema_validate parse_date now schema input).1 = [] /\
              value = (schema_validate parse_date now schema input).2).
  { unfold validateRequest, validateQuery in Hv.
    destruct (schema_validate parse_date now schema input) as [[|e errs] v];
      destruct Hv as [Hv | Hv]; try discriminate Hv;
      injection Hv as <-; auto. }
  destruct E as [He ->].
  pose proof (schema_validate_again now schema input Hd Hdef He) as A.
  unfold validateRequest, validateQuery. rewrite A.
  repeat split; try reflexivity.
  intros k Hk. apply schema_validate_strips. exact Hk.
Qed.

End Revalidation.

Lemma validated_value_validates_again_witness :
  let input : gmap string JsVal :=
    {[ "title" := JStr "Buy milk"; "isImportant" := JStr "TRUE";
       "dueDate" := JNum 20000; "owner" := JStr "bob" ]} in
  let value : gmap string JsVal :=
    {[ "title" := JStr "Buy milk"; "isImportant" := JBool true;
       "dueDate" := JDate 20000; "priority" := JStr "medium" ]} in
  validateRequest Samples.no_dates createTaskSchema 10000 input = inr value /\
  validateRequest Samples.no_dates createTaskSchema 10000 value = inr value.
Proof.
  cbv zeta.
  assert (H : validateRequest Samples.no_dates createTaskSchema 10000
                {[ "title" := JStr "Buy milk"; "isImportant" := JStr "TRUE";
                   "dueDate" := JNum 20000; "owner" := JStr "bob" ]}
              = inr {[ "title" := JStr "Buy milk"; "isImportant" := JBool true;
                       "dueDate" := JDate 20000; "priority" := JStr "medium" ]})
    by (vm_compute; reflexivity).
  split; [exact H|].
  apply (validated_value_validates_again Samples.no_dates createTaskSchema 10000
           _ _ (or_introl eq_refl) (or_introl H)).
Defined.

(** ** The importance filter of the list *)

Section ImportantFilter.

Context (parse_date : string -> option Z).
Context (regex : string -> option (string -> bool)).

(** An accepted [isImportant] of the query comes out as a boolean. *)
Lemma validated_isImportant_boolean now query value v :
  validateQuery parse_date taskFilterSchema now query = inr value ->
  query !! "isImportant" = Some v -> v <> JUndefined ->
  exists b, value !! "isImportant" = Some (JBool b).
Proof.
  intros Hv Hq Hu.
  assert (E : (schema_validate parse_date now taskFilterSchema query).1 = [] /\
              value = (schema_validate parse_date now taskFilterSchema query).2).
  { unfold validateQuery in Hv.
    destruct (schema_validate parse_date now taskFilterSchema query) as [[|e errs] x];
      [|discriminate Hv]. injection Hv as <-. auto. }
  destruct E as [He ->].
  destruct (task_schemas_well_formed parse_date now taskFilterSchema) as [Hd _];
    [right; right; left; reflexivity|].
  assert (Hin : In ("isImportant", optional JoiBoolean []) taskFilterSchema)
    by (right; right; left; reflexivity).
  rewrite (schema_validate_entry parse_date now _ query _ _ Hd Hin).
  rewrite schema_validate_errors in He.
  pose proof (proj1 (flat_map_nil _ _) He _ Hin) as Hk.
  unfold key_errors in Hk. unfold key_value.
  destruct v; try congruence;
    try (unfold validate_key in Hk; rewrite Hq in Hk; discriminate Hk).
  - exists b. unfold validate_key. rewrite Hq. cbn [fst snd check optional k_type
      k_messages]. apply lookup_insert_eq.
  - unfold validate_key in Hk |- *. rewrite Hq in Hk |- *.
    cbn [fst snd check optional k_type k_messages app] in Hk |- *.
    destruct (String.eqb (string_map ascii_lower s) "true");
      [exists true; apply lookup_insert_eq|].
    destruct (String.eqb (string_map ascii_lower s) "false");
      [exists false; apply lookup_insert_eq | discriminate Hk].
Qed.

(** X23: a list request that names [isImportant] lists unimportant tasks
    only, whatever value it gives.  Validation turns the value of the query
    string into a boolean, and [getTasks] compares it with the string
    [true], so the filter it builds asks for [isImportant: false]. *)
Theorem isImportant_filter_lists_unimportant (now : Z)
    (query value : gmap string JsVal) (v : JsVal) (caller : UserModel.User)
    (db : Tasks) (t : Task) :
  validateQuery parse_date taskFilterSchema now query = inr value ->
  query !! "isImportant" = Some v -> v <> JUndefined ->
  In t (listed (getTasks regex value caller db)) ->
  isImportant t = false.
Proof.
  intros Hv Hq Hu Hin.
  destruct (validated_isImportant_boolean now query value v Hv Hq Hu) as [b Hb].
  destruct (list_filter (UserModel._id caller) value) as [f|e] eqn:Hf.
  - destruct (TaskModel.find regex f db) as [found|e] eqn:Hfd.
    + rewrite (getTasks_found _ _ _ _ _ _ Hf Hfd) in Hin. cbn [listed data] in Hin.
      rewrite <- list_elem_of_In, sort_perm, list_elem_of_In in Hin.
      rewrite (find_found _ _ _ _ Hfd) in Hin. apply filter_In in Hin.
      destruct Hin as [_ Hm].
      assert (Hi : f_isImportant f = Some false).
      { revert Hf. unfold list_filter.
        destruct (filter_string (get value "status")); [|discriminate].
        destruct (filter_string (get value "priority")); [|discriminate].
        destruct (filter_regex (get value "search")); [|discriminate].
        cbn [mbind Result_bind]. intros [= <-]. cbn [f_isImportant].
        unfold get. rewrite Hb. reflexivity. }
      unfold matches in Hm. rewrite Hi in Hm. cbn [opt_test] in Hm.
      apply andb_prop in Hm. destruct Hm as [Hm _].
      apply andb_prop in Hm. destruct Hm as [Hm _].
      apply andb_prop in Hm. destruct Hm as [_ Hm].
      destruct (isImportant t); [discriminate Hm | reflexivity].
    + rewrite getTasks_failed in Hin; [destruct Hin | intros; congruence].
  - rewrite getTasks_failed in Hin; [destruct Hin | intros; congruence].
Qed.

End ImportantFilter.

Lemma isImportant_filter_lists_unimportant_witness :
  In Samples.task1
     (listed (getTasks Samples.any_regex {[ "isImportant" := JBool true ]}
                Samples.alice Samples.sample_tasks)) /\
  isImportant Samples.task1 = false.
Proof.
  assert (H : In Samples.task1
                (listed (getTasks Samples.any_regex {[ "isImportant" := JBool true ]}
                           Samples.alice Samples.sample_tasks)))
    by (vm_compute; left; reflexivity).
  split; [exact H|].
  apply (isImportant_filter_lists_unimportant Samples.no_dates Samples.any_regex
           10000 {[ "isImportant" := JStr "true" ]} {[ "isImportant" := JBool true ]}
           (JStr "true") Samples.alice Samples.sample_tasks Samples.task1);
    [vm_compute; reflexivity | vm_compute; reflexivity | discriminate | exact H].
Defined.
